(** * CLUE tutor scheduling: the formulation engine and the assignment facade

    A shallow embedding of [Code/model.ipynb] (classes [Model] and
    [Schedule]) and the properties of its specification.

    Conventions of the embedding:
    - Python integers are [Z]. A Python [float] (availability codes, target
      fractions, weights, solver values) is given by its exact value, a
      rational [Q]; comparisons are exact ([Qeq_bool], [Qle_bool]). Where
      the code itself computes with floats, in the tolerance test on the
      target fractions and in the quotient [-1/N_T], the operations are
      those of IEEE 754 binary64, rounding to nearest with ties to even
      ([SpecFloat] at precision 53). An integer below [2^53] behaves as the
      float of the same value. The arithmetic that [gurobipy] does on the
      coefficients of its expressions is not part of the program and is
      kept exact.
    - Python exceptions are values of [exn]; code that can raise lives in the
      error monad [outcome], construction code in the state-and-error monad
      [Model.M], whose state survives a raise (as the side effects on the
      solver object do in Python).
    - [gurobipy] is an external library: its model object is the record
      [GModel], expressions are syntax trees [Expr] with their value under a
      valuation, and [optimize] is a parameter of the development.
    - Printing is an effect on the list of the lines printed so far
      ([IO.t]); strings are strings of ASCII characters, and the colours of
      [colorama] are its escape sequences. *)

From Stdlib Require Import ZArith QArith Qabs List Ascii String Lia SpecFloat.
From stdpp Require Import base list strings gmap pretty.

Set Default Proof Using "Type".
Local Open Scope Z_scope.

(** ** Exceptions and the error monad *)

Inductive exn : Type :=
  | AssertionError
  | IndexError
  | KeyError
  | TypeError
  | ValueError
  | ZeroDivisionError
  | OverflowError
  | Exception (msg : string).

Inductive outcome (A : Type) : Type :=
  | Ok (a : A)
  | Raise (e : exn).
Arguments Ok {A} a.
Arguments Raise {A} e.

Definition obind {A B} (c : outcome A) (k : A → outcome B) : outcome B :=
  match c with
  | Ok a => k a
  | Raise e => Raise e
  end.

#[global] Instance outcome_ret : MRet outcome := @Ok.
#[global] Instance outcome_bind : MBind outcome := λ A B k c, obind c k.

(** [assert c] *)
Definition py_assert (c : bool) : outcome unit :=
  if c then Ok tt else Raise AssertionError.

(** [[f(x) for x in l]] where [f] may raise: elements are evaluated left to
    right and the first exception aborts the comprehension. *)
Fixpoint comprehension {A B} (f : A → outcome B) (l : list A) : outcome (list B) :=
  match l with
  | [] => Ok []
  | x :: l' =>
      y ← f x;
      ys ← comprehension f l';
      Ok (y :: ys)
  end.

(** [[f(x) for x in l if c(x)]] *)
Fixpoint comprehension_if {A B} (c : A → outcome bool) (f : A → outcome B)
    (l : list A) : outcome (list B) :=
  match l with
  | [] => Ok []
  | x :: l' =>
      b ← c x;
      if (b : bool) then
        y ← f x;
        ys ← comprehension_if c f l';
        Ok (y :: ys)
      else comprehension_if c f l'
  end.

(** ** Python sequences and dictionaries *)

(** [range(n)] *)
Definition range (n : Z) : list Z := map Z.of_nat (seq 0 (Z.to_nat n)).

(** [[e for t in range(n_t) for d in range(n_d)]] iterates over these pairs. *)
Definition range2 (n_t n_d : Z) : list (Z * Z) :=
  t ← range n_t; (λ d, (t, d)) <$> range n_d.

(** [l[i]] for an integer [i]: negative indices count from the end, an index
    out of range raises [IndexError]. *)
Definition py_index {A} (l : list A) (i : Z) : outcome A :=
  let n := Z.of_nat (length l) in
  let j := if i <? 0 then i + n else i in
  if (j <? 0) || (n <=? j) then Raise IndexError
  else match l !! Z.to_nat j with
       | Some x => Ok x
       | None => Raise IndexError
       end.

(** [a[t][d]] *)
Definition index2 {A} (a : list (list A)) (t d : Z) : outcome A :=
  row ← py_index a t; py_index row d.

(** [l[start:stop]] (step 1): bounds are clamped to the list, never raises. *)
Definition slice_bound (n : Z) (dflt : Z) (b : option Z) : Z :=
  match b with
  | None => dflt
  | Some i => if i <? 0 then Z.max (i + n) 0 else Z.min i n
  end.

Definition py_slice {A} (l : list A) (start stop : option Z) : list A :=
  let n := Z.of_nat (length l) in
  let lo := slice_bound n 0 start in
  let hi := slice_bound n n stop in
  take (Z.to_nat (hi - lo)) (drop (Z.to_nat lo) l).

(** [sum(l)] of booleans: the number of [True]s. *)
Definition sum_bool (l : list bool) : Z :=
  fold_left (λ acc (b : bool), acc + (if b then 1 else 0)) l 0.

(** [x in l] on numbers: some element of [l] equals [x]. *)
Definition in_Q (x : Q) (l : list Q) : bool := existsb (Qeq_bool x) l.
Definition in_Z (x : Z) (l : list Z) : bool := existsb (Z.eqb x) l.

(** ** Python floats: IEEE 754 binary64 *)

(** The float nearest to a rational: round to nearest, ties to even, with
    gradual underflow and overflow to infinity. It is the identity on the
    values of floats, and the value of a decimal literal such as [0.237]
    is [float_of_Q (237 # 1000)]. *)
Definition float_of_Q (q : Q) : spec_float :=
  match Qnum q with
  | Z0 => S754_zero false
  | Zpos n => SFdiv 53 1024 (S754_finite false n 0) (S754_finite false (Qden q) 0)
  | Zneg n => SFdiv 53 1024 (S754_finite true n 0) (S754_finite false (Qden q) 0)
  end.

(** The exact value of a finite float (0 for the infinities and NaN, which
    are not numbers). *)
Definition Q_of_float (x : spec_float) : Q :=
  match x with
  | S754_finite s m e =>
      let v := if e <? 0 then Z.pos m # Z.to_pos (2 ^ (- e))
               else inject_Z (Z.pos m * 2 ^ e) in
      if s then Qopp v else v
  | _ => 0%Q
  end.

(** A float that is a number: neither an infinity nor NaN. *)
Definition finite_float (x : spec_float) : Prop :=
  match x with S754_infinity _ | S754_nan => False | _ => True end.

(** [x + y], [x - y], [abs(x)] and [x < y] on floats. *)
Definition float_add : spec_float → spec_float → spec_float := SFadd 53 1024.
Definition float_sub : spec_float → spec_float → spec_float := SFsub 53 1024.
Definition float_abs : spec_float → spec_float := SFabs.
Definition float_lt : spec_float → spec_float → bool := SFltb.

(** [sum(l)] of floats: starting from 0, the additions are rounded one
    after the other. This is the [sum] of Python 3.11, the version that
    the notebook records for its kernel; from Python 3.12 on, [sum]
    compensates the rounding errors of the additions. *)
Definition sum_float (l : list Q) : spec_float :=
  fold_left (λ acc f, float_add acc (float_of_Q f)) l (S754_zero false).

(** [x/y] on integers: the float nearest to the quotient, [OverflowError]
    when the quotient is too large for a float. *)
Definition py_div (x y : Z) : outcome Q :=
  if y =? 0 then Raise ZeroDivisionError
  else match float_of_Q (inject_Z x / inject_Z y) with
       | S754_infinity _ | S754_nan => Raise OverflowError
       | r => Ok (Q_of_float r)
       end.

(** [int(x)] on a number: truncation towards zero. *)
Definition py_int (q : Q) : Z := Z.quot (Qnum q) (Z.pos (Qden q)).

(** [l.index(x)]: the first position of [x], [ValueError] when absent. *)
Fixpoint list_index (x : string) (l : list string) : outcome Z :=
  match l with
  | [] => Raise ValueError
  | y :: l' => if String.eqb y x then Ok 0 else n ← list_index x l'; Ok (n + 1)
  end.

(** [d[k]] on a dictionary. *)
Definition dict_get {V} (d : gmap string V) (k : string) : outcome V :=
  match d !! k with
  | Some v => Ok v
  | None => Raise KeyError
  end.

(** [{k: v for (k, v) in kvs}]: later bindings overwrite earlier ones. *)
Definition dict_of {V} (kvs : list (string * V)) : gmap string V :=
  fold_left (λ d kv, <[kv.1 := kv.2]> d) kvs ∅.

(** ** Arbitrarily nested lists *)

(** A Python value that is either a list of such values or a non-list leaf. *)
#[local] Unset Elimination Schemes.
Inductive nested (A : Type) : Type :=
  | Leaf (a : A)
  | PyList (l : list (nested A)).
#[local] Set Elimination Schemes.
Arguments Leaf {A} a.
Arguments PyList {A} l.

Section nested_induction.
Context {A : Type} (P : nested A → Prop).
Hypothesis Hleaf : ∀ a, P (Leaf a).
Hypothesis Hlist : ∀ l, Forall P l → P (PyList l).

Fixpoint nested_rect' (x : nested A) : P x :=
  match x with
  | Leaf a => Hleaf a
  | PyList l =>
      Hlist l ((fix go (l : list (nested A)) : Forall P l :=
                  match l with
                  | [] => Forall_nil_2 P
                  | y :: l' => Forall_cons_2 P y l' (nested_rect' y) (go l')
                  end) l)
  end.
End nested_induction.

(** An index or a slice in a subscript. *)
Inductive selector : Type :=
  | Idx (i : Z)
  | Slice (start stop : option Z).

(** [:] *)
Definition All : selector := Slice None None.

(** [x[sel]] on a nested list. *)
Definition subscript {A} (x : nested A) (sel : selector) : outcome (nested A) :=
  match x with
  | Leaf _ => Raise TypeError
  | PyList l =>
      match sel with
      | Idx i => py_index l i
      | Slice start stop => Ok (PyList (py_slice l start stop))
      end
  end.

(** ** The external solver library (gurobipy), as far as the code uses it *)

(** [GRB.BINARY] and the other variable types. *)
Inductive vtype : Type := GRB_BINARY | GRB_INTEGER | GRB_CONTINUOUS.

(** A variable handle returned by [addVar]: its position in the model, its
    type and its name. *)
Record Var : Type := mkVar { var_index : nat; var_vtype : vtype; var_name : string }.

(** Linear and quadratic expressions over variable handles, as built by the
    overloaded arithmetic of the library. *)
Inductive Expr : Type :=
  | EConst (q : Q)
  | EVar (v : Var)
  | EAdd (e1 e2 : Expr)
  | ESub (e1 e2 : Expr)
  | EMul (e1 e2 : Expr)
  | EPow (e : Expr) (n : positive).

(** The value of an expression when each variable [v] takes the value
    [val v]. *)
Fixpoint eval (val : Var → Q) (e : Expr) : Q :=
  match e with
  | EConst q => q
  | EVar v => val v
  | EAdd e1 e2 => (eval val e1 + eval val e2)%Q
  | ESub e1 e2 => (eval val e1 - eval val e2)%Q
  | EMul e1 e2 => (eval val e1 * eval val e2)%Q
  | EPow e n => Qpower_positive (eval val e) n
  end.

(** Constraints built by [<=], [>=] and [==] on expressions. *)
Inductive sense : Type := LessEqual | GreaterEqual | Equal.
Record Constr : Type := mkConstr { lhs : Expr; csense : sense; rhs : Expr }.

(** A valuation satisfies a constraint. *)
Definition sat (val : Var → Q) (c : Constr) : Prop :=
  match csense c with
  | LessEqual => (eval val (lhs c) <= eval val (rhs c))%Q
  | GreaterEqual => (eval val (rhs c) <= eval val (lhs c))%Q
  | Equal => (eval val (lhs c) == eval val (rhs c))%Q
  end.

Definition GRB_MAXIMIZE : Z := -1.
Definition GRB_LOADED : Z := 1.
Definition GRB_OPTIMAL : Z := 2.
Definition GRB_INFEASIBLE : Z := 3.

(** The state of a [gurobipy.Model]: what was added to it, its status
    attribute and, after [optimize], the attribute [X] of each variable. *)
Record GModel : Type := mkGModel {
  gvars : list Var;
  gconstrs : list Constr;
  gobjective : option (Expr * Z);
  gparams : list (string * bool);
  goptimized : bool;
  gstatus : Z;
  gX : Var → Q
}.

(** A fresh [gurobipy.Model]. *)
Definition gurobipy_Model : GModel :=
  mkGModel [] [] None [] false GRB_LOADED (λ _, 0%Q).

(** [sum(l)] on expressions: [0 + l[0] + l[1] + ...]. *)
Definition sum_Expr (l : list Expr) : Expr := fold_left EAdd l (EConst 0).

(** What [Model.__getitem__] returns besides [None]: variable handles while
    the model is loading, their integer values afterwards. *)
Inductive item : Type :=
  | Handles (x : nested Var)
  | Values (x : nested Z).

(** ** The formulation engine: class [Model] *)

Module Model.

(** Flag indicating whether to check the constructor arguments. *)
Definition __VALIDATE : bool := true.

Definition IN_PERSON : Z := 0.
Definition VIRTUAL : Z := 1.

Definition UNAVAILABLE : Q := 0.
Definition NOT_PREFERRED : Q := 1 # 2.
Definition PREFERRED : Q := 1.

Definition PREFER_VIRTUAL : Z := -1.
Definition NO_PREFERENCE : Z := 0.
Definition PREFER_IN_PERSON : Z := 1.

Definition LOADING : Z := 0.
Definition OPTIMAL : Z := 1.
Definition INFEASIBLE : Z := 2.

(** The attributes of an instance. [__xp] and [__xv] are empty until
    [__set_decision_variables] assigns them. *)
Record t : Type := mk {
  model : GModel;
  status : Z;
  N_T : Z;
  N_D : Z;
  __xp : list (list Var);
  __xv : list (list Var)
}.

Definition with_model (g : GModel) (self : t) : t :=
  mk g (status self) (N_T self) (N_D self) (__xp self) (__xv self).

(** Methods that modify the instance or the solver object: the state is
    kept when an exception is raised. *)
Definition M (A : Type) : Type := t → outcome A * t.

Definition ret {A} (a : A) : M A := λ self, (Ok a, self).
Definition bind {A B} (c : M A) (k : A → M B) : M B :=
  λ self, match c self with
          | (Ok a, self') => k a self'
          | (Raise e, self') => (Raise e, self')
          end.
Definition lift {A} (c : t → outcome A) : M A := λ self, (c self, self).

Module Notations.
Declare Scope M_scope.
Delimit Scope M_scope with M.
Bind Scope M_scope with M.
Notation "x <- c ;; k" := (bind c (λ x, k))
  (at level 100, c at next level, right associativity) : M_scope.
Notation "c ;; k" := (bind c (λ _, k))
  (at level 100, right associativity) : M_scope.
End Notations.
Import Notations.

(** [for x in l: body(x)] *)
Fixpoint for_each {A} (l : list A) (body : A → M unit) : M unit :=
  match l with
  | [] => ret tt
  | x :: l' => bind (body x) (λ _, for_each l' body)
  end.

(** [[f(x) for x in l]] where [f] has effects. *)
Fixpoint collect {A B} (f : A → M B) (l : list A) : M (list B) :=
  match l with
  | [] => ret []
  | x :: l' => bind (f x) (λ y, bind (collect f l') (λ ys, ret (y :: ys)))
  end.

(** [self.model.addVar(vtype=vt, name=name)] *)
Definition addVar (vt : vtype) (name : string) : M Var :=
  λ self,
    let g := model self in
    let v := mkVar (length (gvars g)) vt name in
    (Ok v, with_model (mkGModel (gvars g ++ [v]) (gconstrs g) (gobjective g)
                         (gparams g) (goptimized g) (gstatus g) (gX g)) self).

(** [self.model.addConstr(c)] *)
Definition addConstr (c : Constr) : M unit :=
  λ self,
    let g := model self in
    (Ok tt, with_model (mkGModel (gvars g) (gconstrs g ++ [c]) (gobjective g)
                          (gparams g) (goptimized g) (gstatus g) (gX g)) self).

(** [self.model.setObjective(e, sns)] *)
Definition setObjective (e : Expr) (sns : Z) : M unit :=
  λ self,
    let g := model self in
    (Ok tt, with_model (mkGModel (gvars g) (gconstrs g) (Some (e, sns))
                          (gparams g) (goptimized g) (gstatus g) (gX g)) self).

(** [self.model.setParam(name, value)] *)
Definition setParam (name : string) (value : bool) : M unit :=
  λ self,
    let g := model self in
    (Ok tt, with_model (mkGModel (gvars g) (gconstrs g) (gobjective g)
                          (gparams g ++ [(name, value)]) (goptimized g)
                          (gstatus g) (gX g)) self).

Definition set_xp (xp : list (list Var)) : M unit :=
  λ self, (Ok tt, mk (model self) (status self) (N_T self) (N_D self) xp (__xv self)).
Definition set_xv (xv : list (list Var)) : M unit :=
  λ self, (Ok tt, mk (model self) (status self) (N_T self) (N_D self) (__xp self) xv).
Definition set_status (st : Z) : M unit :=
  λ self, (Ok tt, mk (model self) st (N_T self) (N_D self) (__xp self) (__xv self)).

(** [Model.__unwrap_then_map] *)
Fixpoint __unwrap_then_map {A B} (x : nested A) (f : A → B) : nested B :=
  match x with
  | PyList l => PyList (map (λ x_, __unwrap_then_map x_ f) l)
  | Leaf a => Leaf (f a)
  end.

(** The list of lists [self.__xp] as a nested value. *)
Definition rows_of (x : list (list Var)) : nested Var :=
  PyList (map (λ row, PyList (map Leaf row)) x).

(** [r if self.status==Model.LOADING else
     Model.__unwrap_then_map(r, lambda x: int(x.X))] *)
Definition resolve (self : t) (r : nested Var) : item :=
  if status self =? LOADING then Handles r
  else Values (__unwrap_then_map r (λ x, py_int (gX (model self) x))).

(** [Model.__getitem__], with [idx = (mode, tutors, days)]. *)
Definition __getitem__ (self : t) (idx : Z * selector * selector)
    : outcome (option item) :=
  let '(mode, tutors, days) := idx in
  _ ← py_assert ((mode =? IN_PERSON) || (mode =? VIRTUAL));
  if status self =? INFEASIBLE then Ok None
  else
    rows ← subscript (rows_of (if mode =? IN_PERSON then __xp self else __xv self))
                     tutors;
    match rows with
    | Leaf _ => Raise TypeError
    | PyList [] => Ok (Some (resolve self (PyList [])))
    | PyList (Leaf _ :: _) =>
        r ← subscript rows days;
        Ok (Some (resolve self r))
    | PyList ((PyList _ :: _) as l) =>
        r ← comprehension (λ row, subscript row days) l;
        Ok (Some (resolve self (PyList r)))
    end.

(** A value used as an operand of [+], [<=] or [==] with an expression. *)
Definition operand (r : option item) : outcome Expr :=
  match r with
  | Some (Handles (Leaf v)) => Ok (EVar v)
  | Some (Values (Leaf z)) => Ok (EConst (inject_Z z))
  | _ => Raise TypeError
  end.

(** [sum(r)] for [r] returned by the indexer. *)
Definition sum_item (r : option item) : outcome Expr :=
  match r with
  | Some (Handles (PyList l)) =>
      es ← comprehension (λ x, operand (Some (Handles x))) l; Ok (sum_Expr es)
  | Some (Values (PyList l)) =>
      es ← comprehension (λ x, operand (Some (Values x))) l; Ok (sum_Expr es)
  | _ => Raise TypeError
  end.

(** [sum(self[mode,tutors,days])] and [self[mode,t,d]] as an operand. *)
Definition sum_at (self : t) (mode : Z) (tutors days : selector) : outcome Expr :=
  r ← __getitem__ self (mode, tutors, days); sum_item r.
Definition operand_at (self : t) (mode : Z) (tutors days : selector) : outcome Expr :=
  r ← __getitem__ self (mode, tutors, days); operand r.

(** The assertions of [Model.__set_decision_variables]. *)
Definition variables_checks (N_T N_D : Z) : outcome unit :=
  _ ← py_assert (0 <? N_T);
  py_assert (0 <? N_D).

(** [Model.__set_decision_variables] *)
Definition __set_decision_variables (N_T N_D : Z) : M unit :=
  (lift (λ _, if __VALIDATE then variables_checks N_T N_D else Ok tt) ;;
   xp <- collect (λ t, collect (λ d,
           addVar GRB_BINARY ("xp_(" +:+ pretty t +:+ "," +:+ pretty d +:+ ")"))
           (range N_D)) (range N_T) ;;
   set_xp xp ;;
   xv <- collect (λ t, collect (λ d,
           addVar GRB_BINARY ("xv_(" +:+ pretty t +:+ "," +:+ pretty d +:+ ")"))
           (range N_D)) (range N_T) ;;
   set_xv xv)%M.

(** The assertions of [Model.__set_constraints], in their order. *)
Definition constraints_checks (N_T N_D lp lv s sp : Z) (S : list Z)
    (a : list (list Q)) : outcome unit :=
  _ ← py_assert (0 <=? lp);
  _ ← py_assert (0 <=? lv);
  _ ← py_assert (0 <=? s);
  _ ← py_assert (0 <=? sp);
  _ ← py_assert (Z.of_nat (length S) =? N_T);
  _ ← py_assert (sum_bool (map (λ S_t, 0 <=? S_t) S) =? N_T);
  _ ← py_assert (Z.of_nat (length a) =? N_T);
  _ ← py_assert (sum_bool (map (λ row, Z.of_nat (length row) =? N_D) a) =? N_T);
  bs ← comprehension
         (λ '(t, d), a_td ← index2 a t d;
                     Ok (in_Q a_td [UNAVAILABLE; NOT_PREFERRED; PREFERRED]))
         (range2 N_T N_D);
  py_assert (sum_bool bs =? N_T * N_D).

(** [Model.__set_constraints] *)
Definition __set_constraints (lp lv s sp : Z) (S : list Z) (a : list (list Q))
    : M unit :=
  (self0 <- lift Ok ;;
   let N_T := N_T self0 in
   let N_D := N_D self0 in
   lift (λ _, if __VALIDATE then constraints_checks N_T N_D lp lv s sp S a
              else Ok tt) ;;
   for_each (range N_T) (λ t,
     Xp_t <- lift (λ self, sum_at self IN_PERSON (Idx t) All) ;;
     Xv_t <- lift (λ self, sum_at self VIRTUAL (Idx t) All) ;;
     S_t <- lift (λ _, py_index S t) ;;
     addConstr (mkConstr (EAdd Xp_t Xv_t) LessEqual (EConst (inject_Z S_t))) ;;
     addConstr (mkConstr (EAdd Xp_t Xv_t) GreaterEqual (EConst (inject_Z s))) ;;
     addConstr (mkConstr Xp_t GreaterEqual (EConst (inject_Z sp))) ;;
     for_each (range N_D) (λ d,
       a_td <- lift (λ _, index2 a t d) ;;
       if Qeq_bool a_td UNAVAILABLE then
         xp_td <- lift (λ self, operand_at self IN_PERSON (Idx t) (Idx d)) ;;
         addConstr (mkConstr xp_td Equal (EConst 0)) ;;
         xv_td <- lift (λ self, operand_at self VIRTUAL (Idx t) (Idx d)) ;;
         addConstr (mkConstr xv_td Equal (EConst 0))
       else
         xp_td <- lift (λ self, operand_at self IN_PERSON (Idx t) (Idx d)) ;;
         xv_td <- lift (λ self, operand_at self VIRTUAL (Idx t) (Idx d)) ;;
         addConstr (mkConstr (EAdd xp_td xv_td) LessEqual (EConst 1)))) ;;
   for_each (range N_D) (λ d,
     Xp_d <- lift (λ self, sum_at self IN_PERSON All (Idx d)) ;;
     addConstr (mkConstr Xp_d GreaterEqual (EConst (inject_Z lp))) ;;
     Xv_d <- lift (λ self, sum_at self VIRTUAL All (Idx d)) ;;
     addConstr (mkConstr Xv_d GreaterEqual (EConst (inject_Z lv)))))%M.

(** The tolerance [epsilon = 10**-3]: a negative power of an integer is a
    float, here the float nearest to 1/1000. *)
Definition epsilon : spec_float := float_of_Q (1 # 1000).

(** The assertions of [Model.__set_objective_function], in their order. *)
Definition objective_checks (N_T N_D : Z) (m : list Z) (fp fv : list Q)
    (w1 w2 w3 w4 : Q) : outcome unit :=
  _ ← py_assert (Z.of_nat (length m) =? N_T);
  _ ← py_assert (sum_bool (map (λ m_t,
         in_Z m_t [PREFER_VIRTUAL; NO_PREFERENCE; PREFER_IN_PERSON]) m) =? N_T);
  _ ← py_assert (Z.of_nat (length fp) =? N_D);
  _ ← py_assert (sum_bool (map (λ f, Qle_bool 0 f) fp) =? N_D);
  _ ← py_assert (Z.of_nat (length fv) =? N_D);
  _ ← py_assert (sum_bool (map (λ f, Qle_bool 0 f) fv) =? N_D);
  _ ← py_assert (float_lt (float_abs (float_sub (float_sub (float_of_Q 1)
                                                            (sum_float fp))
                                                 (sum_float fv))) epsilon);
  _ ← py_assert (Qle_bool 0 w1);
  _ ← py_assert (Qle_bool 0 w2);
  _ ← py_assert (Qle_bool 0 w3);
  py_assert (Qle_bool 0 w4).

(** The expression that [Model.__set_objective_function] passes to
    [setObjective]. *)
Definition objective (self : t) (a : list (list Q)) (m : list Z) (fp fv : list Q)
    (w1 w2 w3 w4 : Q) : outcome Expr :=
  let N_T := N_T self in
  let N_D := N_D self in
  _ ← (if __VALIDATE then objective_checks N_T N_D m fp fv w1 w2 w3 w4
       else Ok tt);
  x ← comprehension (λ t, comprehension (λ d,
         xp_td ← operand_at self IN_PERSON (Idx t) (Idx d);
         xv_td ← operand_at self VIRTUAL (Idx t) (Idx d);
         Ok (EAdd xp_td xv_td)) (range N_D)) (range N_T);
  xs ← comprehension (λ '(t, d), index2 x t d) (range2 N_T N_D);
  let X := sum_Expr xs in
  c ← py_div (-1) N_T;
  terms ← comprehension (λ d,
         fp_d ← py_index fp d;
         Xp_d ← sum_at self IN_PERSON All (Idx d);
         fv_d ← py_index fv d;
         Xv_d ← sum_at self VIRTUAL All (Idx d);
         Ok (EAdd (EPow (ESub (EMul X (EConst fp_d)) Xp_d) 2)
                  (EPow (ESub (EMul X (EConst fv_d)) Xv_d) 2))) (range N_D);
  let ALIGN := EMul (EConst c) (sum_Expr terms) in
  dps ← comprehension (λ '(t, d),
         a_td ← index2 a t d;
         x_td ← index2 x t d;
         Ok (EMul (EConst a_td) x_td)) (range2 N_T N_D);
  let DAY_PREF := EAdd (EMul (EConst (-3)) X) (EMul (EConst 4) (sum_Expr dps)) in
  mps ← comprehension (λ '(t, d),
         xp_td ← index2 (__xp self) t d;
         xv_td ← index2 (__xv self) t d;
         m_t ← py_index m t;
         Ok (EMul (ESub (EVar xp_td) (EVar xv_td)) (EConst (inject_Z m_t))))
         (range2 N_T N_D);
  let MODE_PREF := sum_Expr mps in
  Ok (EAdd (EAdd (EAdd (EMul (EConst w1) X) (EMul (EConst w2) ALIGN))
                 (EMul (EConst w3) DAY_PREF))
           (EMul (EConst w4) MODE_PREF)).

(** [Model.__set_objective_function] *)
Definition __set_objective_function (a : list (list Q)) (m : list Z)
    (fp fv : list Q) (w1 w2 w3 w4 : Q) : M unit :=
  (e <- lift (λ self, objective self a m fp fv w1 w2 w3 w4) ;;
   setObjective e GRB_MAXIMIZE)%M.

Section solver.
(** The external solver: from the submitted program to the status code
    and the value [X] of each variable. *)
Variable optimize : GModel → Z * (Var → Q).

(** [self.model.optimize()] *)
Definition model_optimize : M unit :=
  λ self,
    let g := model self in
    let '(st, X) := optimize g in
    (Ok tt, with_model (mkGModel (gvars g) (gconstrs g) (gobjective g)
                          (gparams g) true st X) self).

(** [Model.__solve] *)
Definition __solve : M unit :=
  (setParam "OutputFlag" false ;;
   model_optimize ;;
   self <- lift Ok ;;
   set_status (if gstatus (model self) =? GRB_OPTIMAL then OPTIMAL else INFEASIBLE))%M.

(** [Model.__init__]: the outcome of the constructor and the instance
    as the constructor left it. *)
Definition __init__ (N_T N_D lp lv : Z) (S : list Z) (s sp : Z)
    (a : list (list Q)) (m : list Z) (fp fv : list Q) (w1 w2 w3 w4 : Q)
    : outcome unit * t :=
  (__set_decision_variables N_T N_D ;;
   __set_constraints lp lv s sp S a ;;
   __set_objective_function a m fp fv w1 w2 w3 w4 ;;
   __solve)%M (mk gurobipy_Model LOADING N_T N_D [] []).
End solver.

End Model.

(** ** Strings and printed output *)

(** [len(s)] of a string of ASCII characters. *)
Definition py_len (s : string) : Z := Z.of_nat (String.length s).

(** [max(l)] of integers: [ValueError] on the empty list. *)
Definition py_max (l : list Z) : outcome Z :=
  match l with
  | [] => Raise ValueError
  | x :: l' => Ok (fold_left Z.max l' x)
  end.

(** [n * " "] *)
Fixpoint spaces (n : nat) : string :=
  match n with
  | O => EmptyString
  | S n' => String " " (spaces n')
  end.

(** [("{:>"+str(w)+"}").format(s)] for [w >= 0]: [s] right-aligned in a
    field of [w] characters, filled with spaces; a longer [s] is not cut. *)
Definition rjust (w : Z) (s : string) : string :=
  spaces (Z.to_nat (w - py_len s)) +:+ s.

(** [s.replace(c, r)] for a pattern [c] of one character: every occurrence
    is replaced. *)
Fixpoint replace_char (c : ascii) (r : string) (s : string) : string :=
  match s with
  | EmptyString => EmptyString
  | String x s' =>
      if Ascii.eqb x c then r +:+ replace_char c r s'
      else String x (replace_char c r s')
  end.

(** The line break. *)
Definition newline : string := String "010"%char EmptyString.

(** [sum(x)] of integers: [x] has to be a list, and its elements numbers. *)
Definition py_sum (x : nested Z) : outcome Z :=
  match x with
  | Leaf _ => Raise TypeError
  | PyList l =>
      fold_left (λ acc y, a ← acc;
                          match y with
                          | Leaf z => Ok (a + z)
                          | PyList _ => Raise TypeError
                          end) l (Ok 0)
  end.

(** [for x in l: acc = f(acc, x)] where [f] may raise. *)
Fixpoint py_fold {A B} (f : B → A → outcome B) (l : list A) (acc : B) : outcome B :=
  match l with
  | [] => Ok acc
  | x :: l' => acc' ← f acc x; py_fold f l' acc'
  end.

(** The escape sequences of the library [colorama] that the code prints. *)
Module colorama.
Definition ESC : string := String "027"%char EmptyString.
Definition Fore_BLUE : string := ESC +:+ "[34m".
Definition Fore_MAGENTA : string := ESC +:+ "[35m".
Definition Fore_RED : string := ESC +:+ "[31m".
Definition Style_RESET_ALL : string := ESC +:+ "[0m".
End colorama.

(** Code that prints: the lines printed so far are a state, which is kept
    when an exception is raised. Each [print] adds one entry, the text
    before the final line break. *)
Module IO.
Definition t (A : Type) : Type := list string → outcome A * list string.

Definition ret {A} (a : A) : t A := λ out, (Ok a, out).
Definition bind {A B} (c : t A) (k : A → t B) : t B :=
  λ out, match c out with
         | (Ok a, out') => k a out'
         | (Raise e, out') => (Raise e, out')
         end.
Definition lift {A} (c : outcome A) : t A := λ out, (c, out).

(** [print(s)] *)
Definition print (s : string) : t unit := λ out, (Ok tt, out ++ [s]).

Module Notations.
Declare Scope IO_scope.
Delimit Scope IO_scope with IO.
Bind Scope IO_scope with t.
Notation "x <- c ;; k" := (bind c (λ x, k))
  (at level 100, c at next level, right associativity) : IO_scope.
Notation "c ;; k" := (bind c (λ _, k))
  (at level 100, right associativity) : IO_scope.
End Notations.
Import Notations.

(** [for x in l: body(x)] *)
Fixpoint for_each {A} (l : list A) (body : A → t unit) : t unit :=
  match l with
  | [] => ret tt
  | x :: l' => bind (body x) (λ _, for_each l' body)
  end.
End IO.

(** ** The assignment facade: class [Schedule] *)

Module Schedule.

Definition UNAVAILABLE : Q := Model.UNAVAILABLE.
Definition NOT_PREFERRED : Q := Model.NOT_PREFERRED.
Definition PREFERRED : Q := Model.PREFERRED.

Definition PREFER_VIRTUAL : Z := Model.PREFER_VIRTUAL.
Definition NO_PREFERENCE : Z := Model.NO_PREFERENCE.
Definition PREFER_IN_PERSON : Z := Model.PREFER_IN_PERSON.

Definition IN_PERSON : Z := Model.IN_PERSON.
Definition VIRTUAL : Z := Model.VIRTUAL.
Definition EITHER : Z := Z.max Model.IN_PERSON Model.VIRTUAL + 1.

Record t : Type := mk {
  tutors : list string;
  __tutor_index : gmap string Z;
  days : list string;
  __day_index : gmap string Z;
  __model : Model.t
}.

Section solver.
Variable optimize : GModel → Z * (Var → Q).

(** [Schedule.__init__] *)
Definition __init__ (tutors days : list string)
    (min_tutors_ip min_tutors_v min_tutor_shifts min_tutor_ip_shifts : Z)
    (max_shifts_by_tutor mode_preference : gmap string Z)
    (availability : gmap string (gmap string Q))
    (target_ip_fractions target_v_fractions : gmap string Q)
    (SHIFTS_weight ALIGN_weight DAY_PREF_weight MODE_PREF_weight : Q)
    : outcome t :=
  tkvs ← comprehension (λ tutor, i ← list_index tutor tutors; Ok (tutor, i)) tutors;
  let tutor_index := dict_of tkvs in
  _ ← py_assert (Z.of_nat (size tutor_index) =? Z.of_nat (length tutors));
  dkvs ← comprehension (λ day, i ← list_index day days; Ok (day, i)) days;
  let day_index := dict_of dkvs in
  _ ← py_assert (Z.of_nat (size day_index) =? Z.of_nat (length days));
  S ← comprehension (λ tutor, dict_get max_shifts_by_tutor tutor) tutors;
  m ← comprehension (λ tutor, dict_get mode_preference tutor) tutors;
  a ← comprehension (λ tutor, comprehension (λ day,
         row ← dict_get availability tutor; dict_get row day) days) tutors;
  fp ← comprehension (λ day, dict_get target_ip_fractions day) days;
  fv ← comprehension (λ day, dict_get target_v_fractions day) days;
  match Model.__init__ optimize
          (Z.of_nat (length tutors)) (Z.of_nat (length days))
          min_tutors_ip min_tutors_v S min_tutor_shifts min_tutor_ip_shifts
          a m fp fv SHIFTS_weight ALIGN_weight DAY_PREF_weight MODE_PREF_weight
  with
  | (Ok _, model) => Ok (mk tutors tutor_index days day_index model)
  | (Raise e, _) => Raise e
  end.
End solver.

(** [Schedule.schedule_found] *)
Definition schedule_found (self : t) : bool :=
  Model.status (__model self) =? Model.OPTIMAL.

(** The double quote character in the messages. *)
Definition dquote : string := String "034"%char EmptyString.

Definition __validate_schedule (self : t) : outcome unit :=
  if negb (schedule_found self) then Raise (Exception "Schedule not found")
  else Ok tt.

Definition __validate_mode (mode : Z) : outcome unit :=
  if negb (mode =? IN_PERSON) && negb (mode =? VIRTUAL) && negb (mode =? EITHER)
  then Raise (Exception
    "The provided mode is not one of Schedule.IN_PERSON, Schedule.VIRTUAL, or Schedule.EITHER")
  else Ok tt.

Definition __validate_tutor (self : t) (tutor : string) : outcome unit :=
  if negb (bool_decide (tutor ∈ tutors self))
  then Raise (Exception (dquote +:+ tutor +:+ dquote +:+ " is not a recognized tutor"))
  else Ok tt.

Definition __validate_day (self : t) (day : string) : outcome unit :=
  if negb (bool_decide (day ∈ days self))
  then Raise (Exception (dquote +:+ day +:+ dquote +:+ " is not a recognized day"))
  else Ok tt.

(** [r == n] for [r] returned by the engine's indexer. On a variable
    handle the comparison builds a constraint object instead of a
    boolean; the facade only compares after the model was solved. *)
Definition eq_int (r : option item) (n : Z) : outcome bool :=
  match r with
  | Some (Values (Leaf z)) => Ok (z =? n)
  | Some (Handles (Leaf _)) => Raise TypeError
  | _ => Ok false
  end.

(** [self.__model[mode,t,d]==1] *)
Definition assigned (self : t) (mode t d : Z) : outcome bool :=
  r ← Model.__getitem__ (__model self) (mode, Idx t, Idx d); eq_int r 1.

(** [self.__model[Model.IN_PERSON,t,d]==1 or self.__model[Model.VIRTUAL,t,d]==1] *)
Definition assigned_either (self : t) (t d : Z) : outcome bool :=
  b ← assigned self Model.IN_PERSON t d;
  if (b : bool) then Ok true else assigned self Model.VIRTUAL t d.

(** [Schedule.check] *)
Definition check (self : t) (mode : Z) (tutor day : string) : outcome bool :=
  _ ← __validate_mode mode;
  _ ← __validate_tutor self tutor;
  _ ← __validate_day self day;
  _ ← __validate_schedule self;
  t ← dict_get (__tutor_index self) tutor;
  d ← dict_get (__day_index self) day;
  if mode =? IN_PERSON then assigned self Model.IN_PERSON t d
  else if mode =? VIRTUAL then assigned self Model.VIRTUAL t d
  else assigned_either self t d.

(** [Schedule.get_tutor_schedule] *)
Definition get_tutor_schedule (self : t) (mode : Z) (tutor : string)
    : outcome (list string) :=
  _ ← __validate_mode mode;
  _ ← __validate_tutor self tutor;
  _ ← __validate_schedule self;
  t ← dict_get (__tutor_index self) tutor;
  let each_day := range (Z.of_nat (length (days self))) in
  if mode =? IN_PERSON then
    comprehension_if (λ d, assigned self Model.IN_PERSON t d)
                     (λ d, py_index (days self) d) each_day
  else if mode =? VIRTUAL then
    comprehension_if (λ d, assigned self Model.VIRTUAL t d)
                     (λ d, py_index (days self) d) each_day
  else
    comprehension_if (λ d, assigned_either self t d)
                     (λ d, py_index (days self) d) each_day.

(** [Schedule.get_day_schedule] *)
Definition get_day_schedule (self : t) (mode : Z) (day : string)
    : outcome (list string) :=
  _ ← __validate_mode mode;
  _ ← __validate_day self day;
  _ ← __validate_schedule self;
  d ← dict_get (__day_index self) day;
  let each_tutor := range (Z.of_nat (length (tutors self))) in
  if mode =? IN_PERSON then
    comprehension_if (λ t, assigned self Model.IN_PERSON t d)
                     (λ t, py_index (tutors self) t) each_tutor
  else if mode =? VIRTUAL then
    comprehension_if (λ t, assigned self Model.VIRTUAL t d)
                     (λ t, py_index (tutors self) t) each_tutor
  else
    comprehension_if (λ t, assigned_either self t d)
                     (λ t, py_index (tutors self) t) each_tutor.

(** [sum(self.__model[mode,tutors,days])] where the indexer has returned
    integers. [print_schedule] sums only when a schedule was found; the sum
    of variable handles, a linear expression, does not occur. *)
Definition sum_solved (self : t) (mode : Z) (tutors days : selector) : outcome Z :=
  r ← Model.__getitem__ (__model self) (mode, tutors, days);
  match r with
  | Some (Values x) => py_sum x
  | _ => Raise TypeError
  end.

(** The entry of a tutor and a day in the table: the letter of the mode in
    the field of the day, with the letter wrapped in its colour. *)
Definition entry (self : t) (e_format : string → string) (t d : Z) : outcome string :=
  in_person ← assigned self Model.IN_PERSON t d;
  if (in_person : bool) then
    Ok (replace_char "P"
          (colorama.Fore_BLUE +:+ "P" +:+ colorama.Style_RESET_ALL) (e_format "P"))
  else
    virtual ← assigned self Model.VIRTUAL t d;
    if (virtual : bool) then
      Ok (replace_char "V"
            (colorama.Fore_MAGENTA +:+ "V" +:+ colorama.Style_RESET_ALL) (e_format "V"))
    else
      Ok (replace_char "X"
            (colorama.Fore_RED +:+ "X" +:+ colorama.Style_RESET_ALL) (e_format "X")).

Import IO.Notations.

(** [Schedule.print_schedule]: the outcome and the lines printed. *)
Definition print_schedule (self : t) : IO.t unit :=
  if negb (schedule_found self) then IO.print "No schedule found"
  else
    (IO.print (colorama.Fore_BLUE +:+ "P" +:+ colorama.Style_RESET_ALL
               +:+ " = scheduled for in-person") ;;
     IO.print (colorama.Fore_MAGENTA +:+ "V" +:+ colorama.Style_RESET_ALL
               +:+ " = scheduled for virtual") ;;
     IO.print (colorama.Fore_RED +:+ "X" +:+ colorama.Style_RESET_ALL
               +:+ " = not scheduled" +:+ newline) ;;
     let padding := "  "%string in
     w_t <- IO.lift (py_max (map py_len (tutors self))) ;;
     let t_format := rjust w_t in
     w_d <- IO.lift (py_max (map py_len (days self))) ;;
     let d_format := λ s, padding +:+ rjust w_d s in
     let e_format := d_format in
     let column_header :=
       fold_left (λ header day, header +:+ d_format day) (days self) (t_format "") in
     IO.print (column_header +:+ (padding +:+ d_format "#P" +:+ d_format "#V")) ;;
     IO.for_each (tutors self) (λ tutor,
       row <- IO.lift (
         t ← dict_get (__tutor_index self) tutor;
         row ← py_fold (λ row day,
                  d ← dict_get (__day_index self) day;
                  e ← entry self e_format t d;
                  Ok (row +:+ e)) (days self) (t_format tutor);
         n_p ← sum_solved self Model.IN_PERSON (Idx t) All;
         n_v ← sum_solved self Model.VIRTUAL (Idx t) All;
         Ok (row +:+ (padding +:+ e_format (pretty n_p) +:+ e_format (pretty n_v)))) ;;
       IO.print row) ;;
     IO.print "" ;;
     day_ip_counts <- IO.lift (
       py_fold (λ counts day,
          d ← dict_get (__day_index self) day;
          n ← sum_solved self Model.IN_PERSON All (Idx d);
          Ok (counts +:+ e_format (pretty n))) (days self) (t_format "#P")) ;;
     IO.print day_ip_counts ;;
     day_v_counts <- IO.lift (
       py_fold (λ counts day,
          d ← dict_get (__day_index self) day;
          n ← sum_solved self Model.VIRTUAL All (Idx d);
          Ok (counts +:+ e_format (pretty n))) (days self) (t_format "#V")) ;;
     IO.print day_v_counts)%IO.

End Schedule.

(** ** Specification-level notions *)

(** The relation "[y] has the nesting structure of [x] and each leaf [v] of
    [x] is replaced by [f v]", stated without reference to the code. *)
#[local] Unset Elimination Schemes.
Inductive leafwise {A B} (f : A → B) : nested A → nested B → Prop :=
  | leafwise_leaf v : leafwise f (Leaf v) (Leaf (f v))
  | leafwise_list l l' :
      Forall2 (leafwise f) l l' → leafwise f (PyList l) (PyList l').
#[local] Set Elimination Schemes.

(** The sub-value reached by following a path of list positions. *)
Fixpoint at_path {A} (x : nested A) (p : list nat) : option (nested A) :=
  match p with
  | [] => Some x
  | i :: p' =>
      match x with
      | Leaf _ => None
      | PyList l => match l !! i with Some y => at_path y p' | None => None end
      end
  end.

(** The handle of [xp[t][d]]: the [t*N_D+d]-th variable added to the solver
    model, and of [xv[t][d]]: the variable added [N_T*N_D] places later. *)
Definition xp_var (N_D t d : Z) : Var :=
  mkVar (Z.to_nat (t * N_D + d)) GRB_BINARY
        ("xp_(" +:+ pretty t +:+ "," +:+ pretty d +:+ ")").
Definition xv_var (N_T N_D t d : Z) : Var :=
  mkVar (Z.to_nat (N_T * N_D + t * N_D + d)) GRB_BINARY
        ("xv_(" +:+ pretty t +:+ "," +:+ pretty d +:+ ")").

(** An [N_T] by [N_D] matrix given by its entries. *)
Definition matrix_of {A} (N_T N_D : Z) (f : Z → Z → A) : list (list A) :=
  map (λ t, map (f t) (range N_D)) (range N_T).

(** Entries of the positional inputs, for indices in range. *)
Definition S_at (S : list Z) (t : Z) : Z := nth (Z.to_nat t) S 0.
Definition m_at (m : list Z) (t : Z) : Z := nth (Z.to_nat t) m 0.
Definition f_at (f : list Q) (d : Z) : Q := nth (Z.to_nat d) f 0%Q.
Definition a_at (a : list (list Q)) (t d : Z) : Q :=
  nth (Z.to_nat d) (nth (Z.to_nat t) a []) 0%Q.

(** [Σ_{i<n} f i] and the sum of a list of numbers. *)
Definition big_sum (n : Z) (f : Z → Q) : Q := fold_right Qplus 0%Q (map f (range n)).
Definition total (l : list Q) : Q := fold_right Qplus 0%Q l.

(** The state changes of the solver object during construction. *)
Definition add_vars (vs : list Var) (self : Model.t) : Model.t :=
  let g := Model.model self in
  Model.with_model (mkGModel (gvars g ++ vs) (gconstrs g) (gobjective g)
                      (gparams g) (goptimized g) (gstatus g) (gX g)) self.
Definition add_constrs (cs : list Constr) (self : Model.t) : Model.t :=
  let g := Model.model self in
  Model.with_model (mkGModel (gvars g) (gconstrs g ++ cs) (gobjective g)
                      (gparams g) (goptimized g) (gstatus g) (gX g)) self.

(** The instance when [Model.__init__] starts, and after the decision
    variables were created. *)
Definition fresh (N_T N_D : Z) : Model.t :=
  Model.mk gurobipy_Model Model.LOADING N_T N_D [] [].

Definition with_variables (N_T N_D : Z) : Model.t :=
  let xp := matrix_of N_T N_D (xp_var N_D) in
  let xv := matrix_of N_T N_D (xv_var N_T N_D) in
  Model.mk (mkGModel (concat xp ++ concat xv) [] None [] false GRB_LOADED (λ _, 0%Q))
           Model.LOADING N_T N_D xp xv.

(** The matrix that the indexer reads under a mode. *)
Definition vars_of (self : Model.t) (mode : Z) : list (list Var) :=
  if mode =? Model.IN_PERSON then Model.__xp self else Model.__xv self.

Definition is_mode (mode : Z) : Prop := mode = Model.IN_PERSON ∨ mode = Model.VIRTUAL.

(** The sums [sum(self[mode,t,:])] and [sum(self[mode,:,d])] over a matrix of
    handles [f]. *)
Definition row_sum (N_D : Z) (f : Z → Z → Var) (t : Z) : Expr :=
  sum_Expr (map (λ d, EVar (f t d)) (range N_D)).
Definition column_sum (N_T : Z) (f : Z → Z → Var) (d : Z) : Expr :=
  sum_Expr (map (λ t, EVar (f t d)) (range N_T)).

(** The instance is loading and holds the matrices of handles created by
    [Model.__set_decision_variables]. *)
Definition loading (N_T N_D : Z) (self : Model.t) : Prop :=
  Model.status self = Model.LOADING
  ∧ Model.N_T self = N_T ∧ Model.N_D self = N_D
  ∧ Model.__xp self = matrix_of N_T N_D (xp_var N_D)
  ∧ Model.__xv self = matrix_of N_T N_D (xv_var N_T N_D).

(** The constraints that [Model.__set_constraints] adds, in the order in
    which it adds them. *)
Section expected_constraints.
Context (N_T N_D lp lv s sp : Z) (S : list Z) (a : list (list Q)).

Definition cell_constraints (t d : Z) : list Constr :=
  if Qeq_bool (a_at a t d) Model.UNAVAILABLE then
    [mkConstr (EVar (xp_var N_D t d)) Equal (EConst 0);
     mkConstr (EVar (xv_var N_T N_D t d)) Equal (EConst 0)]
  else
    [mkConstr (EAdd (EVar (xp_var N_D t d)) (EVar (xv_var N_T N_D t d)))
              LessEqual (EConst 1)].

Definition tutor_constraints (t : Z) : list Constr :=
  let Xp_t := row_sum N_D (xp_var N_D) t in
  let Xv_t := row_sum N_D (xv_var N_T N_D) t in
  [mkConstr (EAdd Xp_t Xv_t) LessEqual (EConst (inject_Z (S_at S t)));
   mkConstr (EAdd Xp_t Xv_t) GreaterEqual (EConst (inject_Z s));
   mkConstr Xp_t GreaterEqual (EConst (inject_Z sp))]
  ++ flat_map (cell_constraints t) (range N_D).

Definition day_constraints (d : Z) : list Constr :=
  [mkConstr (column_sum N_T (xp_var N_D) d) GreaterEqual (EConst (inject_Z lp));
   mkConstr (column_sum N_T (xv_var N_T N_D) d) GreaterEqual (EConst (inject_Z lv))].

Definition all_constraints : list Constr :=
  flat_map tutor_constraints (range N_T) ++ flat_map day_constraints (range N_D).
End expected_constraints.

(** The three availability levels and the three mode preferences. *)
Definition level (x : Q) : Prop :=
  (x == Model.UNAVAILABLE ∨ x == Model.NOT_PREFERRED ∨ x == Model.PREFERRED)%Q.
Definition preference (x : Z) : Prop :=
  x = Model.PREFER_VIRTUAL ∨ x = Model.NO_PREFERENCE ∨ x = Model.PREFER_IN_PERSON.

(** The test of [Model.__set_objective_function] on the target fractions,
    [abs(1-sum(fp)-sum(fv)) < epsilon]: the two sums, the two subtractions
    and the comparison are those of floats. *)
Definition deviation (fp fv : list Q) : spec_float :=
  float_abs (float_sub (float_sub (float_of_Q 1) (sum_float fp)) (sum_float fv)).
Definition within_tolerance (fp fv : list Q) : Prop :=
  float_lt (deviation fp fv) Model.epsilon = true.

(** The deviation of the combined sum of the target fractions from 1 as the
    specification reads it, in exact arithmetic. *)
Definition exact_deviation (fp fv : list Q) : Q := Qabs (1 - total fp - total fv).

(** The value of the float that a decimal literal denotes. *)
Definition literal (q : Q) : Q := Q_of_float (float_of_Q q).

(** The float that the code computes for [-1/N_T], as a number. *)
Definition align_coefficient (N_T : Z) : Q :=
  Q_of_float (float_of_Q (inject_Z (-1) / inject_Z N_T)).

(** The requirements on the arguments of [Model.__init__], grouped by the
    method that checks them. *)
Definition valid_counts (N_T N_D : Z) : Prop := 0 < N_T ∧ 0 < N_D.

Definition valid_constraint_input (N_T N_D lp lv s sp : Z) (S : list Z)
    (a : list (list Q)) : Prop :=
  0 ≤ lp ∧ 0 ≤ lv ∧ 0 ≤ s ∧ 0 ≤ sp
  ∧ Z.of_nat (length S) = N_T ∧ Forall (λ S_t, 0 ≤ S_t) S
  ∧ Z.of_nat (length a) = N_T ∧ Forall (λ row, Z.of_nat (length row) = N_D) a
  ∧ (∀ t d, 0 ≤ t < N_T → 0 ≤ d < N_D → level (a_at a t d)).

Definition valid_objective_input (N_T N_D : Z) (m : list Z) (fp fv : list Q)
    (w1 w2 w3 w4 : Q) : Prop :=
  Z.of_nat (length m) = N_T ∧ Forall preference m
  ∧ Z.of_nat (length fp) = N_D ∧ Forall (λ f, 0 <= f)%Q fp
  ∧ Z.of_nat (length fv) = N_D ∧ Forall (λ f, 0 <= f)%Q fv
  ∧ within_tolerance fp fv
  ∧ (0 <= w1)%Q ∧ (0 <= w2)%Q ∧ (0 <= w3)%Q ∧ (0 <= w4)%Q.

Definition valid_input (N_T N_D lp lv : Z) (S : list Z) (s sp : Z)
    (a : list (list Q)) (m : list Z) (fp fv : list Q) (w1 w2 w3 w4 : Q) : Prop :=
  valid_counts N_T N_D
  ∧ valid_constraint_input N_T N_D lp lv s sp S a
  ∧ valid_objective_input N_T N_D m fp fv w1 w2 w3 w4.

(** The requirements on the arguments as the specification states them:
    those of [valid_input], with the combined sum of the target fractions
    within 1/1000 of 1 in exact arithmetic. *)
Definition valid_input_exact (N_T N_D lp lv : Z) (S : list Z) (s sp : Z)
    (a : list (list Q)) (m : list Z) (fp fv : list Q) (w1 w2 w3 w4 : Q) : Prop :=
  valid_counts N_T N_D
  ∧ valid_constraint_input N_T N_D lp lv s sp S a
  ∧ Z.of_nat (length m) = N_T ∧ Forall preference m
  ∧ Z.of_nat (length fp) = N_D ∧ Forall (λ f, 0 <= f)%Q fp
  ∧ Z.of_nat (length fv) = N_D ∧ Forall (λ f, 0 <= f)%Q fv
  ∧ (exact_deviation fp fv < 1 # 1000)%Q
  ∧ (0 <= w1)%Q ∧ (0 <= w2)%Q ∧ (0 <= w3)%Q ∧ (0 <= w4)%Q.

(** The expression that [Model.__set_objective_function] builds. *)
Section expected_objective.
Context (N_T N_D : Z) (a : list (list Q)) (m : list Z) (fp fv : list Q)
        (w1 w2 w3 w4 : Q).

Definition x_expr (t d : Z) : Expr :=
  EAdd (EVar (xp_var N_D t d)) (EVar (xv_var N_T N_D t d)).

Definition X_expr : Expr :=
  sum_Expr (map (λ '(t, d), x_expr t d) (range2 N_T N_D)).

Definition ALIGN_expr : Expr :=
  EMul (EConst (align_coefficient N_T))
       (sum_Expr (map (λ d,
          EAdd (EPow (ESub (EMul X_expr (EConst (f_at fp d)))
                           (column_sum N_T (xp_var N_D) d)) 2)
               (EPow (ESub (EMul X_expr (EConst (f_at fv d)))
                           (column_sum N_T (xv_var N_T N_D) d)) 2))
          (range N_D))).

Definition DAY_PREF_expr : Expr :=
  EAdd (EMul (EConst (-3)) X_expr)
       (EMul (EConst 4)
             (sum_Expr (map (λ '(t, d), EMul (EConst (a_at a t d)) (x_expr t d))
                            (range2 N_T N_D)))).

Definition MODE_PREF_expr : Expr :=
  sum_Expr (map (λ '(t, d),
              EMul (ESub (EVar (xp_var N_D t d)) (EVar (xv_var N_T N_D t d)))
                   (EConst (inject_Z (m_at m t))))
              (range2 N_T N_D)).

Definition objective_expr : Expr :=
  EAdd (EAdd (EAdd (EMul (EConst w1) X_expr) (EMul (EConst w2) ALIGN_expr))
             (EMul (EConst w3) DAY_PREF_expr))
       (EMul (EConst w4) MODE_PREF_expr).
End expected_objective.

(** The four terms of the objective for the values [xp t d] and [xv t d] of
    the assignment variables. [ALIGN] has the coefficient that the code
    computes, the float [-1/N_T]; [ALIGN_exact] is the term as the
    specification writes it, with the quotient itself. *)
Section objective_terms.
Context (N_T N_D : Z) (a : list (list Q)) (m : list Z) (fp fv : list Q)
        (xp xv : Z → Z → Q).
Local Open Scope Q_scope.

Definition SHIFTS : Q :=
  big_sum N_T (λ t, big_sum N_D (λ d, xp t d + xv t d)).

Definition ALIGN : Q :=
  align_coefficient N_T
  * big_sum N_D (λ d,
      (SHIFTS * f_at fp d - big_sum N_T (λ t, xp t d)) ^ 2
      + (SHIFTS * f_at fv d - big_sum N_T (λ t, xv t d)) ^ 2).


Definition DAY_PREF : Q :=
  - (3) * SHIFTS
  + 4 * big_sum N_T (λ t, big_sum N_D (λ d, a_at a t d * (xp t d + xv t d))).

Definition MODE_PREF : Q :=
  big_sum N_T (λ t, big_sum N_D (λ d, (xp t d - xv t d) * inject_Z (m_at m t))).
End objective_terms.

(** The program that [Model.__init__] submits to the solver for valid
    arguments, and the instance it leaves behind. *)
Section constructed.
Context (optimize : GModel → Z * (Var → Q)).
Context (N_T N_D lp lv : Z) (S : list Z) (s sp : Z) (a : list (list Q))
        (m : list Z) (fp fv : list Q) (w1 w2 w3 w4 : Q).

Definition constrained : Model.t :=
  add_constrs (all_constraints N_T N_D lp lv s sp S a) (with_variables N_T N_D).

Definition program : GModel :=
  mkGModel (concat (matrix_of N_T N_D (xp_var N_D))
            ++ concat (matrix_of N_T N_D (xv_var N_T N_D)))
           (all_constraints N_T N_D lp lv s sp S a)
           (Some (objective_expr N_T N_D a m fp fv w1 w2 w3 w4, GRB_MAXIMIZE))
           [("OutputFlag"%string, false)] false GRB_LOADED (λ _, 0%Q).

Definition solved : Model.t :=
  Model.mk (mkGModel (gvars program) (gconstrs program) (gobjective program)
                     (gparams program) true (optimize program).1 (optimize program).2)
           (if (optimize program).1 =? GRB_OPTIMAL then Model.OPTIMAL
            else Model.INFEASIBLE)
           N_T N_D
           (matrix_of N_T N_D (xp_var N_D)) (matrix_of N_T N_D (xv_var N_T N_D)).
End constructed.

(** The hard constraints as the specification states them, for the values
    [xp t d] and [xv t d] of the assignment variables. *)
Section hard_constraints.
Context (N_T N_D lp lv : Z) (S : list Z) (s sp : Z) (a : list (list Q))
        (xp xv : Z → Z → Q).
Local Open Scope Q_scope.

Definition shift_ceiling : Prop :=
  ∀ t, (0 ≤ t < N_T)%Z →
    big_sum N_D (λ d, xp t d + xv t d) <= inject_Z (S_at S t).

Definition minimum_shifts : Prop :=
  ∀ t, (0 ≤ t < N_T)%Z →
    inject_Z s <= big_sum N_D (λ d, xp t d + xv t d).

Definition minimum_in_person : Prop :=
  ∀ t, (0 ≤ t < N_T)%Z → inject_Z sp <= big_sum N_D (λ d, xp t d).

Definition unavailable_excluded : Prop :=
  ∀ t d, (0 ≤ t < N_T)%Z → (0 ≤ d < N_D)%Z →
    a_at a t d == Model.UNAVAILABLE → xp t d == 0 ∧ xv t d == 0.

Definition single_mode : Prop :=
  ∀ t d, (0 ≤ t < N_T)%Z → (0 ≤ d < N_D)%Z →
    ¬ a_at a t d == Model.UNAVAILABLE → xp t d + xv t d <= 1.

Definition daily_coverage : Prop :=
  ∀ d, (0 ≤ d < N_D)%Z →
    inject_Z lp <= big_sum N_T (λ t, xp t d)
    ∧ inject_Z lv <= big_sum N_T (λ t, xv t d).

Definition hard_constraints : Prop :=
  shift_ceiling ∧ minimum_shifts ∧ minimum_in_person
  ∧ unavailable_excluded ∧ single_mode ∧ daily_coverage.
End hard_constraints.

(** The first position of [x] in [l] (0 when [l] is exhausted). *)
Fixpoint position (x : string) (l : list string) : Z :=
  match l with
  | [] => 0
  | y :: l' => if String.eqb y x then 0 else position x l' + 1
  end.

(** The identifier-to-index table that the facade builds from a list. *)
Definition index_table (l : list string) : gmap string Z :=
  dict_of (map (λ x, (x, position x l)) l).

(** The positional arguments [S], [m], [a], [fp], [fv] that the facade reads
    from its dictionaries, in the order of its tutor and day lists. *)
Definition projected (tutors days : list string)
    (max_shifts_by_tutor mode_preference : gmap string Z)
    (availability : gmap string (gmap string Q))
    (target_ip_fractions target_v_fractions : gmap string Q)
    (S m : list Z) (a : list (list Q)) (fp fv : list Q) : Prop :=
  comprehension (λ tutor, dict_get max_shifts_by_tutor tutor) tutors = Ok S
  ∧ comprehension (λ tutor, dict_get mode_preference tutor) tutors = Ok m
  ∧ comprehension (λ tutor, comprehension (λ day,
      row ← dict_get availability tutor; dict_get row day) days) tutors = Ok a
  ∧ comprehension (λ day, dict_get target_ip_fractions day) days = Ok fp
  ∧ comprehension (λ day, dict_get target_v_fractions day) days = Ok fv.

(** The three modes that the facade accepts. *)
Definition accepted_mode (mode : Z) : Prop :=
  mode = Schedule.IN_PERSON ∨ mode = Schedule.VIRTUAL ∨ mode = Schedule.EITHER.

(** The solved value of a variable, as an integer. *)
Definition solved_value (self : Model.t) (v : Var) : Z :=
  py_int (gX (Model.model self) v).

(** In the solved model of the facade, the tutor at position [t] is assigned
    the day at position [d] under [mode]; under the either-mode, under at
    least one of the two modes. *)
Definition works (sch : Schedule.t) (mode t d : Z) : bool :=
  let N_T := Z.of_nat (length (Schedule.tutors sch)) in
  let N_D := Z.of_nat (length (Schedule.days sch)) in
  let in_person := solved_value (Schedule.__model sch) (xp_var N_D t d) =? 1 in
  let virtual := solved_value (Schedule.__model sch) (xv_var N_T N_D t d) =? 1 in
  if mode =? Schedule.IN_PERSON then in_person
  else if mode =? Schedule.VIRTUAL then virtual
  else in_person || virtual.

(** What construction guarantees about a facade. *)
Definition well_formed (sch : Schedule.t) : Prop :=
  let N_T := Z.of_nat (length (Schedule.tutors sch)) in
  let N_D := Z.of_nat (length (Schedule.days sch)) in
  NoDup (Schedule.tutors sch) ∧ NoDup (Schedule.days sch)
  ∧ 0 < N_T ∧ 0 < N_D
  ∧ Schedule.__tutor_index sch = index_table (Schedule.tutors sch)
  ∧ Schedule.__day_index sch = index_table (Schedule.days sch)
  ∧ (Model.status (Schedule.__model sch) = Model.OPTIMAL
     ∨ Model.status (Schedule.__model sch) = Model.INFEASIBLE)
  ∧ Model.__xp (Schedule.__model sch) = matrix_of N_T N_D (xp_var N_D)
  ∧ Model.__xv (Schedule.__model sch) = matrix_of N_T N_D (xv_var N_T N_D).

(** ** The small test of the notebook

    Three tutors and two days; the solver stub returns the assignment that
    the notebook prints for it: Adem and Bebby virtual on both days, Chel
    in person on Monday. *)
Module small_test.
Definition optimize (g : GModel) : Z * (Var → Q) :=
  (GRB_OPTIMAL,
   λ v, if bool_decide (var_name v ∈ ["xv_(0,0)"; "xv_(0,1)"; "xv_(1,0)";
                                        "xv_(1,1)"; "xp_(2,1)"]%string)
        then 1%Q else 0%Q).

(** A solver stub that proves nothing. *)
Definition infeasible_optimize (g : GModel) : Z * (Var → Q) :=
  (GRB_INFEASIBLE, λ _, 0%Q).

Definition tutors : list string := ["Adem"; "Bebby"; "Chel"]%string.
Definition days : list string := ["Sun"; "Mon"]%string.
Definition max_shifts_by_tutor : gmap string Z :=
  <["Adem"%string := 2]> (<["Bebby"%string := 2]> (<["Chel"%string := 1]> ∅)).
Definition mode_preference : gmap string Z :=
  <["Adem"%string := Schedule.PREFER_VIRTUAL]>
    (<["Bebby"%string := Schedule.PREFER_VIRTUAL]>
       (<["Chel"%string := Schedule.NO_PREFERENCE]> ∅)).
Definition week : gmap string Q :=
  <["Sun"%string := Schedule.NOT_PREFERRED]> (<["Mon"%string := Schedule.PREFERRED]> ∅).
Definition availability : gmap string (gmap string Q) :=
  <["Adem"%string := week]> (<["Bebby"%string := week]> (<["Chel"%string := week]> ∅)).
Definition target_ip_fractions : gmap string Q :=
  <["Sun"%string := (1 # 2)%Q]> (<["Mon"%string := (1 # 2)%Q]> ∅).
Definition target_v_fractions : gmap string Q :=
  <["Sun"%string := 0%Q]> (<["Mon"%string := 0%Q]> ∅).

(** The facade of the test, and the same facade when the solver finds
    nothing. *)
Definition facade : outcome Schedule.t :=
  Schedule.__init__ optimize tutors days 0 0 0 0 max_shifts_by_tutor
    mode_preference availability target_ip_fractions target_v_fractions
    1 1 1 100.
Definition infeasible_facade : outcome Schedule.t :=
  Schedule.__init__ infeasible_optimize tutors days 0 0 0 0 max_shifts_by_tutor
    mode_preference availability target_ip_fractions target_v_fractions
    1 1 1 100.

(** Variations that break one requirement each. *)
Definition bad_week : gmap string Q :=
  <["Sun"%string := (1 # 4)%Q]> (<["Mon"%string := Schedule.PREFERRED]> ∅).
Definition bad_availability : gmap string (gmap string Q) :=
  <["Adem"%string := week]> (<["Bebby"%string := bad_week]> (<["Chel"%string := week]> ∅)).
Definition bad_v_fractions : gmap string Q :=
  <["Sun"%string := (1 # 8)%Q]> (<["Mon"%string := 0%Q]> ∅).

(** The positional arguments that the facade derives from them. *)
Definition S : list Z := [2; 2; 1].
Definition m : list Z := [-1; -1; 0].
Definition a : list (list Q) :=
  [[(1 # 2)%Q; 1%Q]; [(1 # 2)%Q; 1%Q]; [(1 # 2)%Q; 1%Q]].
Definition fp : list Q := [(1 # 2)%Q; (1 # 2)%Q].
Definition fv : list Q := [0%Q; 0%Q].

(** The instance that [facade] evaluates to. *)
Definition schedule : Schedule.t :=
  Schedule.mk tutors (index_table tutors) days (index_table days)
    (solved optimize 3 2 0 0 S 0 0 a m fp fv 1 1 1 100).
End small_test.

(** ** Target fractions at the edge of the tolerance

    One tutor. In [wide] the fractions are the floats written [0.237],
    [0.324] and [0.177], [0.263] on two days: their sum exceeds 1 by more
    than 1/1000, the sum that the code computes by less. In [narrow] they
    are the floats written [0.149] and [0.852] on one day, where it is the
    other way round. *)
Module tolerance_test.
Definition tutors : list string := ["Adem"]%string.
Definition max_shifts_by_tutor : gmap string Z := <["Adem"%string := 2]> ∅.
Definition mode_preference : gmap string Z :=
  <["Adem"%string := Schedule.NO_PREFERENCE]> ∅.
Definition availability : gmap string (gmap string Q) :=
  <["Adem"%string := small_test.week]> ∅.

Definition wide_days : list string := ["Sun"; "Mon"]%string.
Definition wide_ip_fractions : gmap string Q :=
  <["Sun"%string := literal (237 # 1000)]> (<["Mon"%string := literal (324 # 1000)]> ∅).
Definition wide_v_fractions : gmap string Q :=
  <["Sun"%string := literal (177 # 1000)]> (<["Mon"%string := literal (263 # 1000)]> ∅).
Definition wide_fp : list Q := [literal (237 # 1000); literal (324 # 1000)].
Definition wide_fv : list Q := [literal (177 # 1000); literal (263 # 1000)].
Definition wide : outcome Schedule.t :=
  Schedule.__init__ small_test.optimize tutors wide_days 0 0 0 0 max_shifts_by_tutor
    mode_preference availability wide_ip_fractions wide_v_fractions 1 1 1 1.

Definition narrow_days : list string := ["Mon"]%string.
Definition narrow_ip_fractions : gmap string Q :=
  <["Mon"%string := literal (149 # 1000)]> ∅.
Definition narrow_v_fractions : gmap string Q :=
  <["Mon"%string := literal (852 # 1000)]> ∅.
Definition narrow_fp : list Q := [literal (149 # 1000)].
Definition narrow_fv : list Q := [literal (852 # 1000)].
Definition narrow : outcome Schedule.t :=
  Schedule.__init__ small_test.optimize tutors narrow_days 0 0 0 0 max_shifts_by_tutor
    mode_preference availability narrow_ip_fractions narrow_v_fractions 1 1 1 1.
End tolerance_test.

(** ** Further notions used by the properties beyond the specification *)

(** The matrix of solved integer values that the indexer reports for a
    matrix of handles [f]. *)
Definition values_matrix (self : Model.t) (N_T N_D : Z) (f : Z → Z → Var) : nested Z :=
  PyList (map (λ t, PyList (map (λ d, Leaf (solved_value self (f t d))) (range N_D)))
              (range N_T)).

(** The handles that the indexer reads under a mode of a constructed
    engine. *)
Definition handle (N_T N_D mode : Z) : Z → Z → Var :=
  if mode =? Model.IN_PERSON then xp_var N_D else xv_var N_T N_D.

(** The number of cells of the availability matrix marked unavailable. *)
Definition unavailable_cells (N_T N_D : Z) (a : list (list Q)) : nat :=
  length (List.filter (λ '(t, d), Qeq_bool (a_at a t d) Model.UNAVAILABLE)
                      (range2 N_T N_D)).

(** A valuation that gives every assignment variable the value 0 or 1. *)
Definition binary (N_T N_D : Z) (val : Var → Q) : Prop :=
  ∀ t d, 0 ≤ t < N_T → 0 ≤ d < N_D →
    (val (xp_var N_D t d) == 0 ∨ val (xp_var N_D t d) == 1)%Q
    ∧ (val (xv_var N_T N_D t d) == 0 ∨ val (xv_var N_T N_D t d) == 1)%Q.

(** The answer of the solver on a program is sound: if it reports an
    optimum, its valuation satisfies every constraint of the program and
    gives every binary variable of the program the value 0 or 1. *)
Definition sound_on (optimize : GModel → Z * (Var → Q)) (g : GModel) : Prop :=
  (optimize g).1 = GRB_OPTIMAL →
  Forall (sat (optimize g).2) (gconstrs g)
  ∧ ∀ v, v ∈ gvars g → var_vtype v = GRB_BINARY →
      ((optimize g).2 v == 0 ∨ (optimize g).2 v == 1)%Q.

(** Every dictionary of the facade's constructor has an entry for each
    listed tutor or day it is read at. *)
Definition listed_keys_found (tutors days : list string)
    (max_shifts_by_tutor mode_preference : gmap string Z)
    (availability : gmap string (gmap string Q))
    (target_ip_fractions target_v_fractions : gmap string Q) : Prop :=
  (∀ tutor, tutor ∈ tutors →
     is_Some (max_shifts_by_tutor !! tutor) ∧ is_Some (mode_preference !! tutor)
     ∧ ∀ day, day ∈ days → is_Some (availability !! tutor ≫= (.!! day)))
  ∧ (∀ day, day ∈ days →
       is_Some (target_ip_fractions !! day) ∧ is_Some (target_v_fractions !! day)).

(** A constraint holds under a valuation, as a test. *)
Definition sat_bool (val : Var → Q) (c : Constr) : bool :=
  match csense c with
  | LessEqual => Qle_bool (eval val (lhs c)) (eval val (rhs c))
  | GreaterEqual => Qle_bool (eval val (rhs c)) (eval val (lhs c))
  | Equal => Qeq_bool (eval val (lhs c)) (eval val (rhs c))
  end.

(** The integers from [lo] up to, but without, [hi]. *)
Definition interval (lo hi : Z) : list Z := map (λ i, lo + i) (range (hi - lo)).

(** The solver has returned the value 0 or 1 for every variable of the
    model. *)
Definition binary_solution (self : Model.t) : Prop :=
  ∀ v, v ∈ gvars (Model.model self) →
    (gX (Model.model self) v == 0 ∨ gX (Model.model self) v == 1)%Q.

(** [Σ l] for integers. *)
Definition sum_Z (l : list Z) : Z := fold_right Z.add 0 l.

(** The result of a query that does not raise. *)
Definition answer {A} (dflt : A) (o : outcome A) : A :=
  match o with
  | Ok a => a
  | Raise _ => dflt
  end.

(** ** The table of [Schedule.print_schedule], described by the queries *)
Module printed.

(** The concatenation of a list of strings. *)
Definition join (l : list string) : string := fold_right String.append EmptyString l.

(** The length of the longest name. *)
Definition width (l : list string) : Z := fold_right Z.max 0 (map py_len l).

(** A text at the right of a column of width [w], after two spaces. *)
Definition field (w : Z) (s : string) : string := "  " +:+ rjust w s.

Definition legend : list string :=
  [colorama.Fore_BLUE +:+ "P" +:+ colorama.Style_RESET_ALL
   +:+ " = scheduled for in-person";
   colorama.Fore_MAGENTA +:+ "V" +:+ colorama.Style_RESET_ALL
   +:+ " = scheduled for virtual";
   colorama.Fore_RED +:+ "X" +:+ colorama.Style_RESET_ALL
   +:+ " = not scheduled" +:+ newline].

(** The coloured letter of an assignment. *)
Definition mark (in_person virtual : bool) : string :=
  if in_person then colorama.Fore_BLUE +:+ "P" +:+ colorama.Style_RESET_ALL
  else if virtual then colorama.Fore_MAGENTA +:+ "V" +:+ colorama.Style_RESET_ALL
  else colorama.Fore_RED +:+ "X" +:+ colorama.Style_RESET_ALL.

Section table.
Context (sch : Schedule.t).
(** The numbers in the margins: of the days of a tutor and of the tutors of
    a day, under a mode. *)
Context (tutor_count : Z → string → Z) (day_count : Z → string → Z).

Definition w_t : Z := width (Schedule.tutors sch).
Definition w_d : Z := width (Schedule.days sch).

(** The entry of a tutor and a day: the letter that [check] gives, at the
    right of the column of the day. *)
Definition shown (tutor day : string) : string :=
  "  " +:+ spaces (Z.to_nat (w_d - 1))
  +:+ mark (answer false (Schedule.check sch Schedule.IN_PERSON tutor day))
           (answer false (Schedule.check sch Schedule.VIRTUAL tutor day)).

Definition header : string :=
  rjust w_t "" +:+ join (map (field w_d) (Schedule.days sch))
  +:+ "  " +:+ field w_d "#P" +:+ field w_d "#V".

Definition row (tutor : string) : string :=
  rjust w_t tutor +:+ join (map (shown tutor) (Schedule.days sch))
  +:+ "  " +:+ field w_d (pretty (tutor_count Schedule.IN_PERSON tutor))
  +:+ field w_d (pretty (tutor_count Schedule.VIRTUAL tutor)).

Definition counts (mode : Z) (label : string) : string :=
  rjust w_t label
  +:+ join (map (λ day, field w_d (pretty (day_count mode day))) (Schedule.days sch)).

Definition table_with : list string :=
  legend ++ [header] ++ map row (Schedule.tutors sch)
  ++ [""%string; counts Schedule.IN_PERSON "#P"; counts Schedule.VIRTUAL "#V"].
End table.

(** The margins as sums of the solved values. *)
Definition tutor_total (sch : Schedule.t) (mode : Z) (tutor : string) : Z :=
  let N_T := Z.of_nat (length (Schedule.tutors sch)) in
  let N_D := Z.of_nat (length (Schedule.days sch)) in
  sum_Z (map (λ d, solved_value (Schedule.__model sch)
                     (handle N_T N_D mode (position tutor (Schedule.tutors sch)) d))
             (range N_D)).
Definition day_total (sch : Schedule.t) (mode : Z) (day : string) : Z :=
  let N_T := Z.of_nat (length (Schedule.tutors sch)) in
  let N_D := Z.of_nat (length (Schedule.days sch)) in
  sum_Z (map (λ t, solved_value (Schedule.__model sch)
                     (handle N_T N_D mode t (position day (Schedule.days sch))))
             (range N_T)).

(** The margins as the lengths of the schedules that the queries return. *)
Definition tutor_count (sch : Schedule.t) (mode : Z) (tutor : string) : Z :=
  Z.of_nat (length (answer [] (Schedule.get_tutor_schedule sch mode tutor))).
Definition day_count (sch : Schedule.t) (mode : Z) (day : string) : Z :=
  Z.of_nat (length (answer [] (Schedule.get_day_schedule sch mode day))).

(** The table of a facade with an optimal result. *)
Definition table (sch : Schedule.t) : list string :=
  table_with sch (tutor_count sch) (day_count sch).

End printed.

(** ** A solution that is not integral

    The small test with a solver stub that reports a value just below 1,
    [1 - 2^-30], for Adem's virtual shift on Monday. *)
Module near_integral_test.
Definition optimize (g : GModel) : Z * (Var → Q) :=
  (GRB_OPTIMAL,
   λ v, if bool_decide (var_name v = "xv_(0,1)"%string)
        then (1073741823 # 1073741824)%Q
        else (small_test.optimize g).2 v).

Definition engine : Model.t :=
  solved optimize 3 2 0 0 small_test.S 0 0 small_test.a small_test.m
    small_test.fp small_test.fv 1 1 1 100.
End near_integral_test.

(** ** A test with coverage floors and an unavailable day

    Three tutors and two days; every day needs one tutor in person and one
    virtual, every tutor works at least one shift, and Ann is unavailable
    on Sunday. The solver stub returns the assignment Ann in person and Ben
    virtual on Saturday, Ben in person and Cy virtual on Sunday. *)
Module coverage_test.
Definition optimize (g : GModel) : Z * (Var → Q) :=
  (GRB_OPTIMAL,
   λ v, if bool_decide (var_name v ∈ ["xp_(0,0)"; "xv_(1,0)"; "xp_(1,1)";
                                        "xv_(2,1)"]%string)
        then 1%Q else 0%Q).

Definition tutors : list string := ["Ann"; "Ben"; "Cy"]%string.
Definition days : list string := ["Sat"; "Sun"]%string.
Definition max_shifts_by_tutor : gmap string Z :=
  <["Ann"%string := 1]> (<["Ben"%string := 2]> (<["Cy"%string := 1]> ∅)).
Definition mode_preference : gmap string Z :=
  <["Ann"%string := Schedule.PREFER_IN_PERSON]>
    (<["Ben"%string := Schedule.NO_PREFERENCE]>
       (<["Cy"%string := Schedule.PREFER_VIRTUAL]> ∅)).
Definition ann_week : gmap string Q :=
  <["Sat"%string := Schedule.PREFERRED]> (<["Sun"%string := Schedule.UNAVAILABLE]> ∅).
Definition week : gmap string Q :=
  <["Sat"%string := Schedule.NOT_PREFERRED]> (<["Sun"%string := Schedule.PREFERRED]> ∅).
Definition availability : gmap string (gmap string Q) :=
  <["Ann"%string := ann_week]> (<["Ben"%string := week]> (<["Cy"%string := week]> ∅)).
Definition target_ip_fractions : gmap string Q :=
  <["Sat"%string := (1 # 4)%Q]> (<["Sun"%string := (1 # 4)%Q]> ∅).
Definition target_v_fractions : gmap string Q :=
  <["Sat"%string := (1 # 4)%Q]> (<["Sun"%string := (1 # 4)%Q]> ∅).

Definition facade : outcome Schedule.t :=
  Schedule.__init__ optimize tutors days 1 1 1 0 max_shifts_by_tutor
    mode_preference availability target_ip_fractions target_v_fractions
    1 1 1 1.

(** The positional arguments that the facade derives from them. *)
Definition S : list Z := [1; 2; 1].
Definition m : list Z := [1; 0; -1].
Definition a : list (list Q) :=
  [[1%Q; 0%Q]; [(1 # 2)%Q; 1%Q]; [(1 # 2)%Q; 1%Q]].
Definition fp : list Q := [(1 # 4)%Q; (1 # 4)%Q].
Definition fv : list Q := [(1 # 4)%Q; (1 # 4)%Q].

(** The instance that [facade] evaluates to. *)
Definition schedule : Schedule.t :=
  Schedule.mk tutors (index_table tutors) days (index_table days)
    (solved optimize 3 2 1 1 S 1 0 a m fp fv 1 1 1 1).
End coverage_test.

(** ** Basic facts about the Python primitives *)

Lemma obind_ret {A B} (a : A) (k : A → outcome B) : (Ok a ≫= k) = k a.
Proof. reflexivity. Qed.

Lemma obind_raise {A B} (e : exn) (k : A → outcome B) : (Raise e ≫= k) = Raise e.
Proof. reflexivity. Qed.

Lemma obind_Ok {A B} (c : outcome A) (k : A → outcome B) a :
  c = Ok a → (c ≫= k) = k a.
Proof. by intros ->. Qed.

Lemma obind_Ok_inv {A B} (c : outcome A) (k : A → outcome B) b :
  (c ≫= k) = Ok b → ∃ a, c = Ok a ∧ k a = Ok b.
Proof. destruct c as [a | e]; [by exists a | done]. Qed.

Lemma py_assert_Ok_inv c : py_assert c = Ok tt → c = true.
Proof. by destruct c. Qed.

Lemma py_assert_cases c :
  (c = true ∧ py_assert c = Ok tt) ∨ (c = false ∧ py_assert c = Raise AssertionError).
Proof. destruct c; auto. Qed.

Lemma elem_of_range (n x : Z) : x ∈ range n ↔ 0 ≤ x < n.
Proof.
  unfold range. rewrite list_elem_of_fmap. split.
  - intros (i & -> & Hi). apply elem_of_seq in Hi. lia.
  - intros H. exists (Z.to_nat x). split; [lia |]. apply elem_of_seq. lia.
Qed.

Lemma range_of_nat (n : nat) : range (Z.of_nat n) = map Z.of_nat (seq 0 n).
Proof. unfold range. by rewrite Nat2Z.id. Qed.

Lemma length_range (n : Z) : length (range n) = Z.to_nat n.
Proof. unfold range. by rewrite length_map, length_seq. Qed.

Lemma elem_of_range2 (n_t n_d t d : Z) :
  (t, d) ∈ range2 n_t n_d ↔ (0 ≤ t < n_t ∧ 0 ≤ d < n_d).
Proof.
  unfold range2. rewrite list_elem_of_bind. split.
  - intros (t' & Hd & Ht). apply list_elem_of_fmap in Hd as (d' & [= -> ->] & Hd).
    apply elem_of_range in Ht, Hd. lia.
  - intros [Ht Hd]. exists t. split; [| by apply elem_of_range].
    apply list_elem_of_fmap. exists d. split; [done | by apply elem_of_range].
Qed.

Lemma py_index_nat {A} (l : list A) (i : nat) (x : A) :
  l !! i = Some x → py_index l (Z.of_nat i) = Ok x.
Proof.
  intros Hx. pose proof (lookup_lt_Some _ _ _ Hx) as Hlt. unfold py_index.
  assert ((Z.of_nat i <? 0) = false) as H1 by (apply Z.ltb_ge; lia).
  assert ((Z.of_nat (length l) <=? Z.of_nat i) = false) as H2 by (apply Z.leb_gt; lia).
  rewrite H1. simpl. rewrite H1, H2. simpl. by rewrite Nat2Z.id, Hx.
Qed.

Lemma py_index_in_range {A} (l : list A) (i : Z) :
  0 ≤ i < Z.of_nat (length l) → ∃ x, l !! Z.to_nat i = Some x ∧ py_index l i = Ok x.
Proof.
  intros Hi. destruct (lookup_lt_is_Some_2 l (Z.to_nat i)) as [x Hx]; [lia |].
  exists x. split; [done |]. rewrite <- (Z2Nat.id i) by lia. by apply py_index_nat.
Qed.

Lemma py_index_not_assert {A} (l : list A) (i : Z) :
  py_index l i ≠ Raise AssertionError.
Proof.
  unfold py_index. destruct (_ || _); [done |]. by destruct (l !! _).
Qed.

Lemma comprehension_cons {A B} (f : A → outcome B) (x : A) (l : list A) :
  comprehension f (x :: l) = (y ← f x; ys ← comprehension f l; Ok (y :: ys)).
Proof. reflexivity. Qed.

Lemma comprehension_Ok {A B} (f : A → outcome B) (g : A → B) (l : list A) :
  (∀ x, x ∈ l → f x = Ok (g x)) → comprehension f l = Ok (map g l).
Proof.
  induction l as [| x l IH]; intros Hf; simpl; [done |].
  rewrite (Hf x) by left. simpl. rewrite IH; [done |].
  intros y Hy. apply Hf. by right.
Qed.

Lemma comprehension_Ok_inv {A B} (f : A → outcome B) (l : list A) (ys : list B) :
  comprehension f l = Ok ys → Forall2 (λ x y, f x = Ok y) l ys.
Proof.
  revert ys. induction l as [| x l IH]; intros ys; simpl.
  - intros [= <-]. constructor.
  - destruct (f x) as [y | e] eqn:Hx; simpl; [| done].
    destruct (comprehension f l) as [ys' | e]; simpl; [| done].
    intros [= <-]. constructor; auto.
Qed.

Lemma comprehension_Raise_inv {A B} (f : A → outcome B) (l : list A) (e : exn) :
  comprehension f l = Raise e → ∃ x, x ∈ l ∧ f x = Raise e.
Proof.
  induction l as [| x l IH]; simpl; [done |].
  destruct (f x) as [y | e'] eqn:Hx; simpl.
  - destruct (comprehension f l) as [ys' | e'']; simpl; [done |].
    intros [= ->]. destruct IH as (z & Hz & Hfz); [done |].
    exists z. split; [by right | done].
  - intros [= ->]. exists x. split; [left | done].
Qed.

Lemma comprehension_length {A B} (f : A → outcome B) (l : list A) (ys : list B) :
  comprehension f l = Ok ys → length ys = length l.
Proof.
  intros H. apply comprehension_Ok_inv in H. symmetry. by eapply Forall2_length.
Qed.

Lemma sum_bool_acc (l : list bool) (acc : Z) :
  fold_left (λ acc (b : bool), acc + (if b then 1 else 0)) l acc = acc + sum_bool l.
Proof.
  unfold sum_bool. revert acc. induction l as [| b l IH]; intros acc; simpl; [lia |].
  rewrite IH, (IH (0 + _)). lia.
Qed.

Lemma sum_bool_cons (b : bool) (l : list bool) :
  sum_bool (b :: l) = (if b then 1 else 0) + sum_bool l.
Proof. unfold sum_bool at 1. simpl. by rewrite sum_bool_acc. Qed.

Lemma sum_bool_bounds (l : list bool) : 0 ≤ sum_bool l ≤ Z.of_nat (length l).
Proof.
  induction l as [| b l IH]; [done |]. rewrite sum_bool_cons. simpl length.
  destruct b; lia.
Qed.

(** [sum([c(x) for x in l]) == len(l)] holds exactly when [c] holds of every
    element. *)
Lemma sum_bool_all (l : list bool) :
  sum_bool l = Z.of_nat (length l) ↔ Forall (λ b, b = true) l.
Proof.
  induction l as [| b l IH]; [split; [constructor | done] |].
  rewrite sum_bool_cons. simpl length. pose proof (sum_bool_bounds l).
  rewrite Forall_cons. destruct b.
  - rewrite <- IH. split; [intros; split; [done | lia] | intros [_ ?]; lia].
  - split; [lia | intros [[=] _]].
Qed.

Lemma sum_bool_map_all {A} (c : A → bool) (l : list A) :
  sum_bool (map c l) = Z.of_nat (length l) ↔ Forall (λ x, c x = true) l.
Proof.
  rewrite <- (length_map c l), sum_bool_all, Forall_fmap. done.
Qed.

(** ** Floats: a quotient [±1/n] is a number

    Rounding shifts the mantissa to the right and adds at most one to it,
    so a quotient of absolute value at most 1 cannot reach the exponent of
    the infinities. *)

Lemma shr_1_bounds (r : shr_record) :
  0 ≤ shr_m r → 0 ≤ shr_m (shr_1 r) ≤ shr_m r.
Proof.
  destruct r as [m b s]. simpl. intros Hm.
  destruct m as [| [p | p |] | p]; simpl; lia.
Qed.

Lemma iter_shr_1_bounds (p : positive) (r : shr_record) :
  0 ≤ shr_m r → 0 ≤ shr_m (SpecFloat.iter_pos shr_1 p r) ≤ shr_m r.
Proof.
  revert r. induction p as [p IH | p IH |]; intros r Hr; simpl.
  - pose proof (shr_1_bounds r Hr) as H1.
    pose proof (IH (shr_1 r) ltac:(lia)) as H2.
    pose proof (IH (SpecFloat.iter_pos shr_1 p (shr_1 r)) ltac:(lia)). lia.
  - pose proof (IH r Hr) as H1.
    pose proof (IH (SpecFloat.iter_pos shr_1 p r) ltac:(lia)). lia.
  - by apply shr_1_bounds.
Qed.

Lemma shr_fexp_bounds (m e : Z) (l : location) :
  0 ≤ m →
  0 ≤ shr_m (shr_fexp 53 1024 m e l).1 ≤ m
  ∧ ((shr_fexp 53 1024 m e l).2 = e
     ∨ (shr_fexp 53 1024 m e l).2 = fexp 53 1024 (Zdigits2 m + e)).
Proof.
  intros Hm. unfold shr_fexp, shr.
  assert (shr_m (shr_record_of_loc m l) = m) as Hl by by destruct l as [| []].
  destruct (fexp 53 1024 (Zdigits2 m + e) - e) as [| n | n] eqn:Hn; simpl.
  - rewrite Hl. lia.
  - pose proof (iter_shr_1_bounds n (shr_record_of_loc m l)) as H.
    rewrite Hl in H. split; [by apply H | right; lia].
  - rewrite Hl. lia.
Qed.

Lemma digits2_pos_lower (p : positive) : 2 ^ (Z.pos (digits2_pos p) - 1) ≤ Z.pos p.
Proof.
  induction p as [p IH | p IH |]; simpl digits2_pos; [| | done].
  - rewrite Pos2Z.inj_succ.
    replace (Z.succ (Z.pos (digits2_pos p)) - 1) with (Z.succ (Z.pos (digits2_pos p) - 1)) by lia.
    rewrite Z.pow_succ_r by lia. lia.
  - rewrite Pos2Z.inj_succ.
    replace (Z.succ (Z.pos (digits2_pos p)) - 1) with (Z.succ (Z.pos (digits2_pos p) - 1)) by lia.
    rewrite Z.pow_succ_r by lia. lia.
Qed.

Lemma Zdigits2_le (m n : Z) : 0 ≤ n → 0 ≤ m < 2 ^ n → Zdigits2 m ≤ n.
Proof.
  intros Hn [Hm Hlt]. destruct m as [| p | p]; simpl; [lia | | lia].
  pose proof (digits2_pos_lower p) as Hp.
  destruct (Z_le_gt_dec (Z.pos (digits2_pos p)) n) as [| Hgt]; [done |].
  assert (2 ^ n ≤ 2 ^ (Z.pos (digits2_pos p) - 1)) by (apply Z.pow_le_mono_r; lia).
  lia.
Qed.

Lemma round_nearest_even_bounds (m : Z) (l : location) :
  0 ≤ m → 0 ≤ round_nearest_even m l ≤ m + 1.
Proof.
  intros Hm. destruct l as [| []]; simpl; [lia | | lia | lia].
  destruct (Z.even m); lia.
Qed.

Lemma binary_round_aux_finite (sx : bool) (mx ex : Z) (lx : location) :
  -1074 ≤ ex ≤ -52 → 0 ≤ mx ≤ 2 ^ (- ex) →
  finite_float (binary_round_aux 53 1024 sx mx ex lx).
Proof.
  intros He Hm. unfold binary_round_aux.
  assert (Zdigits2 mx ≤ 1 - ex) as Hd.
  { apply Zdigits2_le; [lia |].
    replace (1 - ex) with (Z.succ (- ex)) by lia. rewrite Z.pow_succ_r by lia.
    assert (0 < 2 ^ (- ex)) by (apply Z.pow_pos_nonneg; lia). lia. }
  assert (∀ m, 0 ≤ m ≤ mx + 1 → Zdigits2 m ≤ 1076) as Hdigits.
  { intros m Hle. apply Zdigits2_le; [done |].
    assert (2 ^ (- ex) ≤ 2 ^ 1074) by (apply Z.pow_le_mono_r; lia).
    assert (2 ^ 1076 = 2 * (2 * 2 ^ 1074)) as -> by (by rewrite <- !Z.pow_succ_r).
    assert (1 < 2 ^ 1074) by (by apply Z.pow_gt_1). lia. }
  destruct Hm as [Hm _].
  pose proof (shr_fexp_bounds mx ex lx Hm) as [H1 E1].
  destruct (shr_fexp 53 1024 mx ex lx) as [r1 e1]. simpl in H1, E1.
  assert (e1 ≤ -52) as He1 by (unfold fexp, emin in E1; lia).
  pose proof (round_nearest_even_bounds (shr_m r1) (loc_of_shr_record r1) ltac:(lia)) as H2.
  set (m2 := round_nearest_even (shr_m r1) (loc_of_shr_record r1)) in *.
  pose proof (shr_fexp_bounds m2 e1 loc_Exact ltac:(lia)) as [H3 E3].
  destruct (shr_fexp 53 1024 m2 e1 loc_Exact) as [r2 e2]. simpl in H3, E3.
  assert (Zdigits2 m2 ≤ 1076) as Hd2 by (apply Hdigits; lia).
  assert (e2 ≤ 971) as He2 by (unfold fexp, emin in E3; lia).
  destruct (shr_m r2) as [| p | p]; [done | | lia].
  destruct (Z.leb_spec e2 (1024 - 53)); [done | lia].
Qed.

Lemma digits2_pos_pos (p : positive) : 1 ≤ Z.pos (digits2_pos p).
Proof. lia. Qed.

Lemma SFdiv_unit_finite (sx sy : bool) (p : positive) :
  finite_float (SFdiv 53 1024 (S754_finite sx 1 0) (S754_finite sy p 0)).
Proof.
  unfold SFdiv, SFdiv_core_binary.
  set (e' := Z.min _ _).
  assert (-1074 ≤ e' ≤ -53) as He.
  { subst e'. unfold fexp, emin, Zdigits2. simpl digits2_pos.
    pose proof (digits2_pos_pos p). lia. }
  assert (0 - 0 - e' = Z.pos (Z.to_pos (- e'))) as -> by lia.
  rewrite Z.shiftl_1_l.
  assert (Z.pos (Z.to_pos (- e')) = - e') as -> by lia.
  pose proof (Z_div_mod (2 ^ (- e')) (Z.pos p) ltac:(lia)) as Hdiv.
  destruct (Z.div_eucl (2 ^ (- e')) (Z.pos p)) as [q r].
  apply binary_round_aux_finite; [lia |].
  assert (0 < 2 ^ (- e')) by (apply Z.pow_pos_nonneg; lia).
  nia.
Qed.

Lemma py_div_minus_one (N_T : Z) :
  0 < N_T → py_div (-1) N_T = Ok (align_coefficient N_T).
Proof.
  intros HT. unfold py_div, align_coefficient.
  destruct N_T as [| p | p]; [lia | | lia].
  change (Z.pos p =? 0) with false. cbv iota.
  change (float_of_Q (inject_Z (-1) / inject_Z (Z.pos p)))
    with (SFdiv 53 1024 (S754_finite true 1 0) (S754_finite false p 0)).
  pose proof (SFdiv_unit_finite true false p) as Hfin.
  by destruct (SFdiv 53 1024 (S754_finite true 1 0) (S754_finite false p 0)).
Qed.

(** ** The constructor, step by step *)

Lemma add_vars_nil self : add_vars [] self = self.
Proof. destruct self as [[] ?]. unfold add_vars. simpl. by rewrite app_nil_r. Qed.

Lemma add_vars_app vs1 vs2 self :
  add_vars (vs1 ++ vs2) self = add_vars vs2 (add_vars vs1 self).
Proof. unfold add_vars. simpl. by rewrite app_assoc. Qed.

Lemma add_constrs_nil self : add_constrs [] self = self.
Proof. destruct self as [[] ?]. unfold add_constrs. simpl. by rewrite app_nil_r. Qed.

Lemma add_constrs_app cs1 cs2 self :
  add_constrs (cs1 ++ cs2) self = add_constrs cs2 (add_constrs cs1 self).
Proof. unfold add_constrs. simpl. by rewrite app_assoc. Qed.

Lemma bind_lift {A B} (c : Model.t → outcome A) (k : A → Model.M B) self :
  Model.bind (Model.lift c) k self
  = match c self with Ok a => k a self | Raise e => (Raise e, self) end.
Proof. unfold Model.bind, Model.lift. by destruct (c self). Qed.

Lemma bind_addConstr {B} (c : Constr) (k : unit → Model.M B) self :
  Model.bind (Model.addConstr c) k self = k tt (add_constrs [c] self).
Proof. reflexivity. Qed.

Lemma addConstr_eq (c : Constr) self :
  Model.addConstr c self = (Ok tt, add_constrs [c] self).
Proof. reflexivity. Qed.

Lemma bind_Ok {A B} (c : Model.M A) (k : A → Model.M B) self a self' :
  c self = (Ok a, self') → Model.bind c k self = k a self'.
Proof. unfold Model.bind. by intros ->. Qed.

Lemma bind_Raise {A B} (c : Model.M A) (k : A → Model.M B) self e self' :
  c self = (Raise e, self') → Model.bind c k self = (Raise e, self').
Proof. unfold Model.bind. by intros ->. Qed.

(** A row of fresh variables. *)
Lemma collect_addVar_row (vt : vtype) (nm : Z → string) (n : nat) :
  ∀ (a : nat) self,
    let row := map (λ d, mkVar (length (gvars (Model.model self)) + (Z.to_nat d - a))%nat
                               vt (nm d))
                   (map Z.of_nat (seq a n)) in
    Model.collect (λ d, Model.addVar vt (nm d)) (map Z.of_nat (seq a n)) self
    = (Ok row, add_vars row self).
Proof.
  induction n as [| n IH]; intros a self row.
  - subst row. simpl. unfold Model.ret. by rewrite add_vars_nil.
  - simpl. unfold Model.bind at 1. unfold Model.addVar at 1.
    rewrite (bind_Ok _ _ _ _ _ (IH (S a) _)). unfold Model.ret. subst row. simpl.
    rewrite Nat2Z.id, Nat.sub_diag, Nat.add_0_r.
    set (v := mkVar _ vt (nm (Z.of_nat a))).
    assert (map (λ d : Z, mkVar (length (gvars (Model.model self) ++ [v])
                                 + (Z.to_nat d - S a))%nat vt (nm d))
                (map Z.of_nat (seq (S a) n))
            = map (λ d : Z, mkVar (length (gvars (Model.model self))
                                 + (Z.to_nat d - a))%nat vt (nm d))
                (map Z.of_nat (seq (S a) n))) as ->.
    { apply map_ext_in. intros d Hd. apply in_map_iff in Hd as (k & <- & Hk).
      apply in_seq in Hk. rewrite length_app. simpl. f_equal. lia. }
    f_equal. change (add_vars ?r (Model.with_model _ self))
      with (add_vars r (add_vars [v] self)).
    by rewrite <- add_vars_app.
Qed.

(** A matrix of fresh variables, row by row. *)
Lemma collect_addVar_matrix (vt : vtype) (nm : Z → Z → string) (N_D : Z) (n : nat) :
  ∀ (a : nat) self,
    let mat := map (λ t, map (λ d,
                 mkVar (length (gvars (Model.model self))
                        + (Z.to_nat t - a) * Z.to_nat N_D + Z.to_nat d)%nat vt (nm t d))
                 (range N_D)) (map Z.of_nat (seq a n)) in
    Model.collect (λ t, Model.collect (λ d, Model.addVar vt (nm t d)) (range N_D))
                  (map Z.of_nat (seq a n)) self
    = (Ok mat, add_vars (concat mat) self).
Proof.
  induction n as [| n IH]; intros a self mat.
  - subst mat. simpl. unfold Model.ret. by rewrite add_vars_nil.
  - simpl. unfold range at 1.
    rewrite (bind_Ok _ _ _ _ _ (collect_addVar_row vt (nm (Z.of_nat a)) _ 0 self)).
    rewrite (bind_Ok _ _ _ _ _ (IH (S a) _)). unfold Model.ret. subst mat. simpl.
    rewrite Nat2Z.id, Nat.sub_diag. fold (range N_D).
    set (row := map _ (range N_D)).
    set (row' := map _ (range N_D)).
    assert (row = row') as Hrow.
    { subst row row'. apply map_ext. intros d. f_equal. lia. }
    assert (length row = Z.to_nat N_D) as Hlen.
    { subst row. by rewrite length_map, length_range. }
    rewrite <- Hrow.
    match goal with
    | |- (Ok (row :: ?m1), _) = (Ok (row :: ?m2), _) =>
        assert (m1 = m2) as ->
    end.
    { apply map_ext_in. intros t Ht. apply in_map_iff in Ht as (k & <- & Hk).
      apply in_seq in Hk. apply map_ext. intros d. f_equal.
      rewrite length_app, Hlen, !Nat2Z.id.
      replace (k - a)%nat with (S (k - S a)) by lia. simpl. lia. }
    by rewrite add_vars_app.
Qed.

Lemma collect_addVar_range (vt : vtype) (nm : Z → Z → string) (N_T N_D : Z) self :
  let mat := matrix_of N_T N_D (λ t d,
               mkVar (length (gvars (Model.model self))
                      + Z.to_nat t * Z.to_nat N_D + Z.to_nat d)%nat vt (nm t d)) in
  Model.collect (λ t, Model.collect (λ d, Model.addVar vt (nm t d)) (range N_D))
                (range N_T) self
  = (Ok mat, add_vars (concat mat) self).
Proof.
  intros mat. unfold range at 2.
  rewrite (collect_addVar_matrix vt nm N_D _ 0 self). fold (range N_T).
  assert (mat = map (λ t, map (λ d,
                 mkVar (length (gvars (Model.model self))
                        + (Z.to_nat t - 0) * Z.to_nat N_D + Z.to_nat d)%nat vt (nm t d))
                 (range N_D)) (range N_T)) as <-; [| done].
  subst mat. unfold matrix_of. apply map_ext. intros t. apply map_ext. intros d.
  by rewrite Nat.sub_0_r.
Qed.

Lemma matrix_of_length {A} (N_T N_D : Z) (f : Z → Z → A) :
  length (matrix_of N_T N_D f) = Z.to_nat N_T.
Proof. unfold matrix_of. by rewrite length_map, length_range. Qed.

Lemma length_concat_rows {A B} (g : B → list A) (n : nat) (ts : list B) :
  (∀ t, length (g t) = n) → length (concat (map g ts)) = (length ts * n)%nat.
Proof.
  intros Hg. induction ts as [| t ts IH]; simpl; [done |].
  by rewrite length_app, Hg, IH.
Qed.

Lemma length_concat_matrix_of {A} (N_T N_D : Z) (f : Z → Z → A) :
  length (concat (matrix_of N_T N_D f)) = (Z.to_nat N_T * Z.to_nat N_D)%nat.
Proof.
  unfold matrix_of. rewrite (length_concat_rows _ (Z.to_nat N_D)).
  - by rewrite length_range.
  - intros t. by rewrite length_map, length_range.
Qed.

Lemma set_decision_variables_Ok (N_T N_D : Z) :
  0 < N_T → 0 < N_D →
  Model.__set_decision_variables N_T N_D (fresh N_T N_D)
  = (Ok tt, with_variables N_T N_D).
Proof.
  intros HT HD. unfold Model.__set_decision_variables.
  rewrite bind_lift. unfold Model.__VALIDATE, Model.variables_checks.
  rewrite (proj2 (Z.ltb_lt 0 N_T) HT), (proj2 (Z.ltb_lt 0 N_D) HD). simpl.
  rewrite (bind_Ok _ _ _ _ _ (collect_addVar_range GRB_BINARY
    (λ t d, "xp_(" +:+ pretty t +:+ "," +:+ pretty d +:+ ")") N_T N_D _)).
  unfold Model.bind at 1. unfold Model.set_xp at 1. cbv beta iota.
  rewrite (bind_Ok _ _ _ _ _ (collect_addVar_range GRB_BINARY
    (λ t d, "xv_(" +:+ pretty t +:+ "," +:+ pretty d +:+ ")") N_T N_D _)).
  unfold Model.set_xv. f_equal. simpl.
  set (xp := matrix_of N_T N_D _). set (xv := matrix_of N_T N_D _).
  assert (xp = matrix_of N_T N_D (xp_var N_D)) as Hxp.
  { subst xp. unfold matrix_of. apply map_ext_in. intros t Ht.
    apply list_elem_of_In, elem_of_range in Ht.
    apply map_ext_in. intros d Hd. apply list_elem_of_In, elem_of_range in Hd.
    unfold xp_var. f_equal. lia. }
  assert (xv = matrix_of N_T N_D (xv_var N_T N_D)) as Hxv.
  { subst xv. unfold matrix_of. apply map_ext_in. intros t Ht.
    apply list_elem_of_In, elem_of_range in Ht.
    apply map_ext_in. intros d Hd. apply list_elem_of_In, elem_of_range in Hd.
    unfold xv_var. f_equal. rewrite Hxp, length_concat_matrix_of. nia. }
  rewrite Hxv, Hxp. reflexivity.
Qed.

Lemma set_decision_variables_Raise (N_T N_D : Z) :
  ¬ (0 < N_T ∧ 0 < N_D) →
  Model.__set_decision_variables N_T N_D (fresh N_T N_D)
  = (Raise AssertionError, fresh N_T N_D).
Proof.
  intros H. unfold Model.__set_decision_variables.
  rewrite bind_lift. unfold Model.__VALIDATE, Model.variables_checks.
  destruct (Z.ltb_spec 0 N_T); simpl; [| done].
  destruct (Z.ltb_spec 0 N_D); simpl; [lia | done].
Qed.

(** ** The indexer on a well-formed instance *)

Lemma range_lookup (n i : Z) : 0 ≤ i < n → range n !! Z.to_nat i = Some i.
Proof.
  intros Hi. unfold range. rewrite list_lookup_fmap, lookup_seq_lt by lia.
  simpl. f_equal. lia.
Qed.

Lemma matrix_of_lookup {A} (N_T N_D : Z) (f : Z → Z → A) (t : Z) :
  0 ≤ t < N_T → matrix_of N_T N_D f !! Z.to_nat t = Some (map (f t) (range N_D)).
Proof.
  intros Ht. unfold matrix_of. by rewrite list_lookup_fmap, range_lookup.
Qed.

Lemma matrix_of_lookup2 {A} (N_D : Z) (g : Z → A) (d : Z) :
  0 ≤ d < N_D → map g (range N_D) !! Z.to_nat d = Some (g d).
Proof. intros Hd. by rewrite list_lookup_fmap, range_lookup. Qed.

Lemma py_index_Z {A} (l : list A) (i : Z) (x : A) :
  0 ≤ i → l !! Z.to_nat i = Some x → py_index l i = Ok x.
Proof. intros Hi Hx. rewrite <- (Z2Nat.id i) by done. by apply py_index_nat. Qed.

Lemma index2_matrix_of {A} (N_T N_D : Z) (f : Z → Z → A) (t d : Z) :
  0 ≤ t < N_T → 0 ≤ d < N_D → index2 (matrix_of N_T N_D f) t d = Ok (f t d).
Proof.
  intros Ht Hd. unfold index2.
  rewrite (py_index_Z _ t _ (proj1 Ht) (matrix_of_lookup N_T N_D f t Ht)). simpl.
  by rewrite (py_index_Z _ d _ (proj1 Hd) (matrix_of_lookup2 N_D (f t) d Hd)).
Qed.

Lemma py_slice_all {A} (l : list A) : py_slice l None None = l.
Proof.
  unfold py_slice, slice_bound. rewrite Z.sub_0_r, Nat2Z.id. simpl.
  by rewrite firstn_all.
Qed.

Section indexer.
Context (self : Model.t) (mode N_T N_D : Z) (f : Z → Z → Var).
Hypothesis Hmode : is_mode mode.
Hypothesis Hstatus : Model.status self ≠ Model.INFEASIBLE.
Hypothesis Hvars : vars_of self mode = matrix_of N_T N_D f.

Lemma getitem_prefix (tutors days : selector) :
  Model.__getitem__ self (mode, tutors, days)
  = (rows ← subscript (Model.rows_of (matrix_of N_T N_D f)) tutors;
     match rows with
     | Leaf _ => Raise TypeError
     | PyList [] => Ok (Some (Model.resolve self (PyList [])))
     | PyList (Leaf _ :: _) =>
         r ← subscript rows days; Ok (Some (Model.resolve self r))
     | PyList ((PyList _ :: _) as l) =>
         r ← comprehension (λ row, subscript row days) l;
         Ok (Some (Model.resolve self (PyList r)))
     end).
Proof using Hmode Hstatus Hvars.
  unfold Model.__getitem__.
  assert (((mode =? Model.IN_PERSON) || (mode =? Model.VIRTUAL)) = true) as ->.
  { destruct Hmode as [-> | ->]; reflexivity. }
  simpl. destruct (Z.eqb_spec (Model.status self) Model.INFEASIBLE); [done |].
  fold (vars_of self mode). by rewrite Hvars.
Qed.

Lemma subscript_rows_idx (t : Z) :
  0 ≤ t < N_T →
  subscript (Model.rows_of (matrix_of N_T N_D f)) (Idx t)
  = Ok (PyList (map Leaf (map (f t) (range N_D)))).
Proof.
  intros Ht. unfold Model.rows_of, subscript.
  apply py_index_Z; [lia |]. by rewrite list_lookup_fmap, matrix_of_lookup.
Qed.

Lemma subscript_row_idx (t d : Z) :
  0 ≤ d < N_D →
  subscript (PyList (map Leaf (map (f t) (range N_D)))) (Idx d) = Ok (Leaf (f t d)).
Proof.
  intros Hd. unfold subscript.
  apply py_index_Z; [lia |]. by rewrite list_lookup_fmap, matrix_of_lookup2.
Qed.

Lemma range_nonempty (n : Z) : 0 < n → ∃ i0 rest, range n = i0 :: rest.
Proof.
  intros Hn. destruct (range n) eqn:E; [| eauto].
  apply (f_equal length) in E. rewrite length_range in E. simpl in E. lia.
Qed.

Lemma getitem_cell (t d : Z) :
  0 ≤ t < N_T → 0 ≤ d < N_D →
  Model.__getitem__ self (mode, Idx t, Idx d)
  = Ok (Some (Model.resolve self (Leaf (f t d)))).
Proof using Hmode Hstatus Hvars.
  intros Ht Hd. rewrite getitem_prefix, (subscript_rows_idx t Ht), obind_ret.
  pose proof (subscript_row_idx t d Hd) as Hsub.
  destruct (range_nonempty N_D) as (d0 & ds & Hr); [lia |].
  rewrite Hr in *. simpl map in *. cbv iota. by rewrite Hsub.
Qed.

Lemma getitem_row (t : Z) :
  0 ≤ t < N_T → 0 < N_D →
  Model.__getitem__ self (mode, Idx t, All)
  = Ok (Some (Model.resolve self (PyList (map (λ d, Leaf (f t d)) (range N_D))))).
Proof using Hmode Hstatus Hvars.
  intros Ht Hd. rewrite getitem_prefix, (subscript_rows_idx t Ht), obind_ret.
  rewrite map_map.
  destruct (range_nonempty N_D) as (d0 & ds & Hr); [lia |].
  rewrite Hr in *. simpl map. cbv iota. unfold All, subscript.
  by rewrite py_slice_all.
Qed.

Lemma getitem_column (d : Z) :
  0 < N_T → 0 ≤ d < N_D →
  Model.__getitem__ self (mode, All, Idx d)
  = Ok (Some (Model.resolve self (PyList (map (λ t, Leaf (f t d)) (range N_T))))).
Proof using Hmode Hstatus Hvars.
  intros Ht Hd. rewrite getitem_prefix.
  assert (subscript (Model.rows_of (matrix_of N_T N_D f)) All
          = Ok (Model.rows_of (matrix_of N_T N_D f))) as ->.
  { unfold All, subscript, Model.rows_of. by rewrite py_slice_all. }
  rewrite obind_ret. unfold Model.rows_of, matrix_of. rewrite map_map.
  assert (comprehension (λ row : nested Var, subscript row (Idx d))
            (map (λ t, PyList (map Leaf (map (f t) (range N_D)))) (range N_T))
          = Ok (map (λ t, Leaf (f t d)) (range N_T))) as Hc.
  { generalize (range N_T) as ts. induction ts as [| t0 ts IH]; [done |].
    simpl map. rewrite comprehension_cons.
    rewrite (subscript_row_idx t0 d Hd), obind_ret, IH. done. }
  destruct (range_nonempty N_T) as (t0 & ts & Hr); [lia |].
  rewrite Hr in *. simpl map in *. cbv iota. by rewrite Hc.
Qed.
End indexer.

(** While the model is loading, the indexer yields the handles themselves. *)
Section indexer_loading.
Context (self : Model.t) (mode N_T N_D : Z) (f : Z → Z → Var).
Hypothesis Hmode : is_mode mode.
Hypothesis Hstatus : Model.status self = Model.LOADING.
Hypothesis Hvars : vars_of self mode = matrix_of N_T N_D f.

Lemma loading_not_infeasible : Model.status self ≠ Model.INFEASIBLE.
Proof using Hstatus. by rewrite Hstatus. Qed.

Lemma resolve_loading r : Model.resolve self r = Handles r.
Proof using Hstatus. unfold Model.resolve. by rewrite Hstatus. Qed.

Lemma sum_item_handles {A} (g : A → Var) (l : list A) :
  Model.sum_item (Some (Handles (PyList (map (λ x, Leaf (g x)) l))))
  = Ok (sum_Expr (map (λ x, EVar (g x)) l)).
Proof.
  unfold Model.sum_item.
  rewrite (comprehension_Ok _ (λ x, match x with Leaf v => EVar v | _ => EConst 0 end)).
  - rewrite obind_ret, map_map. done.
  - intros x Hx. apply list_elem_of_fmap in Hx as (y & -> & _). done.
Qed.

Lemma operand_at_loading (t d : Z) :
  0 ≤ t < N_T → 0 ≤ d < N_D →
  Model.operand_at self mode (Idx t) (Idx d) = Ok (EVar (f t d)).
Proof using Hmode Hstatus Hvars.
  intros Ht Hd. unfold Model.operand_at.
  rewrite (getitem_cell self mode N_T N_D f Hmode loading_not_infeasible Hvars t d Ht Hd).
  by rewrite obind_ret, resolve_loading.
Qed.

Lemma sum_at_row_loading (t : Z) :
  0 ≤ t < N_T → 0 < N_D →
  Model.sum_at self mode (Idx t) All = Ok (row_sum N_D f t).
Proof using Hmode Hstatus Hvars.
  intros Ht Hd. unfold Model.sum_at.
  rewrite (getitem_row self mode N_T N_D f Hmode loading_not_infeasible Hvars t Ht Hd).
  by rewrite obind_ret, resolve_loading, sum_item_handles.
Qed.

Lemma sum_at_column_loading (d : Z) :
  0 < N_T → 0 ≤ d < N_D →
  Model.sum_at self mode All (Idx d) = Ok (column_sum N_T f d).
Proof using Hmode Hstatus Hvars.
  intros Ht Hd. unfold Model.sum_at.
  rewrite (getitem_column self mode N_T N_D f Hmode loading_not_infeasible Hvars d Ht Hd).
  by rewrite obind_ret, resolve_loading, sum_item_handles.
Qed.
End indexer_loading.

(** ** The assertions decide the validity of the arguments *)

Lemma checks_step (c : bool) (P Q : Prop) (k : outcome unit) :
  (c = true ↔ P) →
  (P → (Q ∧ k = Ok tt) ∨ (¬ Q ∧ k = Raise AssertionError)) →
  ((P ∧ Q) ∧ (py_assert c ≫= λ _, k) = Ok tt)
  ∨ (¬ (P ∧ Q) ∧ (py_assert c ≫= λ _, k) = Raise AssertionError).
Proof.
  intros Hc Hk. destruct c; simpl.
  - destruct Hk as [[HQ ->] | [HQ ->]]; [by apply Hc | left | right].
    + split; [split; [by apply Hc | done] | done].
    + split; [intros [_ ?]; done | done].
  - right. split; [| done]. intros [HP _]. apply Hc in HP. done.
Qed.

Lemma checks_last (c : bool) (P : Prop) :
  (c = true ↔ P) →
  (P ∧ py_assert c = Ok tt) ∨ (¬ P ∧ py_assert c = Raise AssertionError).
Proof.
  intros Hc. destruct c; simpl; [left | right]; split; try done.
  - by apply Hc.
  - intros HP. apply Hc in HP. done.
Qed.

Lemma bind_cons {A B} (f : A → list B) (x : A) (l : list A) :
  ((x :: l) ≫= f) = f x ++ (l ≫= f).
Proof. reflexivity. Qed.

Lemma length_range2 (N_T N_D : Z) :
  length (range2 N_T N_D) = (Z.to_nat N_T * Z.to_nat N_D)%nat.
Proof.
  unfold range2. rewrite <- (length_range N_T).
  induction (range N_T) as [| t ts IH]; [done |].
  rewrite bind_cons, length_app, IH, length_fmap, length_range. done.
Qed.

Lemma in_Q_levels (x : Q) :
  in_Q x [Model.UNAVAILABLE; Model.NOT_PREFERRED; Model.PREFERRED] = true ↔ level x.
Proof.
  unfold in_Q, level. simpl. rewrite orb_false_r, !orb_true_iff, !Qeq_bool_iff. tauto.
Qed.

Lemma in_Z_preferences (x : Z) :
  in_Z x [Model.PREFER_VIRTUAL; Model.NO_PREFERENCE; Model.PREFER_IN_PERSON] = true
  ↔ preference x.
Proof.
  unfold in_Z, preference. simpl. rewrite orb_false_r, !orb_true_iff, !Z.eqb_eq. tauto.
Qed.

Lemma py_index_S_at (S : list Z) (t : Z) :
  0 ≤ t < Z.of_nat (length S) → py_index S t = Ok (S_at S t).
Proof.
  intros Ht. destruct (py_index_in_range S t Ht) as (x & Hx & ->).
  unfold S_at. by rewrite (nth_lookup_Some _ _ _ _ Hx).
Qed.

Lemma py_index_f_at (f : list Q) (d : Z) :
  0 ≤ d < Z.of_nat (length f) → py_index f d = Ok (f_at f d).
Proof.
  intros Hd. destruct (py_index_in_range f d Hd) as (x & Hx & ->).
  unfold f_at. by rewrite (nth_lookup_Some _ _ _ _ Hx).
Qed.

Lemma index2_a_at (N_T N_D : Z) (a : list (list Q)) (t d : Z) :
  Z.of_nat (length a) = N_T → Forall (λ row, Z.of_nat (length row) = N_D) a →
  0 ≤ t < N_T → 0 ≤ d < N_D → index2 a t d = Ok (a_at a t d).
Proof.
  intros Hlen Hrows Ht Hd. unfold index2, a_at.
  destruct (py_index_in_range a t) as (row & Hrow & ->); [lia |].
  rewrite obind_ret, (nth_lookup_Some _ _ _ _ Hrow).
  rewrite Forall_lookup in Hrows. specialize (Hrows _ _ Hrow).
  destruct (py_index_in_range row d) as (x & Hx & ->); [lia |].
  by rewrite (nth_lookup_Some _ _ _ _ Hx).
Qed.

Lemma constraints_checks_cases (N_T N_D lp lv s sp : Z) (S : list Z) (a : list (list Q)) :
  0 < N_T → 0 < N_D →
  (valid_constraint_input N_T N_D lp lv s sp S a
   ∧ Model.constraints_checks N_T N_D lp lv s sp S a = Ok tt)
  ∨ (¬ valid_constraint_input N_T N_D lp lv s sp S a
     ∧ Model.constraints_checks N_T N_D lp lv s sp S a = Raise AssertionError).
Proof.
  intros HT HD. unfold valid_constraint_input, Model.constraints_checks.
  apply checks_step; [apply Z.leb_le | intros _].
  apply checks_step; [apply Z.leb_le | intros _].
  apply checks_step; [apply Z.leb_le | intros _].
  apply checks_step; [apply Z.leb_le | intros _].
  apply checks_step; [apply Z.eqb_eq | intros HS].
  apply checks_step.
  { rewrite Z.eqb_eq, <- HS, sum_bool_map_all. apply Forall_proper; [| done].
    intros x. apply Z.leb_le. }
  intros _.
  apply checks_step; [apply Z.eqb_eq | intros Ha].
  apply checks_step.
  { rewrite Z.eqb_eq, <- Ha, sum_bool_map_all. apply Forall_proper; [| done].
    intros x. apply Z.eqb_eq. }
  intros Hrows.
  rewrite (comprehension_Ok _
    (λ '(t, d), in_Q (a_at a t d)
                  [Model.UNAVAILABLE; Model.NOT_PREFERRED; Model.PREFERRED])).
  2:{ intros [t d] Htd. apply elem_of_range2 in Htd as [Ht Hd].
      by rewrite (index2_a_at N_T N_D a t d Ha Hrows Ht Hd). }
  rewrite obind_ret. apply checks_last.
  assert (N_T * N_D = Z.of_nat (length (range2 N_T N_D))) as -> by (rewrite length_range2; lia).
  rewrite Z.eqb_eq, sum_bool_map_all, Forall_forall. split.
  - intros H t d Ht Hd. apply in_Q_levels. apply (H (t, d)). by apply elem_of_range2.
  - intros H [t d] Htd. apply elem_of_range2 in Htd as [Ht Hd]. apply in_Q_levels. auto.
Qed.

Lemma objective_checks_cases (N_T N_D : Z) (m : list Z) (fp fv : list Q)
    (w1 w2 w3 w4 : Q) :
  (valid_objective_input N_T N_D m fp fv w1 w2 w3 w4
   ∧ Model.objective_checks N_T N_D m fp fv w1 w2 w3 w4 = Ok tt)
  ∨ (¬ valid_objective_input N_T N_D m fp fv w1 w2 w3 w4
     ∧ Model.objective_checks N_T N_D m fp fv w1 w2 w3 w4 = Raise AssertionError).
Proof.
  unfold valid_objective_input, Model.objective_checks.
  apply checks_step; [apply Z.eqb_eq | intros Hm].
  apply checks_step.
  { rewrite Z.eqb_eq, <- Hm, sum_bool_map_all. apply Forall_proper; [| done].
    intros x. apply in_Z_preferences. }
  intros _.
  apply checks_step; [apply Z.eqb_eq | intros Hfp].
  apply checks_step.
  { rewrite Z.eqb_eq, <- Hfp, sum_bool_map_all. apply Forall_proper; [| done].
    intros x. apply Qle_bool_iff. }
  intros _.
  apply checks_step; [apply Z.eqb_eq | intros Hfv].
  apply checks_step.
  { rewrite Z.eqb_eq, <- Hfv, sum_bool_map_all. apply Forall_proper; [| done].
    intros x. apply Qle_bool_iff. }
  intros _.
  apply checks_step; [done | intros _].
  apply checks_step; [apply Qle_bool_iff | intros _].
  apply checks_step; [apply Qle_bool_iff | intros _].
  apply checks_step; [apply Qle_bool_iff | intros _].
  apply checks_last. apply Qle_bool_iff.
Qed.

(** ** The constraints added by the constructor *)

Import Model.Notations.

Lemma loading_add_constrs (N_T N_D : Z) (cs : list Constr) self :
  loading N_T N_D self → loading N_T N_D (add_constrs cs self).
Proof. intros H. exact H. Qed.

Lemma for_each_add_constrs {A} (P : Model.t → Prop) (l : list A)
    (body : A → Model.M unit) (cs : A → list Constr) :
  (∀ self c, P self → P (add_constrs c self)) →
  (∀ x self, x ∈ l → P self → body x self = (Ok tt, add_constrs (cs x) self)) →
  ∀ self, P self →
    Model.for_each l body self = (Ok tt, add_constrs (flat_map cs l) self).
Proof.
  intros HP. induction l as [| x l IH]; intros Hbody self Hself; simpl.
  - unfold Model.ret. by rewrite add_constrs_nil.
  - rewrite (bind_Ok _ _ _ _ _ (Hbody x self ltac:(left) Hself)).
    rewrite IH; [by rewrite add_constrs_app | | by apply HP].
    intros y self' Hy. apply Hbody. by right.
Qed.

Section set_constraints.
Context (N_T N_D lp lv s sp : Z) (S : list Z) (a : list (list Q)).
Hypothesis HT : 0 < N_T.
Hypothesis HD : 0 < N_D.

Lemma loading_facts self :
  loading N_T N_D self →
  Model.status self = Model.LOADING
  ∧ vars_of self Model.IN_PERSON = matrix_of N_T N_D (xp_var N_D)
  ∧ vars_of self Model.VIRTUAL = matrix_of N_T N_D (xv_var N_T N_D).
Proof. intros (? & ? & ? & ? & ?). done. Qed.

Lemma cell_body (t d : Z) self :
  Z.of_nat (length a) = N_T → Forall (λ row, Z.of_nat (length row) = N_D) a →
  0 ≤ t < N_T → 0 ≤ d < N_D → loading N_T N_D self →
  (a_td <- Model.lift (λ _, index2 a t d) ;;
   if Qeq_bool a_td Model.UNAVAILABLE then
     xp_td <- Model.lift (λ self, Model.operand_at self Model.IN_PERSON (Idx t) (Idx d)) ;;
     Model.addConstr (mkConstr xp_td Equal (EConst 0)) ;;
     xv_td <- Model.lift (λ self, Model.operand_at self Model.VIRTUAL (Idx t) (Idx d)) ;;
     Model.addConstr (mkConstr xv_td Equal (EConst 0))
   else
     xp_td <- Model.lift (λ self, Model.operand_at self Model.IN_PERSON (Idx t) (Idx d)) ;;
     xv_td <- Model.lift (λ self, Model.operand_at self Model.VIRTUAL (Idx t) (Idx d)) ;;
     Model.addConstr (mkConstr (EAdd xp_td xv_td) LessEqual (EConst 1)))%M self
  = (Ok tt, add_constrs (cell_constraints N_T N_D a t d) self).
Proof using HT HD.
  intros Ha Hrows Ht Hd Hself. destruct (loading_facts self Hself) as (Hst & Hxp & Hxv).
  rewrite bind_lift, (index2_a_at N_T N_D a t d Ha Hrows Ht Hd).
  unfold cell_constraints. destruct (Qeq_bool (a_at a t d) Model.UNAVAILABLE).
  - rewrite bind_lift.
    rewrite (operand_at_loading self _ N_T N_D _ (or_introl eq_refl) Hst Hxp t d Ht Hd).
    rewrite bind_addConstr, bind_lift.
    rewrite (operand_at_loading (add_constrs _ self) _ N_T N_D _
               (or_intror eq_refl) Hst Hxv t d Ht Hd).
    by rewrite addConstr_eq, <- add_constrs_app.
  - rewrite bind_lift.
    rewrite (operand_at_loading self _ N_T N_D _ (or_introl eq_refl) Hst Hxp t d Ht Hd).
    rewrite bind_lift.
    rewrite (operand_at_loading self _ N_T N_D _ (or_intror eq_refl) Hst Hxv t d Ht Hd).
    done.
Qed.

Lemma set_constraints_loop self :
  Z.of_nat (length S) = N_T →
  Z.of_nat (length a) = N_T → Forall (λ row, Z.of_nat (length row) = N_D) a →
  loading N_T N_D self →
  (Model.for_each (range N_T) (λ t,
     Xp_t <- Model.lift (λ self, Model.sum_at self Model.IN_PERSON (Idx t) All) ;;
     Xv_t <- Model.lift (λ self, Model.sum_at self Model.VIRTUAL (Idx t) All) ;;
     S_t <- Model.lift (λ _, py_index S t) ;;
     Model.addConstr (mkConstr (EAdd Xp_t Xv_t) LessEqual (EConst (inject_Z S_t))) ;;
     Model.addConstr (mkConstr (EAdd Xp_t Xv_t) GreaterEqual (EConst (inject_Z s))) ;;
     Model.addConstr (mkConstr Xp_t GreaterEqual (EConst (inject_Z sp))) ;;
     Model.for_each (range N_D) (λ d,
       a_td <- Model.lift (λ _, index2 a t d) ;;
       if Qeq_bool a_td Model.UNAVAILABLE then
         xp_td <- Model.lift (λ self, Model.operand_at self Model.IN_PERSON (Idx t) (Idx d)) ;;
         Model.addConstr (mkConstr xp_td Equal (EConst 0)) ;;
         xv_td <- Model.lift (λ self, Model.operand_at self Model.VIRTUAL (Idx t) (Idx d)) ;;
         Model.addConstr (mkConstr xv_td Equal (EConst 0))
       else
         xp_td <- Model.lift (λ self, Model.operand_at self Model.IN_PERSON (Idx t) (Idx d)) ;;
         xv_td <- Model.lift (λ self, Model.operand_at self Model.VIRTUAL (Idx t) (Idx d)) ;;
         Model.addConstr (mkConstr (EAdd xp_td xv_td) LessEqual (EConst 1)))) ;;
   Model.for_each (range N_D) (λ d,
     Xp_d <- Model.lift (λ self, Model.sum_at self Model.IN_PERSON All (Idx d)) ;;
     Model.addConstr (mkConstr Xp_d GreaterEqual (EConst (inject_Z lp))) ;;
     Xv_d <- Model.lift (λ self, Model.sum_at self Model.VIRTUAL All (Idx d)) ;;
     Model.addConstr (mkConstr Xv_d GreaterEqual (EConst (inject_Z lv)))))%M self
  = (Ok tt, add_constrs (all_constraints N_T N_D lp lv s sp S a) self).
Proof using HT HD.
  intros HS Ha Hrows Hself.
  erewrite bind_Ok; cycle 1.
  { apply (for_each_add_constrs (loading N_T N_D) _ _
             (tutor_constraints N_T N_D s sp S a)); [done | | done].
    intros t self' Ht Hself'. apply elem_of_range in Ht.
    destruct (loading_facts self' Hself') as (Hst & Hxp & Hxv).
    rewrite bind_lift.
    rewrite (sum_at_row_loading self' _ N_T N_D _ (or_introl eq_refl) Hst Hxp t Ht HD).
    rewrite bind_lift.
    rewrite (sum_at_row_loading self' _ N_T N_D _ (or_intror eq_refl) Hst Hxv t Ht HD).
    rewrite bind_lift, py_index_S_at by lia.
    rewrite !bind_addConstr.
    rewrite (for_each_add_constrs (loading N_T N_D) _ _ (cell_constraints N_T N_D a t));
      [| done | | done].
    - unfold tutor_constraints. by rewrite <- !add_constrs_app.
    - intros d self'' Hd Hself''. apply elem_of_range in Hd.
      by apply cell_body. }
  rewrite (for_each_add_constrs (loading N_T N_D) _ _ (day_constraints N_T N_D lp lv));
    [| done | | done].
  - unfold all_constraints. by rewrite add_constrs_app.
  - intros d self' Hd Hself'. apply elem_of_range in Hd.
    destruct (loading_facts self' Hself') as (Hst & Hxp & Hxv).
    rewrite bind_lift.
    rewrite (sum_at_column_loading self' _ N_T N_D _ (or_introl eq_refl) Hst Hxp d HT Hd).
    rewrite bind_addConstr, bind_lift.
    rewrite (sum_at_column_loading (add_constrs _ self') _ N_T N_D _
               (or_intror eq_refl) Hst Hxv d HT Hd).
    by rewrite addConstr_eq, <- add_constrs_app.
Qed.

Lemma set_constraints_Ok self :
  loading N_T N_D self →
  valid_constraint_input N_T N_D lp lv s sp S a →
  Model.__set_constraints lp lv s sp S a self
  = (Ok tt, add_constrs (all_constraints N_T N_D lp lv s sp S a) self).
Proof using HT HD.
  intros Hself Hvalid.
  destruct (constraints_checks_cases N_T N_D lp lv s sp S a HT HD)
    as [[_ Hc] | [Hn _]]; [| done].
  pose proof Hself as (_ & HNT & HND & _).
  destruct Hvalid as (_ & _ & _ & _ & HS & _ & Ha & Hrows & _).
  unfold Model.__set_constraints. rewrite bind_lift. cbv beta iota zeta.
  rewrite HNT, HND, bind_lift. unfold Model.__VALIDATE. rewrite Hc.
  by apply set_constraints_loop.
Qed.

Lemma set_constraints_Raise self :
  loading N_T N_D self →
  ¬ valid_constraint_input N_T N_D lp lv s sp S a →
  Model.__set_constraints lp lv s sp S a self = (Raise AssertionError, self).
Proof using HT HD.
  intros Hself Hinvalid.
  destruct (constraints_checks_cases N_T N_D lp lv s sp S a HT HD)
    as [[Hv _] | [_ Hc]]; [done |].
  pose proof Hself as (_ & HNT & HND & _).
  unfold Model.__set_constraints. rewrite bind_lift. cbv beta iota zeta.
  rewrite HNT, HND, bind_lift. unfold Model.__VALIDATE. by rewrite Hc.
Qed.
End set_constraints.

(** ** The objective built by the constructor *)

(** Evaluate the first computation of a sequence in the error monad. *)
Ltac bind_step v :=
  lazymatch goal with
  | |- (?c ≫= ?k) = _ =>
      let H := fresh "Hstep" in
      assert (c = Ok v) as H; [| rewrite (obind_Ok c k v H); clear H; cbv beta]
  end.

Section set_objective.
Context (N_T N_D lp lv s sp : Z) (S : list Z) (a : list (list Q)) (m : list Z)
        (fp fv : list Q) (w1 w2 w3 w4 : Q).
Hypothesis HT : 0 < N_T.
Hypothesis HD : 0 < N_D.

Lemma py_index_m_at (t : Z) :
  0 ≤ t < Z.of_nat (length m) → py_index m t = Ok (m_at m t).
Proof.
  intros Ht. destruct (py_index_in_range m t Ht) as (x & Hx & ->).
  unfold m_at. by rewrite (nth_lookup_Some _ _ _ _ Hx).
Qed.

Lemma objective_Ok self :
  loading N_T N_D self →
  valid_constraint_input N_T N_D lp lv s sp S a →
  valid_objective_input N_T N_D m fp fv w1 w2 w3 w4 →
  Model.objective self a m fp fv w1 w2 w3 w4
  = Ok (objective_expr N_T N_D a m fp fv w1 w2 w3 w4).
Proof using HT HD.
  intros Hself Hvc Hvo.
  destruct (objective_checks_cases N_T N_D m fp fv w1 w2 w3 w4)
    as [[_ Hc] | [Hn _]]; [| done].
  destruct (loading_facts N_T N_D self Hself) as (Hst & Hxp & Hxv).
  pose proof Hself as (_ & HNT & HND & Hxp' & Hxv').
  destruct Hvc as (_ & _ & _ & _ & _ & _ & Ha & Hrows & _).
  destruct Hvo as (Hm & _ & Hfp & _ & Hfv & _).
  unfold Model.objective. rewrite HNT, HND. unfold Model.__VALIDATE.
  rewrite Hc, obind_ret.
  bind_step (matrix_of N_T N_D (x_expr N_T N_D)).
  { apply comprehension_Ok. intros t Ht. apply elem_of_range in Ht.
    apply comprehension_Ok. intros d Hd. apply elem_of_range in Hd.
    rewrite (operand_at_loading self _ N_T N_D _ (or_introl eq_refl) Hst Hxp t d Ht Hd).
    rewrite obind_ret.
    by rewrite (operand_at_loading self _ N_T N_D _ (or_intror eq_refl) Hst Hxv t d Ht Hd). }
  bind_step (map (λ '(t, d), x_expr N_T N_D t d) (range2 N_T N_D)).
  { apply comprehension_Ok. intros [t d] Htd. apply elem_of_range2 in Htd as [Ht Hd].
    by apply index2_matrix_of. }
  fold (X_expr N_T N_D).
  bind_step (align_coefficient N_T).
  { by apply py_div_minus_one. }
  bind_step (map (λ d,
    EAdd (EPow (ESub (EMul (X_expr N_T N_D) (EConst (f_at fp d)))
                     (column_sum N_T (xp_var N_D) d)) 2)
         (EPow (ESub (EMul (X_expr N_T N_D) (EConst (f_at fv d)))
                     (column_sum N_T (xv_var N_T N_D) d)) 2)) (range N_D)).
  { apply comprehension_Ok. intros d Hd. apply elem_of_range in Hd.
    rewrite (py_index_f_at fp d), (py_index_f_at fv d) by lia. rewrite obind_ret.
    rewrite (sum_at_column_loading self _ N_T N_D _ (or_introl eq_refl) Hst Hxp d HT Hd).
    rewrite !obind_ret.
    by rewrite (sum_at_column_loading self _ N_T N_D _ (or_intror eq_refl) Hst Hxv d HT Hd). }
  bind_step (map (λ '(t, d), EMul (EConst (a_at a t d)) (x_expr N_T N_D t d))
                 (range2 N_T N_D)).
  { apply comprehension_Ok. intros [t d] Htd. apply elem_of_range2 in Htd as [Ht Hd].
    rewrite (index2_a_at N_T N_D a t d Ha Hrows Ht Hd), obind_ret.
    by rewrite index2_matrix_of. }
  bind_step (map (λ '(t, d),
    EMul (ESub (EVar (xp_var N_D t d)) (EVar (xv_var N_T N_D t d)))
         (EConst (inject_Z (m_at m t)))) (range2 N_T N_D)).
  { apply comprehension_Ok. intros [t d] Htd. apply elem_of_range2 in Htd as [Ht Hd].
    rewrite Hxp', Hxv', !index2_matrix_of by done. rewrite !obind_ret.
    by rewrite py_index_m_at by lia. }
  reflexivity.
Qed.

Lemma objective_Raise self :
  loading N_T N_D self →
  ¬ valid_objective_input N_T N_D m fp fv w1 w2 w3 w4 →
  Model.objective self a m fp fv w1 w2 w3 w4 = Raise AssertionError.
Proof.
  intros Hself Hinvalid.
  destruct (objective_checks_cases N_T N_D m fp fv w1 w2 w3 w4)
    as [[Hv _] | [_ Hc]]; [done |].
  pose proof Hself as (_ & HNT & HND & _).
  unfold Model.objective. rewrite HNT, HND. unfold Model.__VALIDATE.
  by rewrite Hc.
Qed.
End set_objective.

(** ** The four ways [Model.__init__] can end *)

Section init.
Context (optimize : GModel → Z * (Var → Q)).
Context (N_T N_D lp lv : Z) (S : list Z) (s sp : Z) (a : list (list Q))
        (m : list Z) (fp fv : list Q) (w1 w2 w3 w4 : Q).

Lemma loading_with_variables : loading N_T N_D (with_variables N_T N_D).
Proof. by repeat split. Qed.

Lemma init_invalid_counts :
  ¬ valid_counts N_T N_D →
  Model.__init__ optimize N_T N_D lp lv S s sp a m fp fv w1 w2 w3 w4
  = (Raise AssertionError, fresh N_T N_D).
Proof.
  intros H. unfold Model.__init__. fold (fresh N_T N_D).
  by rewrite (bind_Raise _ _ _ _ _ (set_decision_variables_Raise N_T N_D H)).
Qed.

Lemma init_invalid_constraints :
  valid_counts N_T N_D →
  ¬ valid_constraint_input N_T N_D lp lv s sp S a →
  Model.__init__ optimize N_T N_D lp lv S s sp a m fp fv w1 w2 w3 w4
  = (Raise AssertionError, with_variables N_T N_D).
Proof.
  intros [HT HD] H. unfold Model.__init__. fold (fresh N_T N_D).
  rewrite (bind_Ok _ _ _ _ _ (set_decision_variables_Ok N_T N_D HT HD)).
  by rewrite (bind_Raise _ _ _ _ _
    (set_constraints_Raise N_T N_D lp lv s sp S a HT HD _ loading_with_variables H)).
Qed.

Lemma set_objective_function_Raise self :
  loading N_T N_D self →
  ¬ valid_objective_input N_T N_D m fp fv w1 w2 w3 w4 →
  Model.__set_objective_function a m fp fv w1 w2 w3 w4 self
  = (Raise AssertionError, self).
Proof.
  intros Hself H. unfold Model.__set_objective_function.
  by rewrite bind_lift, (objective_Raise N_T N_D a m fp fv w1 w2 w3 w4 self Hself H).
Qed.

Lemma set_objective_function_Ok self :
  valid_counts N_T N_D →
  loading N_T N_D self →
  valid_constraint_input N_T N_D lp lv s sp S a →
  valid_objective_input N_T N_D m fp fv w1 w2 w3 w4 →
  Model.__set_objective_function a m fp fv w1 w2 w3 w4 self
  = Model.setObjective (objective_expr N_T N_D a m fp fv w1 w2 w3 w4) GRB_MAXIMIZE self.
Proof.
  intros [HT HD] Hself Hc Ho. unfold Model.__set_objective_function.
  by rewrite bind_lift,
    (objective_Ok N_T N_D lp lv s sp S a m fp fv w1 w2 w3 w4 HT HD self Hself Hc Ho).
Qed.

Lemma init_invalid_objective :
  valid_counts N_T N_D →
  valid_constraint_input N_T N_D lp lv s sp S a →
  ¬ valid_objective_input N_T N_D m fp fv w1 w2 w3 w4 →
  Model.__init__ optimize N_T N_D lp lv S s sp a m fp fv w1 w2 w3 w4
  = (Raise AssertionError, constrained N_T N_D lp lv S s sp a).
Proof.
  intros [HT HD] Hc H. unfold Model.__init__. fold (fresh N_T N_D).
  rewrite (bind_Ok _ _ _ _ _ (set_decision_variables_Ok N_T N_D HT HD)).
  rewrite (bind_Ok _ _ _ _ _
    (set_constraints_Ok N_T N_D lp lv s sp S a HT HD _ loading_with_variables Hc)).
  fold (constrained N_T N_D lp lv S s sp a).
  by rewrite (bind_Raise _ _ _ _ _
    (set_objective_function_Raise _ (loading_with_variables : loading _ _ (constrained _ _ _ _ _ _ _ _)) H)).
Qed.

Lemma init_valid :
  valid_input N_T N_D lp lv S s sp a m fp fv w1 w2 w3 w4 →
  Model.__init__ optimize N_T N_D lp lv S s sp a m fp fv w1 w2 w3 w4
  = (Ok tt, solved optimize N_T N_D lp lv S s sp a m fp fv w1 w2 w3 w4).
Proof.
  intros (Hn & Hc & Ho). pose proof Hn as [HT HD].
  unfold Model.__init__. fold (fresh N_T N_D).
  rewrite (bind_Ok _ _ _ _ _ (set_decision_variables_Ok N_T N_D HT HD)).
  rewrite (bind_Ok _ _ _ _ _
    (set_constraints_Ok N_T N_D lp lv s sp S a HT HD _ loading_with_variables Hc)).
  fold (constrained N_T N_D lp lv S s sp a).
  unfold Model.bind at 1.
  rewrite (set_objective_function_Ok _ Hn
    (loading_with_variables : loading _ _ (constrained _ _ _ _ _ _ _ _)) Hc Ho).
  unfold Model.setObjective, Model.__solve, Model.bind, Model.setParam,
    Model.model_optimize, Model.lift, Model.set_status, solved. simpl.
  fold (program N_T N_D lp lv S s sp a m fp fv w1 w2 w3 w4).
  destruct (optimize (program N_T N_D lp lv S s sp a m fp fv w1 w2 w3 w4)) as [st X].
  reflexivity.
Qed.

(** Validity is decided by the assertions, so one of the four cases
    applies. *)
Lemma valid_counts_dec : valid_counts N_T N_D ∨ ¬ valid_counts N_T N_D.
Proof. unfold valid_counts. lia. Qed.

Lemma init_cases :
  let r := Model.__init__ optimize N_T N_D lp lv S s sp a m fp fv w1 w2 w3 w4 in
  (valid_input N_T N_D lp lv S s sp a m fp fv w1 w2 w3 w4
   ∧ r = (Ok tt, solved optimize N_T N_D lp lv S s sp a m fp fv w1 w2 w3 w4))
  ∨ (¬ valid_counts N_T N_D ∧ r = (Raise AssertionError, fresh N_T N_D))
  ∨ (valid_counts N_T N_D ∧ ¬ valid_constraint_input N_T N_D lp lv s sp S a
     ∧ r = (Raise AssertionError, with_variables N_T N_D))
  ∨ (valid_counts N_T N_D ∧ valid_constraint_input N_T N_D lp lv s sp S a
     ∧ ¬ valid_objective_input N_T N_D m fp fv w1 w2 w3 w4
     ∧ r = (Raise AssertionError, constrained N_T N_D lp lv S s sp a)).
Proof.
  intros r. subst r. destruct valid_counts_dec as [Hn | Hn].
  2:{ right. left. split; [done |]. by apply init_invalid_counts. }
  pose proof Hn as [HT HD].
  destruct (constraints_checks_cases N_T N_D lp lv s sp S a HT HD)
    as [[Hc _] | [Hc _]].
  2:{ right. right. left. split; [done |]. split; [done |].
      by apply init_invalid_constraints. }
  destruct (objective_checks_cases N_T N_D m fp fv w1 w2 w3 w4)
    as [[Ho _] | [Ho _]].
  2:{ right. right. right. split; [done |]. split; [done |]. split; [done |].
      by apply init_invalid_objective. }
  left. split; [done |]. by apply init_valid.
Qed.

(** The constructor succeeds exactly on valid arguments. *)
Lemma init_Ok_inv self :
  Model.__init__ optimize N_T N_D lp lv S s sp a m fp fv w1 w2 w3 w4 = (Ok tt, self) →
  valid_input N_T N_D lp lv S s sp a m fp fv w1 w2 w3 w4
  ∧ self = solved optimize N_T N_D lp lv S s sp a m fp fv w1 w2 w3 w4.
Proof.
  intros H. destruct init_cases as [[Hv Hr] | [[_ Hr] | [(_ & _ & Hr) | (_ & _ & _ & Hr)]]];
    rewrite Hr in H; [| done..]. split; [done | congruence].
Qed.
End init.

(** ** The deep map over nested lists *)

Lemma leafwise_unwrap_then_map {A B} (f : A → B) (x : nested A) :
  leafwise f x (Model.__unwrap_then_map x f).
Proof.
  induction x as [a | l IH] using nested_rect'; simpl.
  - constructor.
  - constructor. induction IH as [| y l Hy _ IHl]; simpl; constructor; auto.
Qed.

Lemma leafwise_functional {A B} (f : A → B) (x : nested A) :
  ∀ y, leafwise f x y → y = Model.__unwrap_then_map x f.
Proof.
  induction x as [a | l IH] using nested_rect'; intros y Hy; inversion Hy; subst; simpl.
  - reflexivity.
  - f_equal. rename select (Forall2 _ _ _) into HF. clear Hy.
    induction HF as [| u v l l' Huv HF IHl] in IH |- *; simpl; [reflexivity |].
    inversion IH; subst. f_equal; auto.
Qed.

Lemma unwrap_then_map_id {A} (x : nested A) :
  Model.__unwrap_then_map x (λ v, v) = x.
Proof.
  induction x as [a | l IH] using nested_rect'; simpl; [reflexivity |].
  f_equal. induction IH as [| y l Hy _ IHl]; simpl; [reflexivity |].
  by rewrite Hy, IHl.
Qed.

Lemma at_path_unwrap_then_map {A B} (f : A → B) (p : list nat) :
  ∀ x : nested A,
    at_path (Model.__unwrap_then_map x f) p
    = option_map (λ y, Model.__unwrap_then_map y f) (at_path x p).
Proof.
  induction p as [| i p IH]; intros x; simpl; [reflexivity |].
  destruct x as [a | l]; simpl; [reflexivity |].
  rewrite list_lookup_fmap. destruct (l !! i) as [y |]; simpl; auto.
Qed.

(** C9. [Model.__unwrap_then_map(x, f)] has the nesting structure of [x] with
    every non-list leaf [v] replaced by [f(v)]: it is the one value related
    to [x] leaf by leaf, at every path it holds the image of what [x] holds
    there, and with the identity function it returns a structurally equal
    copy. *)
Theorem unwrap_then_map_spec {A B} (f : A → B) (x : nested A) :
  leafwise f x (Model.__unwrap_then_map x f)
  ∧ (∀ y, leafwise f x y → y = Model.__unwrap_then_map x f)
  ∧ (∀ p, at_path (Model.__unwrap_then_map x f) p
          = option_map (λ y, Model.__unwrap_then_map y f) (at_path x p))
  ∧ Model.__unwrap_then_map x (λ v, v) = x.
Proof.
  split; [apply leafwise_unwrap_then_map |].
  split; [apply leafwise_functional |].
  split; [intros p; apply at_path_unwrap_then_map |].
  apply unwrap_then_map_id.
Qed.

(** ** What the constraints and the objective mean *)

Lemma eval_sum_Expr_acc (val : Var → Q) (es : list Expr) (acc : Expr) :
  (eval val (fold_left EAdd es acc) == eval val acc + total (map (eval val) es))%Q.
Proof.
  revert acc. induction es as [| e es IH]; intros acc; simpl.
  - ring.
  - rewrite IH. simpl. ring.
Qed.

Lemma eval_sum_Expr (val : Var → Q) (es : list Expr) :
  (eval val (sum_Expr es) == total (map (eval val) es))%Q.
Proof. unfold sum_Expr. rewrite eval_sum_Expr_acc. simpl. ring. Qed.

Lemma eval_row_sum (val : Var → Q) (N_D : Z) (f : Z → Z → Var) (t : Z) :
  (eval val (row_sum N_D f t) == big_sum N_D (λ d, val (f t d)))%Q.
Proof. unfold row_sum. rewrite eval_sum_Expr, map_map. reflexivity. Qed.

Lemma eval_column_sum (val : Var → Q) (N_T : Z) (f : Z → Z → Var) (d : Z) :
  (eval val (column_sum N_T f d) == big_sum N_T (λ t, val (f t d)))%Q.
Proof. unfold column_sum. rewrite eval_sum_Expr, map_map. reflexivity. Qed.


Lemma total_ext {A} (f g : A → Q) (l : list A) :
  (∀ x, x ∈ l → (f x == g x)%Q) → (total (map f l) == total (map g l))%Q.
Proof.
  induction l as [| x l IH]; intros H; simpl; [reflexivity |].
  rewrite (H x) by left. rewrite IH; [reflexivity |]. intros y Hy. apply H. by right.
Qed.

Lemma big_sum_ext (n : Z) (f g : Z → Q) :
  (∀ i, 0 ≤ i < n → (f i == g i)%Q) → (big_sum n f == big_sum n g)%Q.
Proof.
  intros H. apply total_ext. intros i Hi. apply H. by apply elem_of_range.
Qed.

Lemma big_sum_plus (n : Z) (f g : Z → Q) :
  (big_sum n (λ i, f i + g i) == big_sum n f + big_sum n g)%Q.
Proof.
  unfold big_sum. induction (range n) as [| i l IH]; simpl; [ring |].
  rewrite IH. ring.
Qed.


Section constraints_meaning.
Context (N_T N_D lp lv : Z) (S : list Z) (s sp : Z) (a : list (list Q)).
Context (val : Var → Q).
Local Abbreviation xp := (λ t d, val (xp_var N_D t d)).
Local Abbreviation xv := (λ t d, val (xv_var N_T N_D t d)).

Lemma sat_cell_constraints (t d : Z) :
  Forall (sat val) (cell_constraints N_T N_D a t d)
  ↔ ((a_at a t d == Model.UNAVAILABLE → xp t d == 0 ∧ xv t d == 0)
     ∧ (¬ a_at a t d == Model.UNAVAILABLE → xp t d + xv t d <= 1))%Q.
Proof.
  unfold cell_constraints.
  destruct (Qeq_bool (a_at a t d) Model.UNAVAILABLE) eqn:E.
  - apply Qeq_bool_iff in E. rewrite !Forall_cons, Forall_nil. unfold sat. simpl.
    cbv beta. tauto.
  - apply Qeq_bool_neq in E. rewrite Forall_cons, Forall_nil. unfold sat. simpl.
    cbv beta. tauto.
Qed.

Lemma sat_tutor_constraints (t : Z) :
  Forall (sat val) (tutor_constraints N_T N_D s sp S a t)
  ↔ (big_sum N_D (λ d, xp t d + xv t d) <= inject_Z (S_at S t)
     ∧ inject_Z s <= big_sum N_D (λ d, xp t d + xv t d)
     ∧ inject_Z sp <= big_sum N_D (λ d, xp t d)
     ∧ ∀ d, (0 ≤ d < N_D)%Z →
         (a_at a t d == Model.UNAVAILABLE → xp t d == 0 ∧ xv t d == 0)
         ∧ (¬ a_at a t d == Model.UNAVAILABLE → xp t d + xv t d <= 1))%Q.
Proof.
  unfold tutor_constraints. rewrite Forall_app, !Forall_cons, Forall_nil.
  rewrite Forall_flat_map, Forall_forall. unfold sat. simpl.
  rewrite !eval_row_sum, big_sum_plus. cbv beta.
  setoid_rewrite sat_cell_constraints. setoid_rewrite elem_of_range.
  tauto.
Qed.

Lemma sat_day_constraints (d : Z) :
  Forall (sat val) (day_constraints N_T N_D lp lv d)
  ↔ (inject_Z lp <= big_sum N_T (λ t, xp t d)
     ∧ inject_Z lv <= big_sum N_T (λ t, xv t d))%Q.
Proof.
  unfold day_constraints. rewrite !Forall_cons, Forall_nil. unfold sat. simpl.
  rewrite !eval_column_sum. cbv beta. tauto.
Qed.

Lemma sat_all_constraints :
  Forall (sat val) (all_constraints N_T N_D lp lv s sp S a)
  ↔ hard_constraints N_T N_D lp lv S s sp a xp xv.
Proof.
  unfold all_constraints. rewrite Forall_app, !Forall_flat_map, !Forall_forall.
  setoid_rewrite sat_tutor_constraints. setoid_rewrite sat_day_constraints.
  setoid_rewrite elem_of_range.
  unfold hard_constraints, shift_ceiling, minimum_shifts, minimum_in_person,
    unavailable_excluded, single_mode, daily_coverage.
  split.
  - intros [Ht Hd]. repeat split; intros; try (by apply Ht); try (by apply Hd).
  - intros (H1 & H2 & H3 & H4 & H5 & H6). split.
    + intros t Ht. repeat split; auto; intros; by apply (H4 t d).
    + intros d Hd. by apply H6.
Qed.
End constraints_meaning.

Section objective_meaning.
Context (N_T N_D : Z) (a : list (list Q)) (m : list Z) (fp fv : list Q)
        (w1 w2 w3 w4 : Q).
Context (val : Var → Q).
Local Abbreviation xp := (λ t d, val (xp_var N_D t d)).
Local Abbreviation xv := (λ t d, val (xv_var N_T N_D t d)).





End objective_meaning.

(** ** Properties of the formulation engine *)

Lemma checks_valid_input (N_T N_D lp lv : Z) (S : list Z) (s sp : Z)
    (a : list (list Q)) (m : list Z) (fp fv : list Q) (w1 w2 w3 w4 : Q) :
  Model.variables_checks N_T N_D = Ok tt →
  Model.constraints_checks N_T N_D lp lv s sp S a = Ok tt →
  Model.objective_checks N_T N_D m fp fv w1 w2 w3 w4 = Ok tt →
  valid_input N_T N_D lp lv S s sp a m fp fv w1 w2 w3 w4.
Proof.
  intros Hn Hc Ho.
  assert (valid_counts N_T N_D) as [HT HD].
  { unfold Model.variables_checks in Hn.
    destruct (Z.ltb_spec 0 N_T); [| done]. destruct (Z.ltb_spec 0 N_D); done. }
  split; [done |]. split.
  - destruct (constraints_checks_cases N_T N_D lp lv s sp S a HT HD)
      as [[? _] | [_ H]]; [done | congruence].
  - destruct (objective_checks_cases N_T N_D m fp fv w1 w2 w3 w4)
      as [[? _] | [_ H]]; [done | congruence].
Qed.

(** The handles of distinct cells are distinct variables of the solver
    model, so a valuation may choose each [xp[t][d]] and [xv[t][d]]
    independently. *)
Lemma handles_distinct (N_T N_D t d t' d' : Z) :
  0 ≤ t < N_T → 0 ≤ d < N_D → 0 ≤ t' < N_T → 0 ≤ d' < N_D →
  (xp_var N_D t d = xp_var N_D t' d' → t = t' ∧ d = d')
  ∧ (xv_var N_T N_D t d = xv_var N_T N_D t' d' → t = t' ∧ d = d')
  ∧ xp_var N_D t d ≠ xv_var N_T N_D t' d'.
Proof.
  intros Ht Hd Ht' Hd'. unfold xp_var, xv_var.
  assert (t * N_D + d = t' * N_D + d' → t = t' ∧ d = d') as Hdiv.
  { intros H. assert (t = t') by nia. split; [done | nia]. }
  split; [| split].
  - intros [= H _]. apply Hdiv. apply Z2Nat.inj in H; nia.
  - intros [= H _]. apply Hdiv. apply Z2Nat.inj in H; nia.
  - intros [= H _]; apply Z2Nat.inj in H; nia.
Qed.

(** C1. For every valid construction input the constructor succeeds and the
    constraints it has added to the solver model hold under a valuation
    exactly when the stated hard constraints hold: per tutor the shift
    ceiling, the minimum of shifts and the minimum of in-person shifts; per
    tutor and day both variables zero where the tutor is unavailable and at
    most one mode otherwise; per day the two coverage floors. *)
Theorem hard_constraints_imposed (optimize : GModel → Z * (Var → Q))
    (N_T N_D lp lv : Z) (S : list Z) (s sp : Z) (a : list (list Q)) (m : list Z)
    (fp fv : list Q) (w1 w2 w3 w4 : Q) :
  valid_input N_T N_D lp lv S s sp a m fp fv w1 w2 w3 w4 →
  ∃ self,
    Model.__init__ optimize N_T N_D lp lv S s sp a m fp fv w1 w2 w3 w4 = (Ok tt, self)
    ∧ Model.__xp self = matrix_of N_T N_D (xp_var N_D)
    ∧ Model.__xv self = matrix_of N_T N_D (xv_var N_T N_D)
    ∧ ∀ val : Var → Q,
        Forall (sat val) (gconstrs (Model.model self))
        ↔ hard_constraints N_T N_D lp lv S s sp a
            (λ t d, val (xp_var N_D t d)) (λ t d, val (xv_var N_T N_D t d)).
Proof.
  intros Hvalid. eexists. split; [by apply init_valid |].
  split; [done |]. split; [done |]. intros val. apply sat_all_constraints.
Qed.

Lemma hard_constraints_imposed_witness :
  valid_input 3 2 0 0 small_test.S 0 0 small_test.a small_test.m
              small_test.fp small_test.fv 1 1 1 100
  ∧ ∃ self,
      Model.__init__ small_test.optimize 3 2 0 0 small_test.S 0 0 small_test.a
        small_test.m small_test.fp small_test.fv 1 1 1 100 = (Ok tt, self)
      ∧ Model.__xp self = matrix_of 3 2 (xp_var 2)
      ∧ Model.__xv self = matrix_of 3 2 (xv_var 3 2)
      ∧ ∀ val : Var → Q,
          Forall (sat val) (gconstrs (Model.model self))
          ↔ hard_constraints 3 2 0 0 small_test.S 0 0 small_test.a
              (λ t d, val (xp_var 2 t d)) (λ t d, val (xv_var 3 2 t d)).
Proof.
  assert (valid_input 3 2 0 0 small_test.S 0 0 small_test.a small_test.m
            small_test.fp small_test.fv 1 1 1 100) as Hvalid.
  { apply checks_valid_input; vm_compute; reflexivity. }
  split; [exact Hvalid |].
  exact (hard_constraints_imposed small_test.optimize 3 2 0 0 small_test.S 0 0
           small_test.a small_test.m small_test.fp small_test.fv 1 1 1 100 Hvalid).
Defined.







(** ** The identifier tables of the facade *)

Lemma position_bounds (x : string) (l : list string) :
  x ∈ l → 0 ≤ position x l < Z.of_nat (length l).
Proof.
  induction l as [| y l IH]; intros Hx; [by apply elem_of_nil in Hx |].
  simpl position. simpl length. destruct (String.eqb_spec y x) as [-> | Hne]; [lia |].
  apply elem_of_cons in Hx as [-> | Hx]; [done |]. specialize (IH Hx). lia.
Qed.

Lemma position_nonneg (x : string) (l : list string) : 0 ≤ position x l.
Proof.
  induction l as [| y l IH]; simpl; [lia |]. destruct (String.eqb y x); lia.
Qed.

Lemma position_lookup (x : string) (l : list string) :
  x ∈ l → l !! Z.to_nat (position x l) = Some x.
Proof.
  induction l as [| y l IH]; intros Hx; [by apply elem_of_nil in Hx |].
  simpl position. destruct (String.eqb_spec y x) as [-> | Hne]; [done |].
  apply elem_of_cons in Hx as [-> | Hx]; [done |].
  pose proof (position_nonneg x l).
  replace (Z.to_nat (position x l + 1)) with (S (Z.to_nat (position x l))) by lia.
  simpl. auto.
Qed.

(** In a list without repetition the position of the [i]-th element is [i]. *)
Lemma position_of_lookup (l : list string) (i : nat) (x : string) :
  NoDup l → l !! i = Some x → position x l = Z.of_nat i.
Proof.
  intros Hnd. revert i. induction Hnd as [| y l Hy Hnd IH]; intros i Hi; [done |].
  simpl. destruct i as [| i]; simpl in Hi.
  - injection Hi as ->. by rewrite String.eqb_refl.
  - destruct (String.eqb_spec y x) as [-> | Hne].
    + exfalso. apply Hy. by eapply list_elem_of_lookup_2.
    + rewrite (IH i Hi). lia.
Qed.

Lemma list_index_position (x : string) (l : list string) :
  x ∈ l → list_index x l = Ok (position x l).
Proof.
  induction l as [| y l IH]; intros Hx; [by apply elem_of_nil in Hx |].
  simpl. destruct (String.eqb_spec y x) as [-> | Hne]; [done |].
  apply elem_of_cons in Hx as [-> | Hx]; [done |]. by rewrite (IH Hx).
Qed.

Lemma index_pairs_Ok (l : list string) :
  comprehension (λ x, i ← list_index x l; Ok (x, i)) l
  = Ok (map (λ x, (x, position x l)) l).
Proof.
  apply comprehension_Ok. intros x Hx. by rewrite (list_index_position x l Hx).
Qed.

Lemma dict_of_lookup_acc {V} (g : string → V) (l : list string) (d : gmap string V)
    (k : string) :
  fold_left (λ d kv, <[kv.1 := kv.2]> d) (map (λ x, (x, g x)) l) d !! k
  = if decide (k ∈ l) then Some (g k) else d !! k.
Proof.
  revert d. induction l as [| x l IH]; intros d; simpl.
  - destruct (decide (k ∈ [])) as [H | _]; [by apply elem_of_nil in H | done].
  - rewrite IH. destruct (decide (k ∈ l)) as [Hl | Hl].
    + rewrite decide_True; [done | by right].
    + destruct (decide (k = x)) as [-> | Hne].
      * rewrite lookup_insert_eq, decide_True; [done | by left].
      * rewrite lookup_insert_ne by done. rewrite decide_False; [done |].
        intros [? | ?]%elem_of_cons; done.
Qed.

Lemma index_table_lookup (l : list string) (k : string) :
  index_table l !! k = if decide (k ∈ l) then Some (position k l) else None.
Proof. unfold index_table, dict_of. by rewrite dict_of_lookup_acc, lookup_empty. Qed.

Lemma index_table_dom (l : list string) : dom (index_table l) = list_to_set l.
Proof.
  apply set_eq. intros k. rewrite elem_of_dom, index_table_lookup, elem_of_list_to_set.
  destruct (decide (k ∈ l)); split; try done; try (by intros [? ?]).
Qed.

Lemma size_list_to_set_le (l : list string) :
  (size (list_to_set l : gset string) ≤ length l)%nat
  ∧ (size (list_to_set l : gset string) = length l → NoDup l).
Proof.
  induction l as [| x l [IHle IHnd]].
  - rewrite list_to_set_nil, size_empty. split; [done | intros _; constructor].
  - rewrite list_to_set_cons. simpl length. destruct (decide (x ∈ l)) as [Hx | Hx].
    + assert ({[x]} ∪ list_to_set l = (list_to_set l : gset string)) as ->.
      { apply set_eq. intros k. rewrite elem_of_union, elem_of_singleton,
          elem_of_list_to_set. split; [intros [-> | ?]; done | by right]. }
      split; [lia | intros H; lia].
    + rewrite size_union, size_singleton.
      2:{ apply disjoint_singleton_l. by rewrite elem_of_list_to_set. }
      split; [lia |]. intros H. constructor; [done |]. apply IHnd. lia.
Qed.

(** [len(index.keys()) == len(l)] holds exactly when [l] has no repetition. *)
Lemma index_table_size (l : list string) :
  (Z.of_nat (size (index_table l)) =? Z.of_nat (length l)) = true ↔ NoDup l.
Proof.
  rewrite Z.eqb_eq, <- size_dom, index_table_dom. split.
  - intros H. apply size_list_to_set_le. lia.
  - intros H. by rewrite size_list_to_set.
Qed.

(** ** The constructor of the facade *)

Ltac raise_done := simpl py_assert; rewrite ?obind_raise; done.

Section schedule_init.
Context (optimize : GModel → Z * (Var → Q)).
Context (tutors days : list string)
        (min_tutors_ip min_tutors_v min_tutor_shifts min_tutor_ip_shifts : Z)
        (max_shifts_by_tutor mode_preference : gmap string Z)
        (availability : gmap string (gmap string Q))
        (target_ip_fractions target_v_fractions : gmap string Q)
        (w1 w2 w3 w4 : Q).

Local Abbreviation N_T := (Z.of_nat (length tutors)).
Local Abbreviation N_D := (Z.of_nat (length days)).
Local Abbreviation init :=
  (Schedule.__init__ optimize tutors days min_tutors_ip min_tutors_v
     min_tutor_shifts min_tutor_ip_shifts max_shifts_by_tutor mode_preference
     availability target_ip_fractions target_v_fractions w1 w2 w3 w4).

Local Abbreviation projected :=
  (projected tutors days max_shifts_by_tutor mode_preference availability
     target_ip_fractions target_v_fractions).

Lemma schedule_init_Ok (S m : list Z) (a : list (list Q)) (fp fv : list Q) :
  NoDup tutors → NoDup days → projected S m a fp fv →
  valid_input N_T N_D min_tutors_ip min_tutors_v S min_tutor_shifts
              min_tutor_ip_shifts a m fp fv w1 w2 w3 w4 →
  init = Ok (Schedule.mk tutors (index_table tutors) days (index_table days)
               (solved optimize N_T N_D min_tutors_ip min_tutors_v S
                  min_tutor_shifts min_tutor_ip_shifts a m fp fv w1 w2 w3 w4)).
Proof.
  intros Ht Hd (HS & Hm & Ha & Hfp & Hfv) Hvalid. unfold Schedule.__init__.
  rewrite (index_pairs_Ok tutors), obind_ret. fold (index_table tutors).
  rewrite (proj2 (index_table_size tutors) Ht). simpl py_assert. rewrite obind_ret.
  rewrite (index_pairs_Ok days), obind_ret. fold (index_table days).
  rewrite (proj2 (index_table_size days) Hd). simpl py_assert. rewrite obind_ret.
  rewrite HS, obind_ret, Hm, obind_ret, Ha, obind_ret, Hfp, obind_ret, Hfv, obind_ret.
  by rewrite (init_valid optimize _ _ _ _ _ _ _ _ _ _ _ _ _ _ _ Hvalid).
Qed.

Lemma schedule_init_Ok_inv (sch : Schedule.t) :
  init = Ok sch →
  NoDup tutors ∧ NoDup days
  ∧ ∃ S m a fp fv,
      projected S m a fp fv
      ∧ valid_input N_T N_D min_tutors_ip min_tutors_v S min_tutor_shifts
                    min_tutor_ip_shifts a m fp fv w1 w2 w3 w4
      ∧ sch = Schedule.mk tutors (index_table tutors) days (index_table days)
                (solved optimize N_T N_D min_tutors_ip min_tutors_v S
                   min_tutor_shifts min_tutor_ip_shifts a m fp fv w1 w2 w3 w4).
Proof.
  unfold Schedule.__init__.
  rewrite (index_pairs_Ok tutors), obind_ret. fold (index_table tutors).
  destruct (Z.of_nat (size (index_table tutors)) =? N_T) eqn:Ht; [| raise_done].
  apply index_table_size in Ht. simpl py_assert. rewrite obind_ret.
  rewrite (index_pairs_Ok days), obind_ret. fold (index_table days).
  destruct (Z.of_nat (size (index_table days)) =? N_D) eqn:Hd; [| raise_done].
  apply index_table_size in Hd. simpl py_assert. rewrite obind_ret.
  intros H.
  apply obind_Ok_inv in H as (S & HS & H). apply obind_Ok_inv in H as (m & Hm & H).
  apply obind_Ok_inv in H as (a & Ha & H). apply obind_Ok_inv in H as (fp & Hfp & H).
  apply obind_Ok_inv in H as (fv & Hfv & H). revert H.
  destruct (Model.__init__ _ _ _ _ _ _ _ _ _ _ _ _ _ _ _ _) as [[[] | e] self] eqn:Hi;
    [| done].
  intros [= <-]. apply init_Ok_inv in Hi as [Hvalid ->].
  split; [done |]. split; [done |]. exists S, m, a, fp, fv. done.
Qed.

(** Whatever makes the engine's constructor raise makes the facade's
    constructor raise. *)
Lemma schedule_init_Raise (S m : list Z) (a : list (list Q)) (fp fv : list Q) :
  projected S m a fp fv →
  ¬ valid_input N_T N_D min_tutors_ip min_tutors_v S min_tutor_shifts
                min_tutor_ip_shifts a m fp fv w1 w2 w3 w4 →
  ∃ e, init = Raise e.
Proof.
  intros Hproj Hinvalid. destruct init as [sch | e] eqn:Hinit; [| by exists e].
  apply schedule_init_Ok_inv in Hinit
    as (_ & _ & S' & m' & a' & fp' & fv' & Hproj' & Hvalid & _).
  destruct Hproj as (HS & Hm & Ha & Hfp & Hfv).
  destruct Hproj' as (HS' & Hm' & Ha' & Hfp' & Hfv').
  congruence.
Qed.
End schedule_init.

(** ** The queries of the facade *)

Lemma constructed_well_formed (optimize : GModel → Z * (Var → Q))
    (tutors days : list string) (lp lv s sp : Z)
    (max_shifts_by_tutor mode_preference : gmap string Z)
    (availability : gmap string (gmap string Q))
    (target_ip_fractions target_v_fractions : gmap string Q)
    (w1 w2 w3 w4 : Q) (sch : Schedule.t) :
  Schedule.__init__ optimize tutors days lp lv s sp max_shifts_by_tutor
    mode_preference availability target_ip_fractions target_v_fractions
    w1 w2 w3 w4 = Ok sch →
  well_formed sch ∧ Schedule.tutors sch = tutors ∧ Schedule.days sch = days.
Proof.
  intros H. apply schedule_init_Ok_inv in H
    as (Ht & Hd & S & m & a & fp & fv & _ & ((HT & HD) & _) & ->).
  split; [| done]. unfold well_formed. simpl. repeat split; try done.
  destruct (_ =? GRB_OPTIMAL); auto.
Qed.

Lemma validate_mode_cases (mode : Z) :
  (accepted_mode mode ∧ Schedule.__validate_mode mode = Ok tt)
  ∨ (¬ accepted_mode mode ∧ ∃ msg, Schedule.__validate_mode mode = Raise (Exception msg)).
Proof.
  unfold Schedule.__validate_mode, accepted_mode.
  destruct (Z.eqb_spec mode Schedule.IN_PERSON); [left; auto |].
  destruct (Z.eqb_spec mode Schedule.VIRTUAL); [left; auto |].
  destruct (Z.eqb_spec mode Schedule.EITHER); [left; auto |].
  right. split; [tauto | eauto].
Qed.

Lemma validate_tutor_cases (sch : Schedule.t) (tutor : string) :
  (tutor ∈ Schedule.tutors sch ∧ Schedule.__validate_tutor sch tutor = Ok tt)
  ∨ ((tutor ∉ Schedule.tutors sch)
     ∧ ∃ msg, Schedule.__validate_tutor sch tutor = Raise (Exception msg)).
Proof.
  unfold Schedule.__validate_tutor. case_bool_decide; [left | right]; eauto.
Qed.

Lemma validate_day_cases (sch : Schedule.t) (day : string) :
  (day ∈ Schedule.days sch ∧ Schedule.__validate_day sch day = Ok tt)
  ∨ ((day ∉ Schedule.days sch)
     ∧ ∃ msg, Schedule.__validate_day sch day = Raise (Exception msg)).
Proof.
  unfold Schedule.__validate_day. case_bool_decide; [left | right]; eauto.
Qed.

Lemma validate_schedule_cases (sch : Schedule.t) :
  (Model.status (Schedule.__model sch) = Model.OPTIMAL
   ∧ Schedule.__validate_schedule sch = Ok tt)
  ∨ (Model.status (Schedule.__model sch) ≠ Model.OPTIMAL
     ∧ ∃ msg, Schedule.__validate_schedule sch = Raise (Exception msg)).
Proof.
  unfold Schedule.__validate_schedule, Schedule.schedule_found.
  destruct (Z.eqb_spec (Model.status (Schedule.__model sch)) Model.OPTIMAL);
    [left | right]; eauto.
Qed.

Lemma comprehension_if_ext {A B} (c c' : A → outcome bool) (f : A → outcome B)
    (l : list A) :
  (∀ x, x ∈ l → c x = c' x) → comprehension_if c f l = comprehension_if c' f l.
Proof.
  induction l as [| x l IH]; intros H; simpl; [done |].
  rewrite (H x) by left. rewrite IH; [done |]. intros y Hy. apply H. by right.
Qed.

Lemma comprehension_if_suffix (l : list string) (b : Z → bool) :
  NoDup l →
  ∀ l2 l1, l = l1 ++ l2 →
    comprehension_if (λ d, Ok (b d)) (λ d, py_index l d)
                     (map Z.of_nat (seq (length l1) (length l2)))
    = Ok (List.filter (λ x, b (position x l)) l2).
Proof.
  intros Hnd. induction l2 as [| x l2 IH]; intros l1 Hl; [done |].
  assert (l !! length l1 = Some x) as Hx.
  { rewrite Hl. by rewrite list_lookup_middle. }
  simpl length. simpl seq. simpl map. simpl comprehension_if. simpl List.filter.
  rewrite (position_of_lookup l _ x Hnd Hx).
  rewrite (py_index_nat l _ x Hx).
  specialize (IH (l1 ++ [x])). rewrite length_app, Nat.add_1_r in IH.
  rewrite IH by (by rewrite <- app_assoc).
  by destruct (b (Z.of_nat (length l1))).
Qed.

(** Filtering the positions of a duplicate-free list by a condition and
    reading the elements back is filtering the list itself. *)
Lemma comprehension_if_positions (l : list string) (c : Z → outcome bool)
    (b : Z → bool) :
  NoDup l →
  (∀ d, 0 ≤ d < Z.of_nat (length l) → c d = Ok (b d)) →
  comprehension_if c (λ d, py_index l d) (range (Z.of_nat (length l)))
  = Ok (List.filter (λ x, b (position x l)) l).
Proof.
  intros Hnd Hc.
  rewrite (comprehension_if_ext c (λ d, Ok (b d))).
  - rewrite range_of_nat. by apply (comprehension_if_suffix l b Hnd l []).
  - intros d Hd. apply elem_of_range in Hd. by apply Hc.
Qed.

Section queries.
Context (sch : Schedule.t).
Hypothesis Hwf : well_formed sch.
Hypothesis Hoptimal : Model.status (Schedule.__model sch) = Model.OPTIMAL.

Local Abbreviation N_T := (Z.of_nat (length (Schedule.tutors sch))).
Local Abbreviation N_D := (Z.of_nat (length (Schedule.days sch))).

Lemma assigned_in_person (t d : Z) :
  0 ≤ t < N_T → 0 ≤ d < N_D →
  Schedule.assigned sch Model.IN_PERSON t d
  = Ok (solved_value (Schedule.__model sch) (xp_var N_D t d) =? 1).
Proof using Hwf Hoptimal.
  intros Ht Hd. destruct Hwf as (_ & _ & _ & _ & _ & _ & _ & Hxp & _).
  unfold Schedule.assigned.
  rewrite (getitem_cell (Schedule.__model sch) Model.IN_PERSON N_T N_D (xp_var N_D));
    try done; [| by left | by rewrite Hoptimal].
  unfold Model.resolve. by rewrite Hoptimal.
Qed.

Lemma assigned_virtual (t d : Z) :
  0 ≤ t < N_T → 0 ≤ d < N_D →
  Schedule.assigned sch Model.VIRTUAL t d
  = Ok (solved_value (Schedule.__model sch) (xv_var N_T N_D t d) =? 1).
Proof using Hwf Hoptimal.
  intros Ht Hd. destruct Hwf as (_ & _ & _ & _ & _ & _ & _ & _ & Hxv).
  unfold Schedule.assigned.
  rewrite (getitem_cell (Schedule.__model sch) Model.VIRTUAL N_T N_D (xv_var N_T N_D));
    try done; [| by right | by rewrite Hoptimal].
  unfold Model.resolve. by rewrite Hoptimal.
Qed.

Lemma assigned_either_works (t d : Z) :
  0 ≤ t < N_T → 0 ≤ d < N_D →
  Schedule.assigned_either sch t d = Ok (works sch Schedule.EITHER t d).
Proof using Hwf Hoptimal.
  intros Ht Hd. unfold Schedule.assigned_either.
  rewrite (assigned_in_person t d Ht Hd), obind_ret, (assigned_virtual t d Ht Hd).
  unfold works. simpl. by destruct (_ =? 1).
Qed.

Lemma tutor_index_lookup (tutor : string) :
  tutor ∈ Schedule.tutors sch →
  dict_get (Schedule.__tutor_index sch) tutor
  = Ok (position tutor (Schedule.tutors sch)).
Proof using Hwf.
  intros Hin. destruct Hwf as (_ & _ & _ & _ & -> & _).
  unfold dict_get. by rewrite index_table_lookup, decide_True.
Qed.

Lemma day_index_lookup (day : string) :
  day ∈ Schedule.days sch →
  dict_get (Schedule.__day_index sch) day = Ok (position day (Schedule.days sch)).
Proof using Hwf.
  intros Hin. destruct Hwf as (_ & _ & _ & _ & _ & -> & _).
  unfold dict_get. by rewrite index_table_lookup, decide_True.
Qed.

Lemma check_Ok (mode : Z) (tutor day : string) :
  accepted_mode mode → tutor ∈ Schedule.tutors sch → day ∈ Schedule.days sch →
  Schedule.check sch mode tutor day
  = Ok (works sch mode (position tutor (Schedule.tutors sch))
                       (position day (Schedule.days sch))).
Proof using Hwf Hoptimal.
  intros Hmode Htutor Hday. unfold Schedule.check.
  destruct (validate_mode_cases mode) as [[_ ->] | [? _]]; [| done].
  destruct (validate_tutor_cases sch tutor) as [[_ ->] | [? _]]; [| done].
  destruct (validate_day_cases sch day) as [[_ ->] | [? _]]; [| done].
  destruct (validate_schedule_cases sch) as [[_ ->] | [? _]]; [| done].
  rewrite !obind_ret, (tutor_index_lookup tutor Htutor), obind_ret.
  rewrite (day_index_lookup day Hday), obind_ret.
  pose proof (position_bounds tutor _ Htutor) as Ht.
  pose proof (position_bounds day _ Hday) as Hd.
  destruct Hmode as [-> | [-> | ->]].
  - by rewrite assigned_in_person.
  - by rewrite assigned_virtual.
  - by rewrite assigned_either_works.
Qed.

Lemma get_tutor_schedule_Ok (mode : Z) (tutor : string) :
  accepted_mode mode → tutor ∈ Schedule.tutors sch →
  Schedule.get_tutor_schedule sch mode tutor
  = Ok (List.filter
          (λ day, works sch mode (position tutor (Schedule.tutors sch))
                                 (position day (Schedule.days sch)))
          (Schedule.days sch)).
Proof using Hwf Hoptimal.
  intros Hmode Htutor. unfold Schedule.get_tutor_schedule.
  destruct (validate_mode_cases mode) as [[_ ->] | [? _]]; [| done].
  destruct (validate_tutor_cases sch tutor) as [[_ ->] | [? _]]; [| done].
  destruct (validate_schedule_cases sch) as [[_ ->] | [? _]]; [| done].
  rewrite !obind_ret, (tutor_index_lookup tutor Htutor), obind_ret.
  pose proof (position_bounds tutor _ Htutor) as Ht.
  pose proof Hwf as (_ & Hnd & _).
  destruct Hmode as [-> | [-> | ->]]; cbv zeta;
    apply (comprehension_if_positions _ _
             (λ d, works sch _ (position tutor (Schedule.tutors sch)) d) Hnd);
    intros d Hd.
  - by rewrite assigned_in_person.
  - by rewrite assigned_virtual.
  - by rewrite assigned_either_works.
Qed.

Lemma get_day_schedule_Ok (mode : Z) (day : string) :
  accepted_mode mode → day ∈ Schedule.days sch →
  Schedule.get_day_schedule sch mode day
  = Ok (List.filter
          (λ tutor, works sch mode (position tutor (Schedule.tutors sch))
                                   (position day (Schedule.days sch)))
          (Schedule.tutors sch)).
Proof using Hwf Hoptimal.
  intros Hmode Hday. unfold Schedule.get_day_schedule.
  destruct (validate_mode_cases mode) as [[_ ->] | [? _]]; [| done].
  destruct (validate_day_cases sch day) as [[_ ->] | [? _]]; [| done].
  destruct (validate_schedule_cases sch) as [[_ ->] | [? _]]; [| done].
  rewrite !obind_ret, (day_index_lookup day Hday), obind_ret.
  pose proof (position_bounds day _ Hday) as Hd.
  pose proof Hwf as (Hnd & _).
  destruct Hmode as [-> | [-> | ->]]; cbv zeta;
    apply (comprehension_if_positions _ _
             (λ t, works sch _ t (position day (Schedule.days sch))) Hnd);
    intros t Ht.
  - by rewrite assigned_in_person.
  - by rewrite assigned_virtual.
  - by rewrite assigned_either_works.
Qed.
End queries.

(** Queries on a facade without optimal result, or with an unrecognized
    argument, raise a usage error. *)
Lemma check_Raise (sch : Schedule.t) (mode : Z) (tutor day : string) :
  ¬ accepted_mode mode ∨ tutor ∉ Schedule.tutors sch ∨ day ∉ Schedule.days sch
  ∨ Model.status (Schedule.__model sch) ≠ Model.OPTIMAL →
  ∃ msg, Schedule.check sch mode tutor day = Raise (Exception msg).
Proof.
  intros H. unfold Schedule.check.
  destruct (validate_mode_cases mode) as [[? ->] | [_ [msg ->]]]; [| by exists msg].
  destruct (validate_tutor_cases sch tutor) as [[? ->] | [_ [msg ->]]]; [| by exists msg].
  destruct (validate_day_cases sch day) as [[? ->] | [_ [msg ->]]]; [| by exists msg].
  destruct (validate_schedule_cases sch) as [[? ->] | [_ [msg ->]]]; [| by exists msg].
  tauto.
Qed.

Lemma get_tutor_schedule_Raise (sch : Schedule.t) (mode : Z) (tutor : string) :
  ¬ accepted_mode mode ∨ tutor ∉ Schedule.tutors sch
  ∨ Model.status (Schedule.__model sch) ≠ Model.OPTIMAL →
  ∃ msg, Schedule.get_tutor_schedule sch mode tutor = Raise (Exception msg).
Proof.
  intros H. unfold Schedule.get_tutor_schedule.
  destruct (validate_mode_cases mode) as [[? ->] | [_ [msg ->]]]; [| by exists msg].
  destruct (validate_tutor_cases sch tutor) as [[? ->] | [_ [msg ->]]]; [| by exists msg].
  destruct (validate_schedule_cases sch) as [[? ->] | [_ [msg ->]]]; [| by exists msg].
  tauto.
Qed.

Lemma get_day_schedule_Raise (sch : Schedule.t) (mode : Z) (day : string) :
  ¬ accepted_mode mode ∨ day ∉ Schedule.days sch
  ∨ Model.status (Schedule.__model sch) ≠ Model.OPTIMAL →
  ∃ msg, Schedule.get_day_schedule sch mode day = Raise (Exception msg).
Proof.
  intros H. unfold Schedule.get_day_schedule.
  destruct (validate_mode_cases mode) as [[? ->] | [_ [msg ->]]]; [| by exists msg].
  destruct (validate_day_cases sch day) as [[? ->] | [_ [msg ->]]]; [| by exists msg].
  destruct (validate_schedule_cases sch) as [[? ->] | [_ [msg ->]]]; [| by exists msg].
  tauto.
Qed.

Lemma accepted_mode_dec (mode : Z) : accepted_mode mode ∨ ¬ accepted_mode mode.
Proof. unfold accepted_mode, Schedule.IN_PERSON, Schedule.VIRTUAL, Schedule.EITHER,
         Model.IN_PERSON, Model.VIRTUAL. lia. Qed.

Lemma status_optimal_dec (sch : Schedule.t) :
  Model.status (Schedule.__model sch) = Model.OPTIMAL
  ∨ Model.status (Schedule.__model sch) ≠ Model.OPTIMAL.
Proof. lia. Qed.

Lemma filter_sublist {A} (f : A → bool) (l : list A) : sublist (List.filter f l) l.
Proof.
  induction l as [| x l IH]; simpl; [constructor |].
  destruct (f x); by constructor.
Qed.

Lemma elem_of_filter {A} (f : A → bool) (l : list A) (x : A) :
  x ∈ List.filter f l ↔ x ∈ l ∧ f x = true.
Proof. rewrite !list_elem_of_In. apply filter_In. Qed.

(** ** The indexer's assertion on the mode *)

Lemma getitem_other_mode (self : Model.t) (mode : Z) (tutors days : selector) :
  mode ≠ Model.IN_PERSON → mode ≠ Model.VIRTUAL →
  Model.__getitem__ self (mode, tutors, days) = Raise AssertionError.
Proof.
  intros H0 H1. unfold Model.__getitem__.
  destruct (Z.eqb_spec mode Model.IN_PERSON); [done |].
  destruct (Z.eqb_spec mode Model.VIRTUAL); done.
Qed.

Lemma getitem_infeasible (self : Model.t) (mode : Z) (tutors days : selector) :
  is_mode mode → Model.status self = Model.INFEASIBLE →
  Model.__getitem__ self (mode, tutors, days) = Ok None.
Proof.
  intros Hmode Hst. unfold Model.__getitem__.
  assert (((mode =? Model.IN_PERSON) || (mode =? Model.VIRTUAL)) = true) as ->.
  { destruct Hmode as [-> | ->]; reflexivity. }
  simpl. by rewrite Hst.
Qed.

Lemma obind_not_assert {A B} (c : outcome A) (k : A → outcome B) :
  c ≠ Raise AssertionError → (∀ x, k x ≠ Raise AssertionError) →
  (c ≫= k) ≠ Raise AssertionError.
Proof.
  intros Hc Hk. destruct c as [x | e]; [apply Hk |].
  rewrite obind_raise. intros [= ->]. by apply Hc.
Qed.

Lemma subscript_not_assert {A} (x : nested A) (sel : selector) :
  subscript x sel ≠ Raise AssertionError.
Proof.
  destruct x as [a | l]; [done |]. destruct sel; [apply py_index_not_assert | done].
Qed.

Lemma comprehension_not_assert {A B} (f : A → outcome B) (l : list A) :
  (∀ x, f x ≠ Raise AssertionError) → comprehension f l ≠ Raise AssertionError.
Proof.
  intros Hf H. apply comprehension_Raise_inv in H as (x & _ & Hx). by apply (Hf x).
Qed.

Lemma comprehension_if_not_assert {A B} (c : A → outcome bool) (f : A → outcome B)
    (l : list A) :
  (∀ x, c x ≠ Raise AssertionError) → (∀ x, f x ≠ Raise AssertionError) →
  comprehension_if c f l ≠ Raise AssertionError.
Proof.
  intros Hc Hf. induction l as [| x l IH]; [done |]. simpl.
  apply obind_not_assert; [apply Hc |]. intros [|]; [| done].
  apply obind_not_assert; [apply Hf |]. intros y.
  apply obind_not_assert; [done |]. done.
Qed.

Lemma getitem_mode_not_assert (self : Model.t) (mode : Z) (tutors days : selector) :
  is_mode mode → Model.__getitem__ self (mode, tutors, days) ≠ Raise AssertionError.
Proof.
  intros Hmode. unfold Model.__getitem__.
  assert (((mode =? Model.IN_PERSON) || (mode =? Model.VIRTUAL)) = true) as ->.
  { destruct Hmode as [-> | ->]; reflexivity. }
  simpl py_assert. rewrite obind_ret.
  destruct (Model.status self =? Model.INFEASIBLE); [done |].
  apply obind_not_assert; [apply subscript_not_assert |].
  intros [v | [| [v | l0] l]]; try done.
  - apply obind_not_assert; [apply subscript_not_assert | done].
  - apply obind_not_assert; [| done].
    apply comprehension_not_assert. intros row. apply subscript_not_assert.
Qed.

Lemma assigned_not_assert (sch : Schedule.t) (mode t d : Z) :
  is_mode mode → Schedule.assigned sch mode t d ≠ Raise AssertionError.
Proof.
  intros Hmode. unfold Schedule.assigned.
  apply obind_not_assert; [by apply getitem_mode_not_assert |].
  intros [[[v | l] | [z | l]] |]; done.
Qed.

Lemma assigned_either_not_assert (sch : Schedule.t) (t d : Z) :
  Schedule.assigned_either sch t d ≠ Raise AssertionError.
Proof.
  unfold Schedule.assigned_either.
  apply obind_not_assert; [apply assigned_not_assert; by left |].
  intros [|]; [done | apply assigned_not_assert; by right].
Qed.

Lemma dict_get_not_assert {V} (d : gmap string V) (k : string) :
  dict_get d k ≠ Raise AssertionError.
Proof. unfold dict_get. by destruct (d !! k). Qed.

Lemma validate_not_assert (sch : Schedule.t) (mode : Z) (x : string) :
  Schedule.__validate_mode mode ≠ Raise AssertionError
  ∧ Schedule.__validate_tutor sch x ≠ Raise AssertionError
  ∧ Schedule.__validate_day sch x ≠ Raise AssertionError
  ∧ Schedule.__validate_schedule sch ≠ Raise AssertionError.
Proof.
  unfold Schedule.__validate_mode, Schedule.__validate_tutor,
    Schedule.__validate_day, Schedule.__validate_schedule.
  repeat split.
  - by destruct (_ && _).
  - by destruct (negb _).
  - by destruct (negb _).
  - by destruct (negb _).
Qed.

(** No query of the facade reaches the indexer's assertion. *)
Lemma queries_not_assert (sch : Schedule.t) (mode : Z) (tutor day : string) :
  Schedule.check sch mode tutor day ≠ Raise AssertionError
  ∧ Schedule.get_tutor_schedule sch mode tutor ≠ Raise AssertionError
  ∧ Schedule.get_day_schedule sch mode day ≠ Raise AssertionError.
Proof.
  destruct (validate_not_assert sch mode tutor) as (Hm & Ht & _ & Hs).
  destruct (validate_not_assert sch mode day) as (_ & _ & Hd & _).
  split; [| split].
  - unfold Schedule.check.
    repeat (apply obind_not_assert; [done || apply dict_get_not_assert | intros ?]).
    destruct (_ =? _); [apply assigned_not_assert; by left |].
    destruct (_ =? _); [apply assigned_not_assert; by right |].
    apply assigned_either_not_assert.
  - unfold Schedule.get_tutor_schedule.
    repeat (apply obind_not_assert; [done || apply dict_get_not_assert | intros ?]).
    cbv zeta.
    destruct (_ =? _); [| destruct (_ =? _)];
      (apply comprehension_if_not_assert; [| intros; apply py_index_not_assert]);
      intros d.
    + apply assigned_not_assert; by left.
    + apply assigned_not_assert; by right.
    + apply assigned_either_not_assert.
  - unfold Schedule.get_day_schedule.
    repeat (apply obind_not_assert; [done || apply dict_get_not_assert | intros ?]).
    cbv zeta.
    destruct (_ =? _); [| destruct (_ =? _)];
      (apply comprehension_if_not_assert; [| intros; apply py_index_not_assert]);
      intros t.
    + apply assigned_not_assert; by left.
    + apply assigned_not_assert; by right.
    + apply assigned_either_not_assert.
Qed.

Lemma comprehension_lookup {A B} (f : A → outcome B) (l : list A) (ys : list B)
    (i : nat) (x : A) :
  comprehension f l = Ok ys → l !! i = Some x → ∃ y, ys !! i = Some y ∧ f x = Ok y.
Proof.
  intros H Hx. apply comprehension_Ok_inv in H.
  destruct (Forall2_lookup_l _ _ _ _ _ H Hx) as (y & Hy & Hf). eauto.
Qed.

(** The matrix entry that the engine receives for a tutor and a day is the
    entry of the availability dictionary. *)
Lemma projected_availability (tutors days : list string)
    (availability : gmap string (gmap string Q)) (a : list (list Q))
    (tutor day : string) (row : gmap string Q) (v : Q) :
  comprehension (λ tutor, comprehension (λ day,
    row ← dict_get availability tutor; dict_get row day) days) tutors = Ok a →
  tutor ∈ tutors → day ∈ days →
  availability !! tutor = Some row → row !! day = Some v →
  a_at a (position tutor tutors) (position day days) = v.
Proof.
  intros Ha Htutor Hday Hrow Hv.
  destruct (comprehension_lookup _ _ _ _ _ Ha (position_lookup tutor tutors Htutor))
    as (r & Hr & Hcr).
  destruct (comprehension_lookup _ _ _ _ _ Hcr (position_lookup day days Hday))
    as (v' & Hv' & Hget).
  unfold dict_get in Hget. rewrite Hrow in Hget. simpl in Hget.
  rewrite Hv in Hget. injection Hget as <-.
  unfold a_at. by rewrite (nth_lookup_Some _ _ _ _ Hr), (nth_lookup_Some _ _ _ _ Hv').
Qed.

(** ** Properties of the assignment facade *)

Section facade_claims.
Context (optimize : GModel → Z * (Var → Q)).
Context (tutors days : list string)
        (min_tutors_ip min_tutors_v min_tutor_shifts min_tutor_ip_shifts : Z)
        (max_shifts_by_tutor mode_preference : gmap string Z)
        (availability : gmap string (gmap string Q))
        (target_ip_fractions target_v_fractions : gmap string Q)
        (SHIFTS_weight ALIGN_weight DAY_PREF_weight MODE_PREF_weight : Q).

Local Abbreviation init :=
  (Schedule.__init__ optimize tutors days min_tutors_ip min_tutors_v
     min_tutor_shifts min_tutor_ip_shifts max_shifts_by_tutor mode_preference
     availability target_ip_fractions target_v_fractions
     SHIFTS_weight ALIGN_weight DAY_PREF_weight MODE_PREF_weight).

(** C4. On a constructed facade each of [check], [get_tutor_schedule] and
    [get_day_schedule] raises exactly when the mode is not one of the
    three accepted values, or a given tutor or day is not recognized, or
    the status is not optimal. [schedule_found] is a total function (it
    has no way to raise) and returns true exactly when the status is
    optimal. *)
Theorem queries_raise_iff (sch : Schedule.t) (mode : Z) (tutor day : string) :
  init = Ok sch →
  ((∃ e, Schedule.check sch mode tutor day = Raise e)
   ↔ ¬ accepted_mode mode ∨ tutor ∉ Schedule.tutors sch ∨ day ∉ Schedule.days sch
     ∨ Model.status (Schedule.__model sch) ≠ Model.OPTIMAL)
  ∧ ((∃ e, Schedule.get_tutor_schedule sch mode tutor = Raise e)
     ↔ ¬ accepted_mode mode ∨ tutor ∉ Schedule.tutors sch
       ∨ Model.status (Schedule.__model sch) ≠ Model.OPTIMAL)
  ∧ ((∃ e, Schedule.get_day_schedule sch mode day = Raise e)
     ↔ ¬ accepted_mode mode ∨ day ∉ Schedule.days sch
       ∨ Model.status (Schedule.__model sch) ≠ Model.OPTIMAL)
  ∧ (Schedule.schedule_found sch = true
     ↔ Model.status (Schedule.__model sch) = Model.OPTIMAL).
Proof.
  intros Hinit. apply constructed_well_formed in Hinit as (Hwf & _ & _).
  destruct (accepted_mode_dec mode) as [Hmode | Hmode];
    destruct (decide (tutor ∈ Schedule.tutors sch)) as [Ht | Ht];
    destruct (decide (day ∈ Schedule.days sch)) as [Hd | Hd];
    destruct (status_optimal_dec sch) as [Hs | Hs];
    (split; [| split; [| split; [| apply Z.eqb_eq]]]);
    (split;
     [ intros [e He];
       first [ rewrite check_Ok in He by done; done
             | rewrite get_tutor_schedule_Ok in He by done; done
             | rewrite get_day_schedule_Ok in He by done; done
             | tauto ]
     | intros H;
       first [ destruct (check_Raise sch mode tutor day H) as [msg ->]; eauto
             | destruct (get_tutor_schedule_Raise sch mode tutor H) as [msg ->]; eauto
             | destruct (get_day_schedule_Raise sch mode day H) as [msg ->]; eauto ] ]).
Qed.

(** C5. Infeasibility is reported, not thrown. For valid arguments the
    facade is constructed whatever the solver answers; its status is
    optimal exactly when the solver's status code is [GRB.OPTIMAL], and for
    every other code it is infeasible: then [schedule_found] returns false
    and [check], [get_tutor_schedule] and [get_day_schedule] raise a usage
    error for all arguments. *)
Theorem infeasibility_reported (S m : list Z) (a : list (list Q)) (fp fv : list Q) :
  NoDup tutors → NoDup days →
  projected tutors days max_shifts_by_tutor mode_preference availability
            target_ip_fractions target_v_fractions S m a fp fv →
  valid_input (Z.of_nat (length tutors)) (Z.of_nat (length days))
              min_tutors_ip min_tutors_v S min_tutor_shifts min_tutor_ip_shifts
              a m fp fv SHIFTS_weight ALIGN_weight DAY_PREF_weight MODE_PREF_weight →
  ∃ sch,
    init = Ok sch
    ∧ let code :=
        (optimize (program (Z.of_nat (length tutors)) (Z.of_nat (length days))
                     min_tutors_ip min_tutors_v S min_tutor_shifts
                     min_tutor_ip_shifts a m fp fv
                     SHIFTS_weight ALIGN_weight DAY_PREF_weight MODE_PREF_weight)).1 in
      (Model.status (Schedule.__model sch) = Model.OPTIMAL ↔ code = GRB_OPTIMAL)
      ∧ (code ≠ GRB_OPTIMAL →
           Model.status (Schedule.__model sch) = Model.INFEASIBLE
           ∧ Schedule.schedule_found sch = false
           ∧ ∀ mode tutor day,
               (∃ msg, Schedule.check sch mode tutor day = Raise (Exception msg))
               ∧ (∃ msg, Schedule.get_tutor_schedule sch mode tutor
                         = Raise (Exception msg))
               ∧ (∃ msg, Schedule.get_day_schedule sch mode day
                         = Raise (Exception msg))).
Proof.
  intros Ht Hd Hproj Hvalid.
  set (N_T := Z.of_nat (length tutors)). set (N_D := Z.of_nat (length days)).
  set (prog := program N_T N_D min_tutors_ip min_tutors_v S min_tutor_shifts
                 min_tutor_ip_shifts a m fp fv
                 SHIFTS_weight ALIGN_weight DAY_PREF_weight MODE_PREF_weight).
  set (sch := Schedule.mk tutors (index_table tutors) days (index_table days)
                (solved optimize N_T N_D min_tutors_ip min_tutors_v S
                   min_tutor_shifts min_tutor_ip_shifts a m fp fv
                   SHIFTS_weight ALIGN_weight DAY_PREF_weight MODE_PREF_weight)).
  exists sch. split; [by apply schedule_init_Ok |]. cbv zeta.
  assert (Model.status (Schedule.__model sch)
          = if (optimize prog).1 =? GRB_OPTIMAL then Model.OPTIMAL
            else Model.INFEASIBLE) as Hst by reflexivity.
  assert ((optimize prog).1 ≠ GRB_OPTIMAL
          → Model.status (Schedule.__model sch) = Model.INFEASIBLE) as Hinf.
  { intros Hc. rewrite Hst. by destruct (Z.eqb_spec (optimize prog).1 GRB_OPTIMAL). }
  split.
  - rewrite Hst. destruct (Z.eqb_spec (optimize prog).1 GRB_OPTIMAL); split; done.
  - intros Hc. specialize (Hinf Hc). split; [done |].
    unfold Schedule.schedule_found. rewrite Hinf. split; [done |].
    intros mode tutor day. split; [| split].
    + apply check_Raise. right. right. right. by rewrite Hinf.
    + apply get_tutor_schedule_Raise. right. right. by rewrite Hinf.
    + apply get_day_schedule_Raise. right. right. by rewrite Hinf.
Qed.

(** C7. On a facade with an optimal result and for a recognized tutor, the
    days of [get_tutor_schedule(EITHER, tutor)] are the days of the
    tutor's in-person schedule together with those of the virtual
    schedule, and they are the days [d] for which
    [check(EITHER, tutor, d)] returns true. *)
Theorem either_schedule_is_checked (sch : Schedule.t) (tutor : string) :
  init = Ok sch →
  Model.status (Schedule.__model sch) = Model.OPTIMAL →
  tutor ∈ Schedule.tutors sch →
  ∃ either in_person virtual,
    Schedule.get_tutor_schedule sch Schedule.EITHER tutor = Ok either
    ∧ Schedule.get_tutor_schedule sch Schedule.IN_PERSON tutor = Ok in_person
    ∧ Schedule.get_tutor_schedule sch Schedule.VIRTUAL tutor = Ok virtual
    ∧ ∀ day,
        (day ∈ either ↔ day ∈ in_person ∨ day ∈ virtual)
        ∧ (day ∈ either ↔ Schedule.check sch Schedule.EITHER tutor day = Ok true).
Proof.
  intros Hinit Hs Htutor. apply constructed_well_formed in Hinit as (Hwf & _ & _).
  do 3 eexists.
  split; [apply get_tutor_schedule_Ok; unfold accepted_mode; auto |].
  split; [apply get_tutor_schedule_Ok; unfold accepted_mode; auto |].
  split; [apply get_tutor_schedule_Ok; unfold accepted_mode; auto |].
  intros day. rewrite !elem_of_filter. split.
  - unfold works. simpl. rewrite orb_true_iff. tauto.
  - destruct (decide (day ∈ Schedule.days sch)) as [Hd | Hd].
    + rewrite check_Ok by (unfold accepted_mode; auto). split.
      * by intros [_ ->].
      * by intros [= ->].
    + destruct (check_Raise sch Schedule.EITHER tutor day) as [msg ->]; [auto |].
      split; [tauto | done].
Qed.

(** C8. On a facade with an optimal result, [get_tutor_schedule(mode, tutor)]
    returns the days of the facade's day list on which the tutor is
    assigned under the mode (under at least one mode for the either-mode),
    in the order of that list; [get_day_schedule(mode, day)] likewise
    returns the assigned tutors in the order of the tutor list. *)
Theorem schedules_are_ordered_selections (sch : Schedule.t) (mode : Z)
    (tutor day : string) :
  init = Ok sch →
  Model.status (Schedule.__model sch) = Model.OPTIMAL →
  accepted_mode mode →
  (tutor ∈ Schedule.tutors sch →
   ∃ l, Schedule.get_tutor_schedule sch mode tutor = Ok l
        ∧ l = List.filter
                (λ day', works sch mode (position tutor (Schedule.tutors sch))
                                        (position day' (Schedule.days sch)))
                (Schedule.days sch)
        ∧ sublist l (Schedule.days sch)
        ∧ ∀ i day', Schedule.days sch !! i = Some day' →
            (day' ∈ l ↔ works sch mode (position tutor (Schedule.tutors sch))
                                       (Z.of_nat i) = true))
  ∧ (day ∈ Schedule.days sch →
     ∃ l, Schedule.get_day_schedule sch mode day = Ok l
          ∧ l = List.filter
                  (λ tutor', works sch mode (position tutor' (Schedule.tutors sch))
                                            (position day (Schedule.days sch)))
                  (Schedule.tutors sch)
          ∧ sublist l (Schedule.tutors sch)
          ∧ ∀ i tutor', Schedule.tutors sch !! i = Some tutor' →
              (tutor' ∈ l ↔ works sch mode (Z.of_nat i)
                              (position day (Schedule.days sch)) = true)).
Proof.
  intros Hinit Hs Hmode. apply constructed_well_formed in Hinit as (Hwf & _ & _).
  pose proof Hwf as (Hndt & Hndd & _).
  split.
  - intros Htutor. eexists. split; [by apply get_tutor_schedule_Ok |].
    split; [done |]. split; [apply filter_sublist |].
    intros i day' Hi. rewrite elem_of_filter.
    rewrite (position_of_lookup _ i day' Hndd Hi).
    split; [by intros [_ ?] | intros ?; split; [by eapply list_elem_of_lookup_2 | done]].
  - intros Hday. eexists. split; [by apply get_day_schedule_Ok |].
    split; [done |]. split; [apply filter_sublist |].
    intros i tutor' Hi. rewrite elem_of_filter.
    rewrite (position_of_lookup _ i tutor' Hndt Hi).
    split; [by intros [_ ?] | intros ?; split; [by eapply list_elem_of_lookup_2 | done]].
Qed.

(** C10. The engine's indexer accepts the modes [IN_PERSON] and [VIRTUAL]
    only: every other mode, the facade's [EITHER] included, fails its
    assertion, whatever the status and the selectors. No query of the
    facade raises an assertion error, so the assertion is not reachable
    through them; an either-mode check is the disjunction of the two
    single-mode checks. When the status is infeasible the indexer returns
    [None] for every pair of selectors. *)
Theorem indexer_mode_assertion :
  (∀ self mode sel_t sel_d,
     ¬ is_mode mode → Model.__getitem__ self (mode, sel_t, sel_d) = Raise AssertionError)
  ∧ (∀ self sel_t sel_d,
       Model.__getitem__ self (Schedule.EITHER, sel_t, sel_d) = Raise AssertionError)
  ∧ (∀ self mode sel_t sel_d,
       is_mode mode → Model.__getitem__ self (mode, sel_t, sel_d) ≠ Raise AssertionError)
  ∧ (∀ self mode sel_t sel_d,
       is_mode mode → Model.status self = Model.INFEASIBLE →
       Model.__getitem__ self (mode, sel_t, sel_d) = Ok None)
  ∧ (∀ sch mode tutor day,
       Schedule.check sch mode tutor day ≠ Raise AssertionError
       ∧ Schedule.get_tutor_schedule sch mode tutor ≠ Raise AssertionError
       ∧ Schedule.get_day_schedule sch mode day ≠ Raise AssertionError)
  ∧ (∀ sch tutor day,
       init = Ok sch → Model.status (Schedule.__model sch) = Model.OPTIMAL →
       tutor ∈ Schedule.tutors sch → day ∈ Schedule.days sch →
       ∃ in_person virtual : bool,
         Schedule.check sch Schedule.IN_PERSON tutor day = Ok in_person
         ∧ Schedule.check sch Schedule.VIRTUAL tutor day = Ok virtual
         ∧ Schedule.check sch Schedule.EITHER tutor day = Ok (in_person || virtual)).
Proof.
  split; [| split; [| split; [| split; [| split]]]].
  - intros self mode sel_t sel_d Hmode. apply getitem_other_mode;
      intros ->; apply Hmode; [by left | by right].
  - intros self sel_t sel_d. by apply getitem_other_mode.
  - intros self mode sel_t sel_d. apply getitem_mode_not_assert.
  - intros self mode sel_t sel_d. apply getitem_infeasible.
  - apply queries_not_assert.
  - intros sch tutor day Hinit Hs Htutor Hday.
    apply constructed_well_formed in Hinit as (Hwf & _ & _).
    do 2 eexists.
    split; [apply check_Ok; unfold accepted_mode; auto |].
    split; [apply check_Ok; unfold accepted_mode; auto |].
    rewrite check_Ok by (unfold accepted_mode; auto). reflexivity.
Qed.

(** C6, as stated, fails in both directions, because the code sums and
    compares in floats. The fractions of [tolerance_test.wide] differ from
    1 by more than 1/1000 and are accepted; those of
    [tolerance_test.narrow] meet every requirement, with a combined sum
    within 1/1000 of 1, and are rejected. *)
Lemma tolerance_in_floats_counterexample :
  (NoDup tolerance_test.tutors ∧ NoDup tolerance_test.wide_days
   ∧ projected tolerance_test.tutors tolerance_test.wide_days
       tolerance_test.max_shifts_by_tutor tolerance_test.mode_preference
       tolerance_test.availability tolerance_test.wide_ip_fractions
       tolerance_test.wide_v_fractions
       [2] [0] [[(1 # 2)%Q; 1%Q]] tolerance_test.wide_fp tolerance_test.wide_fv
   ∧ (1 # 1000 < exact_deviation tolerance_test.wide_fp tolerance_test.wide_fv)%Q
   ∧ ∃ sch, tolerance_test.wide = Ok sch)
  ∧ (NoDup tolerance_test.tutors ∧ NoDup tolerance_test.narrow_days
     ∧ projected tolerance_test.tutors tolerance_test.narrow_days
         tolerance_test.max_shifts_by_tutor tolerance_test.mode_preference
         tolerance_test.availability tolerance_test.narrow_ip_fractions
         tolerance_test.narrow_v_fractions
         [2] [0] [[1%Q]] tolerance_test.narrow_fp tolerance_test.narrow_fv
     ∧ valid_input_exact 1 1 0 0 [2] 0 0 [[1%Q]] [0]
         tolerance_test.narrow_fp tolerance_test.narrow_fv 1 1 1 1
     ∧ tolerance_test.narrow = Raise AssertionError).
Proof.
  split.
  - assert (NoDup tolerance_test.tutors ∧ NoDup tolerance_test.wide_days) as [Ht Hd].
    { split; apply (bool_decide_unpack _); vm_compute; exact I. }
    assert (projected tolerance_test.tutors tolerance_test.wide_days
              tolerance_test.max_shifts_by_tutor tolerance_test.mode_preference
              tolerance_test.availability tolerance_test.wide_ip_fractions
              tolerance_test.wide_v_fractions
              [2] [0] [[(1 # 2)%Q; 1%Q]] tolerance_test.wide_fp
              tolerance_test.wide_fv) as Hproj.
    { repeat split; vm_compute; reflexivity. }
    split; [exact Ht |]. split; [exact Hd |]. split; [exact Hproj |].
    split; [vm_compute; reflexivity |].
    eexists. apply (schedule_init_Ok _ _ _ _ _ _ _ _ _ _ _ _ _ _ _ _
                      [2] [0] [[(1 # 2)%Q; 1%Q]] tolerance_test.wide_fp
                      tolerance_test.wide_fv Ht Hd Hproj).
    apply checks_valid_input; vm_compute; reflexivity.
  - split; [apply (bool_decide_unpack _); vm_compute; exact I |].
    split; [apply (bool_decide_unpack _); vm_compute; exact I |].
    split; [repeat split; vm_compute; reflexivity |].
    split; [| vm_compute; reflexivity].
    split; [split; reflexivity |]. split.
    { destruct (constraints_checks_cases 1 1 0 0 0 0 [2] [[1%Q]])
        as [[H _] | [_ H]]; [reflexivity | reflexivity | exact H |].
      vm_compute in H. discriminate H. }
    split; [reflexivity |].
    split; [repeat constructor; right; left; reflexivity |].
    split; [reflexivity |].
    split; [repeat constructor; vm_compute; discriminate |].
    split; [reflexivity |].
    split; [repeat constructor; vm_compute; discriminate |].
    split; [vm_compute; reflexivity |].
    repeat split; vm_compute; discriminate.
Qed.

(** C6, amended. The constructor of the facade rejects a tutor list with a
    repeated name, an availability entry outside the three levels, target
    fractions that fail the test [abs(1-sum(fp)-sum(fv)) < 10**-3] as the
    code computes it, in floats and with a strict comparison, and a
    negative weight; arguments that meet every other requirement and pass
    that test are accepted. *)
Theorem construction_validation :
  (¬ NoDup tutors → init = Raise AssertionError)
  ∧ (∀ tutor day row v,
       tutor ∈ tutors → day ∈ days →
       availability !! tutor = Some row → row !! day = Some v → ¬ level v →
       ∃ e, init = Raise e)
  ∧ (∀ fp fv,
       comprehension (λ day, dict_get target_ip_fractions day) days = Ok fp →
       comprehension (λ day, dict_get target_v_fractions day) days = Ok fv →
       ¬ within_tolerance fp fv →
       ∃ e, init = Raise e)
  ∧ ((SHIFTS_weight < 0 ∨ ALIGN_weight < 0 ∨ DAY_PREF_weight < 0
      ∨ MODE_PREF_weight < 0)%Q →
     ∃ e, init = Raise e)
  ∧ (∀ S m a fp fv,
       NoDup tutors → NoDup days →
       projected tutors days max_shifts_by_tutor mode_preference availability
                 target_ip_fractions target_v_fractions S m a fp fv →
       valid_counts (Z.of_nat (length tutors)) (Z.of_nat (length days)) →
       valid_constraint_input (Z.of_nat (length tutors)) (Z.of_nat (length days))
         min_tutors_ip min_tutors_v min_tutor_shifts min_tutor_ip_shifts S a →
       Z.of_nat (length m) = Z.of_nat (length tutors) → Forall preference m →
       Z.of_nat (length fp) = Z.of_nat (length days) → Forall (λ f, 0 <= f)%Q fp →
       Z.of_nat (length fv) = Z.of_nat (length days) → Forall (λ f, 0 <= f)%Q fv →
       within_tolerance fp fv →
       (0 <= SHIFTS_weight)%Q → (0 <= ALIGN_weight)%Q →
       (0 <= DAY_PREF_weight)%Q → (0 <= MODE_PREF_weight)%Q →
       ∃ sch, init = Ok sch).
Proof.
  assert (∀ P : Prop,
            (∀ sch S m a fp fv,
               projected tutors days max_shifts_by_tutor mode_preference
                 availability target_ip_fractions target_v_fractions S m a fp fv →
               valid_input (Z.of_nat (length tutors)) (Z.of_nat (length days))
                 min_tutors_ip min_tutors_v S min_tutor_shifts min_tutor_ip_shifts
                 a m fp fv SHIFTS_weight ALIGN_weight DAY_PREF_weight
                 MODE_PREF_weight →
               init = Ok sch → P → False) →
            P → ∃ e, init = Raise e) as Hreject.
  { intros P HP Hp. destruct init as [sch | e] eqn:Hinit; [| by exists e].
    exfalso. pose proof Hinit as Hinv.
    apply schedule_init_Ok_inv in Hinv
      as (_ & _ & S & m & a & fp & fv & Hproj & Hvalid & _).
    by apply (HP sch S m a fp fv). }
  split; [| split; [| split; [| split]]].
  - intros Hdup. unfold Schedule.__init__.
    rewrite (index_pairs_Ok tutors), obind_ret. fold (index_table tutors).
    destruct (Z.of_nat (size (index_table tutors)) =? Z.of_nat (length tutors)) eqn:E;
      [by apply index_table_size in E | done].
  - intros tutor day row v Htutor Hday Hrow Hv Hlevel.
    apply (Hreject (¬ level v)); [| done].
    intros sch S m a fp fv (_ & _ & Ha & _) (_ & Hc & _) _ _.
    destruct Hc as (_ & _ & _ & _ & _ & _ & _ & _ & Hlevels).
    apply Hlevel.
    rewrite <- (projected_availability tutors days availability a tutor day row v
                  Ha Htutor Hday Hrow Hv).
    apply Hlevels; by apply position_bounds.
  - intros fp fv Hfp Hfv Hsum.
    apply (Hreject (¬ within_tolerance fp fv)); [| done].
    intros sch S m a fp' fv' (_ & _ & _ & Hfp' & Hfv') (_ & _ & Ho) _ Hnot.
    destruct Ho as (_ & _ & _ & _ & _ & _ & Htol & _).
    assert (fp' = fp) as -> by congruence. assert (fv' = fv) as -> by congruence.
    by apply Hnot.
  - intros Hneg.
    apply (Hreject (SHIFTS_weight < 0 ∨ ALIGN_weight < 0 ∨ DAY_PREF_weight < 0
                    ∨ MODE_PREF_weight < 0)%Q); [| done].
    intros sch S m a fp fv _ (_ & _ & Ho) _ Hw.
    destruct Ho as (_ & _ & _ & _ & _ & _ & _ & H1 & H2 & H3 & H4).
    destruct Hw as [Hw | [Hw | [Hw | Hw]]];
      eapply Qlt_not_le; try exact Hw; done.
  - intros S m a fp fv Hndt Hndd Hproj Hn Hc Hm Hpref Hfp Hfp0 Hfv Hfv0 Htol
      Hw1 Hw2 Hw3 Hw4.
    eexists. eapply schedule_init_Ok; [exact Hndt | exact Hndd | exact Hproj |].
    split; [exact Hn |]. split; [exact Hc |]. repeat split; done.
Qed.
End facade_claims.

(** ** The properties on the small test *)

Lemma small_test_valid :
  valid_input 3 2 0 0 small_test.S 0 0 small_test.a small_test.m
              small_test.fp small_test.fv 1 1 1 100.
Proof. apply checks_valid_input; vm_compute; reflexivity. Defined.

Lemma small_test_NoDup : NoDup small_test.tutors ∧ NoDup small_test.days.
Proof. split; apply (bool_decide_unpack _); vm_compute; exact I. Defined.

Lemma small_test_projected :
  projected small_test.tutors small_test.days small_test.max_shifts_by_tutor
    small_test.mode_preference small_test.availability
    small_test.target_ip_fractions small_test.target_v_fractions
    small_test.S small_test.m small_test.a small_test.fp small_test.fv.
Proof. repeat split; vm_compute; reflexivity. Defined.

Lemma tolerance_test_wide_valid :
  valid_input 1 2 0 0 [2] 0 0 [[(1 # 2)%Q; 1%Q]] [0]
              tolerance_test.wide_fp tolerance_test.wide_fv 1 1 1 1.
Proof. apply checks_valid_input; vm_compute; reflexivity. Defined.

Lemma tolerance_test_wide_NoDup :
  NoDup tolerance_test.tutors ∧ NoDup tolerance_test.wide_days.
Proof. split; apply (bool_decide_unpack _); vm_compute; exact I. Defined.

Lemma tolerance_test_wide_projected :
  projected tolerance_test.tutors tolerance_test.wide_days
    tolerance_test.max_shifts_by_tutor tolerance_test.mode_preference
    tolerance_test.availability tolerance_test.wide_ip_fractions
    tolerance_test.wide_v_fractions
    [2] [0] [[(1 # 2)%Q; 1%Q]] tolerance_test.wide_fp tolerance_test.wide_fv.
Proof. repeat split; vm_compute; reflexivity. Defined.

Lemma small_test_facade : small_test.facade = Ok small_test.schedule.
Proof.
  exact (schedule_init_Ok small_test.optimize small_test.tutors small_test.days
           0 0 0 0 small_test.max_shifts_by_tutor small_test.mode_preference
           small_test.availability small_test.target_ip_fractions
           small_test.target_v_fractions 1 1 1 100
           small_test.S small_test.m small_test.a small_test.fp small_test.fv
           (proj1 small_test_NoDup) (proj2 small_test_NoDup)
           small_test_projected small_test_valid).
Defined.

Lemma small_test_optimal :
  Model.status (Schedule.__model small_test.schedule) = Model.OPTIMAL.
Proof. reflexivity. Defined.

Lemma small_test_recognized (x : string) :
  bool_decide (x ∈ small_test.tutors) = true → x ∈ Schedule.tutors small_test.schedule.
Proof. intros H. by apply bool_decide_eq_true in H. Defined.

Lemma small_test_recognized_day (x : string) :
  bool_decide (x ∈ small_test.days) = true → x ∈ Schedule.days small_test.schedule.
Proof. intros H. by apply bool_decide_eq_true in H. Defined.

Lemma queries_raise_iff_witness :
  ∃ sch,
    small_test.facade = Ok sch
    ∧ ((∃ e, Schedule.check sch 3 "Adem" "Sun" = Raise e)
       ↔ ¬ accepted_mode 3 ∨ "Adem"%string ∉ Schedule.tutors sch
         ∨ "Sun"%string ∉ Schedule.days sch
         ∨ Model.status (Schedule.__model sch) ≠ Model.OPTIMAL)
    ∧ ((∃ e, Schedule.get_tutor_schedule sch 3 "Adem" = Raise e)
       ↔ ¬ accepted_mode 3 ∨ "Adem"%string ∉ Schedule.tutors sch
         ∨ Model.status (Schedule.__model sch) ≠ Model.OPTIMAL)
    ∧ ((∃ e, Schedule.get_day_schedule sch 3 "Sun" = Raise e)
       ↔ ¬ accepted_mode 3 ∨ "Sun"%string ∉ Schedule.days sch
         ∨ Model.status (Schedule.__model sch) ≠ Model.OPTIMAL)
    ∧ (Schedule.schedule_found sch = true
       ↔ Model.status (Schedule.__model sch) = Model.OPTIMAL).
Proof.
  exists small_test.schedule. split; [exact small_test_facade |].
  exact (queries_raise_iff small_test.optimize small_test.tutors small_test.days
           0 0 0 0 small_test.max_shifts_by_tutor small_test.mode_preference
           small_test.availability small_test.target_ip_fractions
           small_test.target_v_fractions 1 1 1 100
           small_test.schedule 3 "Adem" "Sun" small_test_facade).
Defined.

Lemma infeasibility_reported_witness :
  NoDup small_test.tutors ∧ NoDup small_test.days
  ∧ ∃ sch,
      small_test.infeasible_facade = Ok sch
      ∧ let code :=
          (small_test.infeasible_optimize
             (program 3 2 0 0 small_test.S 0 0 small_test.a small_test.m
                small_test.fp small_test.fv 1 1 1 100)).1 in
        (Model.status (Schedule.__model sch) = Model.OPTIMAL ↔ code = GRB_OPTIMAL)
        ∧ (code ≠ GRB_OPTIMAL →
             Model.status (Schedule.__model sch) = Model.INFEASIBLE
             ∧ Schedule.schedule_found sch = false
             ∧ ∀ mode tutor day,
                 (∃ msg, Schedule.check sch mode tutor day = Raise (Exception msg))
                 ∧ (∃ msg, Schedule.get_tutor_schedule sch mode tutor
                           = Raise (Exception msg))
                 ∧ (∃ msg, Schedule.get_day_schedule sch mode day
                           = Raise (Exception msg))).
Proof.
  split; [exact (proj1 small_test_NoDup) |]. split; [exact (proj2 small_test_NoDup) |].
  exact (infeasibility_reported small_test.infeasible_optimize
           small_test.tutors small_test.days 0 0 0 0
           small_test.max_shifts_by_tutor small_test.mode_preference
           small_test.availability small_test.target_ip_fractions
           small_test.target_v_fractions 1 1 1 100
           small_test.S small_test.m small_test.a small_test.fp small_test.fv
           (proj1 small_test_NoDup) (proj2 small_test_NoDup)
           small_test_projected small_test_valid).
Defined.

Lemma either_schedule_is_checked_witness :
  ∃ sch,
    small_test.facade = Ok sch
    ∧ Model.status (Schedule.__model sch) = Model.OPTIMAL
    ∧ "Chel"%string ∈ Schedule.tutors sch
    ∧ ∃ either in_person virtual,
        Schedule.get_tutor_schedule sch Schedule.EITHER "Chel" = Ok either
        ∧ Schedule.get_tutor_schedule sch Schedule.IN_PERSON "Chel" = Ok in_person
        ∧ Schedule.get_tutor_schedule sch Schedule.VIRTUAL "Chel" = Ok virtual
        ∧ ∀ day,
            (day ∈ either ↔ day ∈ in_person ∨ day ∈ virtual)
            ∧ (day ∈ either
               ↔ Schedule.check sch Schedule.EITHER "Chel" day = Ok true).
Proof.
  exists small_test.schedule. split; [exact small_test_facade |].
  split; [exact small_test_optimal |].
  split; [apply small_test_recognized; vm_compute; reflexivity |].
  apply (either_schedule_is_checked small_test.optimize small_test.tutors
           small_test.days 0 0 0 0 small_test.max_shifts_by_tutor
           small_test.mode_preference small_test.availability
           small_test.target_ip_fractions small_test.target_v_fractions 1 1 1 100
           small_test.schedule "Chel" small_test_facade small_test_optimal).
  apply small_test_recognized; vm_compute; reflexivity.
Defined.

Lemma schedules_are_ordered_selections_witness :
  ∃ sch,
    small_test.facade = Ok sch
    ∧ Model.status (Schedule.__model sch) = Model.OPTIMAL
    ∧ accepted_mode Schedule.VIRTUAL
    ∧ Schedule.get_tutor_schedule sch Schedule.VIRTUAL "Adem" = Ok ["Sun"; "Mon"]%string
    ∧ Schedule.get_day_schedule sch Schedule.VIRTUAL "Mon" = Ok ["Adem"; "Bebby"]%string
    ∧ sublist ["Sun"; "Mon"]%string (Schedule.days sch)
    ∧ sublist ["Adem"; "Bebby"]%string (Schedule.tutors sch).
Proof.
  exists small_test.schedule. split; [exact small_test_facade |].
  split; [exact small_test_optimal |].
  split; [right; left; reflexivity |].
  destruct (schedules_are_ordered_selections small_test.optimize
              small_test.tutors small_test.days 0 0 0 0
              small_test.max_shifts_by_tutor small_test.mode_preference
              small_test.availability small_test.target_ip_fractions
              small_test.target_v_fractions 1 1 1 100
              small_test.schedule Schedule.VIRTUAL "Adem" "Mon"
              small_test_facade small_test_optimal
              (or_intror (or_introl eq_refl)))
    as [Htutor Hday].
  destruct Htutor as (l & Hl & Hfilter & Hsub & _);
    [apply small_test_recognized; vm_compute; reflexivity |].
  destruct Hday as (l' & Hl' & Hfilter' & Hsub' & _);
    [apply small_test_recognized_day; vm_compute; reflexivity |].
  assert (l = ["Sun"; "Mon"]%string) as El by (rewrite Hfilter; vm_compute; reflexivity).
  assert (l' = ["Adem"; "Bebby"]%string) as El'
    by (rewrite Hfilter'; vm_compute; reflexivity).
  rewrite El in Hl, Hsub. rewrite El' in Hl', Hsub'.
  repeat split; assumption.
Defined.

Lemma indexer_mode_assertion_witness :
  (∀ self sel_t sel_d,
     Model.__getitem__ self (Schedule.EITHER, sel_t, sel_d) = Raise AssertionError)
  ∧ ∃ sch,
      small_test.facade = Ok sch
      ∧ Schedule.check sch Schedule.EITHER "Chel" "Mon" ≠ Raise AssertionError
      ∧ ∃ in_person virtual : bool,
          Schedule.check sch Schedule.IN_PERSON "Chel" "Mon" = Ok in_person
          ∧ Schedule.check sch Schedule.VIRTUAL "Chel" "Mon" = Ok virtual
          ∧ Schedule.check sch Schedule.EITHER "Chel" "Mon" = Ok (in_person || virtual).
Proof.
  pose proof (indexer_mode_assertion small_test.optimize small_test.tutors
                small_test.days 0 0 0 0 small_test.max_shifts_by_tutor
                small_test.mode_preference small_test.availability
                small_test.target_ip_fractions small_test.target_v_fractions 1 1 1 100)
    as (_ & Heither & _ & _ & Hnot & Hor).
  split; [exact Heither |].
  exists small_test.schedule. split; [exact small_test_facade |].
  split; [apply Hnot |].
  apply (Hor small_test.schedule "Chel"%string "Mon"%string
           small_test_facade small_test_optimal).
  - apply small_test_recognized; vm_compute; reflexivity.
  - apply small_test_recognized_day; vm_compute; reflexivity.
Defined.

Lemma construction_validation_witness :
  (∃ e, Schedule.__init__ small_test.optimize ["Adem"; "Bebby"; "Adem"]%string
          small_test.days 0 0 0 0 small_test.max_shifts_by_tutor
          small_test.mode_preference small_test.availability
          small_test.target_ip_fractions small_test.target_v_fractions 1 1 1 100
        = Raise e)
  ∧ (∃ e, Schedule.__init__ small_test.optimize small_test.tutors
            small_test.days 0 0 0 0 small_test.max_shifts_by_tutor
            small_test.mode_preference small_test.bad_availability
            small_test.target_ip_fractions small_test.target_v_fractions 1 1 1 100
          = Raise e)
  ∧ (∃ e, Schedule.__init__ small_test.optimize small_test.tutors
            small_test.days 0 0 0 0 small_test.max_shifts_by_tutor
            small_test.mode_preference small_test.availability
            small_test.target_ip_fractions small_test.bad_v_fractions 1 1 1 100
          = Raise e)
  ∧ (∃ e, Schedule.__init__ small_test.optimize small_test.tutors
            small_test.days 0 0 0 0 small_test.max_shifts_by_tutor
            small_test.mode_preference small_test.availability
            small_test.target_ip_fractions small_test.target_v_fractions
            1 1 (-1) 100
          = Raise e)
  ∧ (∃ sch, small_test.facade = Ok sch)
  ∧ (¬ within_tolerance tolerance_test.narrow_fp tolerance_test.narrow_fv
     ∧ ∃ e, tolerance_test.narrow = Raise e)
  ∧ (within_tolerance tolerance_test.wide_fp tolerance_test.wide_fv
     ∧ ∃ sch, tolerance_test.wide = Ok sch).
Proof.
  split; [| split; [| split; [| split; [| split; [| split]]]]].
  - exists AssertionError.
    apply (construction_validation small_test.optimize ["Adem"; "Bebby"; "Adem"]%string
             small_test.days 0 0 0 0 small_test.max_shifts_by_tutor
             small_test.mode_preference small_test.availability
             small_test.target_ip_fractions small_test.target_v_fractions 1 1 1 100).
    apply (bool_decide_unpack _); vm_compute; exact I.
  - apply (construction_validation small_test.optimize small_test.tutors
             small_test.days 0 0 0 0 small_test.max_shifts_by_tutor
             small_test.mode_preference small_test.bad_availability
             small_test.target_ip_fractions small_test.target_v_fractions 1 1 1 100)
      with (tutor := "Bebby"%string) (day := "Sun"%string)
           (row := small_test.bad_week) (v := (1 # 4)%Q).
    + apply (bool_decide_unpack _); vm_compute; exact I.
    + apply (bool_decide_unpack _); vm_compute; exact I.
    + vm_compute; reflexivity.
    + vm_compute; reflexivity.
    + intros [H | [H | H]]; vm_compute in H; discriminate H.
  - apply (construction_validation small_test.optimize small_test.tutors
             small_test.days 0 0 0 0 small_test.max_shifts_by_tutor
             small_test.mode_preference small_test.availability
             small_test.target_ip_fractions small_test.bad_v_fractions 1 1 1 100)
      with (fp := small_test.fp) (fv := [(1 # 8)%Q; 0%Q]).
    + vm_compute; reflexivity.
    + vm_compute; reflexivity.
    + intros H. vm_compute in H. discriminate H.
  - apply (construction_validation small_test.optimize small_test.tutors
             small_test.days 0 0 0 0 small_test.max_shifts_by_tutor
             small_test.mode_preference small_test.availability
             small_test.target_ip_fractions small_test.target_v_fractions
             1 1 (-1) 100).
    right. right. left. vm_compute; reflexivity.
  - destruct small_test_valid as (Hn & Hc & Ho).
    destruct Ho as (Hm & Hpref & Hfp & Hfp0 & Hfv & Hfv0 & Htol & Hw1 & Hw2 & Hw3 & Hw4).
    exact (proj2 (proj2 (proj2 (proj2
      (construction_validation small_test.optimize small_test.tutors
         small_test.days 0 0 0 0 small_test.max_shifts_by_tutor
         small_test.mode_preference small_test.availability
         small_test.target_ip_fractions small_test.target_v_fractions 1 1 1 100))))
      small_test.S small_test.m small_test.a small_test.fp small_test.fv
      (proj1 small_test_NoDup) (proj2 small_test_NoDup) small_test_projected
      Hn Hc Hm Hpref Hfp Hfp0 Hfv Hfv0 Htol Hw1 Hw2 Hw3 Hw4).
  - assert (¬ within_tolerance tolerance_test.narrow_fp tolerance_test.narrow_fv)
      as Hnot by (intros H; vm_compute in H; discriminate H).
    split; [exact Hnot |].
    apply (construction_validation small_test.optimize tolerance_test.tutors
             tolerance_test.narrow_days 0 0 0 0 tolerance_test.max_shifts_by_tutor
             tolerance_test.mode_preference tolerance_test.availability
             tolerance_test.narrow_ip_fractions tolerance_test.narrow_v_fractions
             1 1 1 1)
      with (fp := tolerance_test.narrow_fp) (fv := tolerance_test.narrow_fv).
    + vm_compute; reflexivity.
    + vm_compute; reflexivity.
    + exact Hnot.
  - destruct tolerance_test_wide_valid as (Hn & Hc & Ho).
    destruct Ho as (Hm & Hpref & Hfp & Hfp0 & Hfv & Hfv0 & Htol & Hw1 & Hw2 & Hw3 & Hw4).
    split; [exact Htol |].
    exact (proj2 (proj2 (proj2 (proj2
      (construction_validation small_test.optimize tolerance_test.tutors
         tolerance_test.wide_days 0 0 0 0 tolerance_test.max_shifts_by_tutor
         tolerance_test.mode_preference tolerance_test.availability
         tolerance_test.wide_ip_fractions tolerance_test.wide_v_fractions
         1 1 1 1))))
      [2] [0] [[(1 # 2)%Q; 1%Q]] tolerance_test.wide_fp tolerance_test.wide_fv
      (proj1 tolerance_test_wide_NoDup) (proj2 tolerance_test_wide_NoDup)
      tolerance_test_wide_projected
      Hn Hc Hm Hpref Hfp Hfp0 Hfv Hfv0 Htol Hw1 Hw2 Hw3 Hw4).
Defined.

Lemma unwrap_then_map_spec_witness :
  let x := PyList [Leaf 1; PyList [Leaf 2; PyList []]; Leaf 3] in
  Model.__unwrap_then_map x (λ v, v * 2)
  = PyList [Leaf 2; PyList [Leaf 4; PyList []]; Leaf 6]
  ∧ leafwise (λ v, v * 2) x (PyList [Leaf 2; PyList [Leaf 4; PyList []]; Leaf 6])
  ∧ Model.__unwrap_then_map x (λ v, v) = x.
Proof.
  intros x.
  destruct (unwrap_then_map_spec (λ v, v * 2) x) as (Hrel & _ & _ & _).
  destruct (unwrap_then_map_spec (λ v : Z, v) x) as (_ & _ & _ & Hid).
  split; [reflexivity |]. split; [exact Hrel | exact Hid].
Defined.

(** ** Beyond the specification: the indexer *)

Lemma py_index_negative {A} (l : list A) (i : Z) :
  0 ≤ i < Z.of_nat (length l) → py_index l (i - Z.of_nat (length l)) = py_index l i.
Proof.
  intros Hi. unfold py_index.
  assert ((i - Z.of_nat (length l) <? 0) = true) as -> by (apply Z.ltb_lt; lia).
  assert ((i <? 0) = false) as -> by (apply Z.ltb_ge; lia).
  by replace (i - Z.of_nat (length l) + Z.of_nat (length l)) with i by lia.
Qed.

Lemma py_index_out_of_range {A} (l : list A) (i : Z) :
  Z.of_nat (length l) ≤ i ∨ i < - Z.of_nat (length l) → py_index l i = Raise IndexError.
Proof.
  intros Hi. unfold py_index. destruct (Z.ltb_spec i 0).
  - destruct Hi as [Hi | Hi]; [lia |].
    assert ((i + Z.of_nat (length l) <? 0) = true) as -> by (apply Z.ltb_lt; lia). done.
  - destruct Hi as [Hi | Hi]; [| lia].
    assert ((Z.of_nat (length l) <=? i) = true) as -> by (apply Z.leb_le; lia).
    by rewrite orb_true_r.
Qed.

Lemma py_slice_from_end {A} (l : list A) (start : Z) (stop : option Z) :
  Z.of_nat (length l) ≤ start → py_slice l (Some start) stop = [].
Proof.
  intros Hs. unfold py_slice.
  assert (slice_bound (Z.of_nat (length l)) 0 (Some start) = Z.of_nat (length l)) as ->.
  { unfold slice_bound. destruct (Z.ltb_spec start 0); lia. }
  rewrite Nat2Z.id, drop_all. by rewrite take_nil.
Qed.

Section indexer_more.
Context (self : Model.t) (mode N_T N_D : Z) (f : Z → Z → Var).
Hypothesis Hmode : is_mode mode.
Hypothesis Hstatus : Model.status self ≠ Model.INFEASIBLE.
Hypothesis Hvars : vars_of self mode = matrix_of N_T N_D f.
Hypothesis HT : 0 < N_T.
Hypothesis HD : 0 < N_D.

Lemma rows_of_length : length (map (λ row : list Var, PyList (map Leaf row))
                                   (matrix_of N_T N_D f)) = Z.to_nat N_T.
Proof using Type. by rewrite length_map, matrix_of_length. Qed.

Lemma getitem_all_all :
  Model.__getitem__ self (mode, All, All)
  = Ok (Some (Model.resolve self
                (PyList (map (λ t, PyList (map (λ d, Leaf (f t d)) (range N_D)))
                             (range N_T))))).
Proof using Type*.
  rewrite (getitem_prefix self mode N_T N_D f Hmode Hstatus Hvars).
  assert (subscript (Model.rows_of (matrix_of N_T N_D f)) All
          = Ok (Model.rows_of (matrix_of N_T N_D f))) as ->.
  { unfold All, subscript, Model.rows_of. by rewrite py_slice_all. }
  rewrite obind_ret. unfold Model.rows_of, matrix_of. rewrite map_map.
  assert (comprehension (λ row : nested Var, subscript row All)
            (map (λ t, PyList (map Leaf (map (f t) (range N_D)))) (range N_T))
          = Ok (map (λ t, PyList (map (λ d, Leaf (f t d)) (range N_D))) (range N_T)))
    as Hc.
  { generalize (range N_T) as ts. induction ts as [| t0 ts IH]; [done |].
    simpl map. rewrite comprehension_cons.
    assert (subscript (PyList (map Leaf (map (f t0) (range N_D)))) All
            = Ok (PyList (map (λ d, Leaf (f t0 d)) (range N_D)))) as ->.
    { unfold All, subscript. by rewrite py_slice_all, map_map. }
    by rewrite obind_ret, IH. }
  destruct (range_nonempty N_T HT) as (t0 & ts & Hr).
  rewrite Hr in *. simpl map in *. cbv iota. by rewrite Hc.
Qed.

Lemma getitem_negative (t d : Z) :
  0 ≤ t < N_T → 0 ≤ d < N_D →
  Model.__getitem__ self (mode, Idx (t - N_T), Idx (d - N_D))
  = Model.__getitem__ self (mode, Idx t, Idx d).
Proof using Type*.
  intros Ht Hd.
  rewrite !(getitem_prefix self mode N_T N_D f Hmode Hstatus Hvars).
  assert (subscript (Model.rows_of (matrix_of N_T N_D f)) (Idx (t - N_T))
          = subscript (Model.rows_of (matrix_of N_T N_D f)) (Idx t)) as ->.
  { unfold Model.rows_of, subscript.
    rewrite <- (py_index_negative _ t) by (rewrite rows_of_length; lia).
    by rewrite rows_of_length, Z2Nat.id by lia. }
  rewrite (subscript_rows_idx N_T N_D f t Ht), !obind_ret.
  destruct (range_nonempty N_D HD) as (d0 & ds & Hr).
  assert (length (map Leaf (map (f t) (range N_D))) = Z.to_nat N_D) as Hlen
    by (by rewrite !length_map, length_range).
  rewrite Hr in *. simpl map in *. cbv iota. unfold subscript.
  rewrite <- (py_index_negative _ d) by (rewrite Hlen; lia).
  by rewrite Hlen, Z2Nat.id by lia.
Qed.

Lemma getitem_tutor_out_of_range (t : Z) (days : selector) :
  N_T ≤ t ∨ t < - N_T →
  Model.__getitem__ self (mode, Idx t, days) = Raise IndexError.
Proof using Type*.
  intros Ht. rewrite (getitem_prefix self mode N_T N_D f Hmode Hstatus Hvars).
  assert (subscript (Model.rows_of (matrix_of N_T N_D f)) (Idx t) = Raise IndexError)
    as ->; [| done].
  unfold Model.rows_of, subscript.
  apply py_index_out_of_range. rewrite rows_of_length. lia.
Qed.

Lemma getitem_day_out_of_range (t d : Z) :
  0 ≤ t < N_T → N_D ≤ d ∨ d < - N_D →
  Model.__getitem__ self (mode, Idx t, Idx d) = Raise IndexError.
Proof using Type*.
  intros Ht Hd. rewrite (getitem_prefix self mode N_T N_D f Hmode Hstatus Hvars).
  rewrite (subscript_rows_idx N_T N_D f t Ht), obind_ret.
  destruct (range_nonempty N_D HD) as (d0 & ds & Hr).
  assert (length (map Leaf (map (f t) (range N_D))) = Z.to_nat N_D) as Hlen
    by (by rewrite !length_map, length_range).
  rewrite Hr in *. simpl map in *. cbv iota. unfold subscript.
  rewrite py_index_out_of_range; [done |]. rewrite Hlen. lia.
Qed.

Lemma getitem_empty_slice (start : Z) (stop : option Z) (days : selector) :
  N_T ≤ start →
  Model.__getitem__ self (mode, Slice (Some start) stop, days)
  = Ok (Some (Model.resolve self (PyList []))).
Proof using Type*.
  intros Hs. rewrite (getitem_prefix self mode N_T N_D f Hmode Hstatus Hvars).
  assert (subscript (Model.rows_of (matrix_of N_T N_D f)) (Slice (Some start) stop)
          = Ok (PyList [])) as ->; [| done].
  unfold Model.rows_of, subscript.
  rewrite py_slice_from_end; [done |]. rewrite rows_of_length. lia.
Qed.
End indexer_more.

Lemma resolve_values (self : Model.t) (r : nested Var) :
  Model.status self = Model.OPTIMAL →
  Model.resolve self r = Values (Model.__unwrap_then_map r (solved_value self)).
Proof. intros H. unfold Model.resolve. by rewrite H. Qed.

Lemma unwrap_row {A B C} (g : C → A) (h : A → B) (l : list C) :
  Model.__unwrap_then_map (PyList (map (λ x, Leaf (g x)) l)) h
  = PyList (map (λ x, Leaf (h (g x))) l).
Proof.
  cbn [Model.__unwrap_then_map]. f_equal.
  induction l as [| x l IH]; [done |]. cbn [map Model.__unwrap_then_map]. by f_equal.
Qed.

Lemma unwrap_matrix {A B C D} (g : C → D → A) (h : A → B) (l : list C) (l' : list D) :
  Model.__unwrap_then_map (PyList (map (λ x, PyList (map (λ y, Leaf (g x y)) l')) l)) h
  = PyList (map (λ x, PyList (map (λ y, Leaf (h (g x y))) l')) l).
Proof.
  cbn [Model.__unwrap_then_map]. f_equal.
  induction l as [| x l IH]; [done |]. cbn [map]. f_equal; [| done].
  apply (unwrap_row (g x) h l').
Qed.

Section constructed_indexer.
Context (optimize : GModel → Z * (Var → Q)).
Context (N_T N_D lp lv : Z) (S : list Z) (s sp : Z) (a : list (list Q))
        (m : list Z) (fp fv : list Q) (w1 w2 w3 w4 : Q).

Local Abbreviation init :=
  (Model.__init__ optimize N_T N_D lp lv S s sp a m fp fv w1 w2 w3 w4).

Lemma constructed_engine (self : Model.t) (mode : Z) :
  init = (Ok tt, self) → is_mode mode →
  0 < N_T ∧ 0 < N_D
  ∧ vars_of self mode = matrix_of N_T N_D (handle N_T N_D mode)
  ∧ (Model.status self = Model.OPTIMAL ∨ Model.status self = Model.INFEASIBLE).
Proof.
  intros Hinit Hmode. apply init_Ok_inv in Hinit as [((HT & HD) & _) ->].
  split; [done |]. split; [done |]. split.
  - by destruct Hmode as [-> | ->].
  - unfold solved. simpl. destruct (_ =? GRB_OPTIMAL); auto.
Qed.

(** X1. On a solved engine the indexer returns the integer values of the
    decision variables in the shape of the selectors: the whole matrix for
    [self[mode,:,:]] (entry [t][d] is the value of tutor [t] on day [d]), a
    row for [self[mode,t,:]], a column for [self[mode,:,d]] and a single
    integer for [self[mode,t,d]]. *)
Theorem indexer_reports_solved_values (self : Model.t) (mode : Z) :
  init = (Ok tt, self) → Model.status self = Model.OPTIMAL → is_mode mode →
  let h := handle N_T N_D mode in
  Model.__getitem__ self (mode, All, All)
  = Ok (Some (Values (values_matrix self N_T N_D h)))
  ∧ (∀ t, 0 ≤ t < N_T →
       Model.__getitem__ self (mode, Idx t, All)
       = Ok (Some (Values (PyList (map (λ d, Leaf (solved_value self (h t d)))
                                       (range N_D))))))
  ∧ (∀ d, 0 ≤ d < N_D →
       Model.__getitem__ self (mode, All, Idx d)
       = Ok (Some (Values (PyList (map (λ t, Leaf (solved_value self (h t d)))
                                       (range N_T))))))
  ∧ (∀ t d, 0 ≤ t < N_T → 0 ≤ d < N_D →
       Model.__getitem__ self (mode, Idx t, Idx d)
       = Ok (Some (Values (Leaf (solved_value self (h t d)))))).
Proof.
  intros Hinit Hopt Hmode h.
  destruct (constructed_engine self mode Hinit Hmode) as (HT & HD & Hvars & _).
  assert (Model.status self ≠ Model.INFEASIBLE) as Hst by (by rewrite Hopt).
  split; [| split; [| split]].
  - rewrite (getitem_all_all self mode N_T N_D h Hmode Hst Hvars HT HD).
    by rewrite (resolve_values self _ Hopt), unwrap_matrix.
  - intros t Ht.
    rewrite (getitem_row self mode N_T N_D h Hmode Hst Hvars t Ht HD).
    by rewrite (resolve_values self _ Hopt), unwrap_row.
  - intros d Hd.
    rewrite (getitem_column self mode N_T N_D h Hmode Hst Hvars d HT Hd).
    by rewrite (resolve_values self _ Hopt), unwrap_row.
  - intros t d Ht Hd.
    rewrite (getitem_cell self mode N_T N_D h Hmode Hst Hvars t d Ht Hd).
    by rewrite (resolve_values self _ Hopt).
Qed.

(** X2. Indices of the indexer follow Python's convention: on a constructed
    engine a negative tutor or day index counts from the end, so
    [self[mode,t-N_T,d-N_D]] is [self[mode,t,d]]. *)
Theorem indexer_negative_indices (self : Model.t) (mode t d : Z) :
  init = (Ok tt, self) → is_mode mode → 0 ≤ t < N_T → 0 ≤ d < N_D →
  Model.__getitem__ self (mode, Idx (t - N_T), Idx (d - N_D))
  = Model.__getitem__ self (mode, Idx t, Idx d).
Proof.
  intros Hinit Hmode Ht Hd.
  destruct (constructed_engine self mode Hinit Hmode) as (HT & HD & Hvars & Hst).
  destruct Hst as [Hst | Hst].
  - apply (getitem_negative self mode N_T N_D (handle N_T N_D mode) Hmode);
      try done. by rewrite Hst.
  - by rewrite !getitem_infeasible.
Qed.

(** X3. On a solved engine a tutor index outside [-N_T, N_T) raises
    [IndexError] whatever the day selector, and so does a day index outside
    [-N_D, N_D) for a valid tutor index; on an infeasible engine the same
    lookups return [None] without any bounds check. *)
Theorem indexer_bounds (self : Model.t) (mode : Z) :
  init = (Ok tt, self) → is_mode mode →
  (Model.status self = Model.OPTIMAL →
     (∀ t days, N_T ≤ t ∨ t < - N_T →
        Model.__getitem__ self (mode, Idx t, days) = Raise IndexError)
     ∧ (∀ t d, 0 ≤ t < N_T → N_D ≤ d ∨ d < - N_D →
          Model.__getitem__ self (mode, Idx t, Idx d) = Raise IndexError))
  ∧ (Model.status self = Model.INFEASIBLE →
       ∀ t d, Model.__getitem__ self (mode, Idx t, Idx d) = Ok None).
Proof.
  intros Hinit Hmode.
  destruct (constructed_engine self mode Hinit Hmode) as (HT & HD & Hvars & _).
  split.
  - intros Hopt.
    assert (Model.status self ≠ Model.INFEASIBLE) as Hst by (by rewrite Hopt).
    split.
    + intros t days Ht.
      by apply (getitem_tutor_out_of_range self mode N_T N_D (handle N_T N_D mode)
                  Hmode Hst Hvars HT HD).
    + intros t d Ht Hd.
      by apply (getitem_day_out_of_range self mode N_T N_D (handle N_T N_D mode)
                  Hmode Hst Hvars HT HD).
  - intros Hinf t d. by apply getitem_infeasible.
Qed.

(** X4. A tutor slice that selects no tutor yields the empty list without
    looking at the day selector: on a solved engine [self[mode,start:,days]]
    with [start >= N_T] is [[]] even for a day index that is out of range. *)
Theorem indexer_empty_slice (self : Model.t) (mode start : Z) (stop : option Z)
    (days : selector) :
  init = (Ok tt, self) → Model.status self = Model.OPTIMAL → is_mode mode →
  N_T ≤ start →
  Model.__getitem__ self (mode, Slice (Some start) stop, days)
  = Ok (Some (Values (PyList []))).
Proof.
  intros Hinit Hopt Hmode Hstart.
  destruct (constructed_engine self mode Hinit Hmode) as (HT & HD & Hvars & _).
  assert (Model.status self ≠ Model.INFEASIBLE) as Hst by (by rewrite Hopt).
  rewrite (getitem_empty_slice self mode N_T N_D (handle N_T N_D mode) Hmode Hst
             Hvars HT HD start stop days Hstart).
  by rewrite (resolve_values self _ Hopt).
Qed.
End constructed_indexer.

(** The engine of the small test, as its constructor leaves it. *)
Lemma small_test_engine :
  Model.__init__ small_test.optimize 3 2 0 0 small_test.S 0 0 small_test.a
    small_test.m small_test.fp small_test.fv 1 1 1 100
  = (Ok tt, Schedule.__model small_test.schedule).
Proof.
  exact (init_valid small_test.optimize 3 2 0 0 small_test.S 0 0 small_test.a
           small_test.m small_test.fp small_test.fv 1 1 1 100 small_test_valid).
Defined.

Lemma small_test_engine_optimal :
  Model.status (Schedule.__model small_test.schedule) = Model.OPTIMAL.
Proof. reflexivity. Defined.

Lemma virtual_is_mode : is_mode Model.VIRTUAL.
Proof. right. reflexivity. Defined.

Lemma in_person_is_mode : is_mode Model.IN_PERSON.
Proof. left. reflexivity. Defined.

Lemma indexer_reports_solved_values_witness :
  ∃ self,
    Model.__init__ small_test.optimize 3 2 0 0 small_test.S 0 0 small_test.a
      small_test.m small_test.fp small_test.fv 1 1 1 100 = (Ok tt, self)
    ∧ Model.status self = Model.OPTIMAL
    ∧ is_mode Model.VIRTUAL
    ∧ Model.__getitem__ self (Model.VIRTUAL, All, All)
      = Ok (Some (Values (values_matrix self 3 2 (handle 3 2 Model.VIRTUAL))))
    ∧ (∀ t, 0 ≤ t < 3 →
         Model.__getitem__ self (Model.VIRTUAL, Idx t, All)
         = Ok (Some (Values (PyList
             (map (λ d, Leaf (solved_value self (handle 3 2 Model.VIRTUAL t d)))
                  (range 2))))))
    ∧ (∀ d, 0 ≤ d < 2 →
         Model.__getitem__ self (Model.VIRTUAL, All, Idx d)
         = Ok (Some (Values (PyList
             (map (λ t, Leaf (solved_value self (handle 3 2 Model.VIRTUAL t d)))
                  (range 3))))))
    ∧ (∀ t d, 0 ≤ t < 3 → 0 ≤ d < 2 →
         Model.__getitem__ self (Model.VIRTUAL, Idx t, Idx d)
         = Ok (Some (Values (Leaf (solved_value self (handle 3 2 Model.VIRTUAL t d)))))).
Proof.
  exists (Schedule.__model small_test.schedule).
  split; [exact small_test_engine |].
  split; [exact small_test_engine_optimal |].
  split; [exact virtual_is_mode |].
  exact (indexer_reports_solved_values small_test.optimize 3 2 0 0 small_test.S 0 0
           small_test.a small_test.m small_test.fp small_test.fv 1 1 1 100
           (Schedule.__model small_test.schedule) Model.VIRTUAL
           small_test_engine small_test_engine_optimal virtual_is_mode).
Defined.

Lemma indexer_negative_indices_witness :
  ∃ self,
    Model.__init__ small_test.optimize 3 2 0 0 small_test.S 0 0 small_test.a
      small_test.m small_test.fp small_test.fv 1 1 1 100 = (Ok tt, self)
    ∧ is_mode Model.IN_PERSON ∧ 0 ≤ 2 < 3 ∧ 0 ≤ 1 < 2
    ∧ Model.__getitem__ self (Model.IN_PERSON, Idx (2 - 3), Idx (1 - 2))
      = Model.__getitem__ self (Model.IN_PERSON, Idx 2, Idx 1).
Proof.
  exists (Schedule.__model small_test.schedule).
  split; [exact small_test_engine |].
  split; [exact in_person_is_mode |].
  split; [lia |]. split; [lia |].
  apply (indexer_negative_indices small_test.optimize 3 2 0 0 small_test.S 0 0
           small_test.a small_test.m small_test.fp small_test.fv 1 1 1 100
           (Schedule.__model small_test.schedule) Model.IN_PERSON 2 1
           small_test_engine in_person_is_mode); lia.
Defined.

Lemma indexer_bounds_witness :
  ∃ self,
    Model.__init__ small_test.optimize 3 2 0 0 small_test.S 0 0 small_test.a
      small_test.m small_test.fp small_test.fv 1 1 1 100 = (Ok tt, self)
    ∧ is_mode Model.IN_PERSON
    ∧ (Model.status self = Model.OPTIMAL →
         (∀ t days, 3 ≤ t ∨ t < - 3 →
            Model.__getitem__ self (Model.IN_PERSON, Idx t, days) = Raise IndexError)
         ∧ (∀ t d, 0 ≤ t < 3 → 2 ≤ d ∨ d < - 2 →
              Model.__getitem__ self (Model.IN_PERSON, Idx t, Idx d)
              = Raise IndexError))
    ∧ (Model.status self = Model.INFEASIBLE →
         ∀ t d, Model.__getitem__ self (Model.IN_PERSON, Idx t, Idx d) = Ok None).
Proof.
  exists (Schedule.__model small_test.schedule).
  split; [exact small_test_engine |].
  split; [exact in_person_is_mode |].
  exact (indexer_bounds small_test.optimize 3 2 0 0 small_test.S 0 0
           small_test.a small_test.m small_test.fp small_test.fv 1 1 1 100
           (Schedule.__model small_test.schedule) Model.IN_PERSON
           small_test_engine in_person_is_mode).
Defined.

Lemma indexer_empty_slice_witness :
  ∃ self,
    Model.__init__ small_test.optimize 3 2 0 0 small_test.S 0 0 small_test.a
      small_test.m small_test.fp small_test.fv 1 1 1 100 = (Ok tt, self)
    ∧ Model.status self = Model.OPTIMAL
    ∧ is_mode Model.VIRTUAL ∧ 3 ≤ 5
    ∧ Model.__getitem__ self (Model.VIRTUAL, Slice (Some 5) None, Idx 7)
      = Ok (Some (Values (PyList []))).
Proof.
  exists (Schedule.__model small_test.schedule).
  split; [exact small_test_engine |].
  split; [exact small_test_engine_optimal |].
  split; [exact virtual_is_mode |].
  split; [lia |].
  apply (indexer_empty_slice small_test.optimize 3 2 0 0 small_test.S 0 0
           small_test.a small_test.m small_test.fp small_test.fv 1 1 1 100
           (Schedule.__model small_test.schedule) Model.VIRTUAL 5 None (Idx 7)
           small_test_engine small_test_engine_optimal virtual_is_mode); lia.
Defined.

(** ** Beyond the specification: the constructor of the engine *)

Lemma lookup_concat_rows {A B} (g : B → list A) (n : nat) (ts : list B) (i j : nat) :
  (∀ t, length (g t) = n) → (j < n)%nat →
  concat (map g ts) !! (i * n + j)%nat = ts !! i ≫= λ t, g t !! j.
Proof.
  intros Hg Hj. revert i. induction ts as [| t ts IH]; intros i; [done |].
  simpl concat. destruct i as [| i]; simpl.
  - rewrite lookup_app_l by (rewrite Hg; lia). done.
  - rewrite lookup_app_r by (rewrite Hg; lia). rewrite Hg.
    replace (n + i * n + j - n)%nat with (i * n + j)%nat by lia. apply IH.
Qed.

Lemma lookup_concat_matrix_of {A} (N_T N_D : Z) (f : Z → Z → A) (t d : Z) :
  0 ≤ t < N_T → 0 ≤ d < N_D →
  concat (matrix_of N_T N_D f) !! Z.to_nat (t * N_D + d) = Some (f t d).
Proof.
  intros Ht Hd. unfold matrix_of.
  replace (Z.to_nat (t * N_D + d)) with (Z.to_nat t * Z.to_nat N_D + Z.to_nat d)%nat
    by nia.
  rewrite (lookup_concat_rows _ (Z.to_nat N_D)).
  - rewrite range_lookup by done. simpl. by apply matrix_of_lookup2.
  - intros t'. by rewrite length_map, length_range.
  - lia.
Qed.

(** Every position of the concatenated matrix is the position of a cell. *)
Lemma concat_matrix_of_cell {A} (N_T N_D : Z) (f : Z → Z → A) (i : nat) (x : A) :
  concat (matrix_of N_T N_D f) !! i = Some x →
  ∃ t d, 0 ≤ t < N_T ∧ 0 ≤ d < N_D ∧ i = Z.to_nat (t * N_D + d) ∧ x = f t d.
Proof.
  intros Hx. pose proof (lookup_lt_Some _ _ _ Hx) as Hlt.
  rewrite length_concat_matrix_of in Hlt.
  assert (0 < N_D) as HD by nia.
  exists (Z.of_nat i / N_D), (Z.of_nat i mod N_D).
  pose proof (Z.div_mod (Z.of_nat i) N_D ltac:(lia)) as Hdm.
  pose proof (Z.mod_pos_bound (Z.of_nat i) N_D HD) as Hmod.
  assert (0 ≤ Z.of_nat i / N_D < N_T) as Hdiv.
  { split; [apply Z.div_pos; lia |]. apply Z.div_lt_upper_bound; nia. }
  assert (i = Z.to_nat (Z.of_nat i / N_D * N_D + Z.of_nat i mod N_D)) as Hi by lia.
  split; [done |]. split; [done |]. split; [done |].
  rewrite Hi in Hx. rewrite lookup_concat_matrix_of in Hx by done. congruence.
Qed.

Lemma length_flat_map_sum {A B} (g : A → list B) (l : list A) :
  length (flat_map g l) = sum_list_with (λ x, length (g x)) l.
Proof.
  induction l as [| x l IH]; [done |]. simpl. by rewrite length_app, IH.
Qed.

Lemma sum_list_with_const {A} (c : nat) (l : list A) :
  sum_list_with (λ _, c) l = (length l * c)%nat.
Proof. induction l as [| x l IH]; simpl; lia. Qed.

Lemma sum_list_with_plus {A} (g h : A → nat) (l : list A) :
  sum_list_with (λ x, g x + h x)%nat l = (sum_list_with g l + sum_list_with h l)%nat.
Proof. induction l as [| x l IH]; simpl; lia. Qed.

Lemma sum_list_with_filter {A} (c : A → bool) (l : list A) :
  sum_list_with (λ x, if c x then 2 else 1)%nat l
  = (length l + length (List.filter c l))%nat.
Proof.
  induction l as [| x l IH]; [done |]. simpl. destruct (c x); simpl; lia.
Qed.

Lemma filter_range2 (N_T N_D : Z) (c : Z → Z → bool) :
  length (List.filter (λ '(t, d), c t d) (range2 N_T N_D))
  = sum_list_with (λ t, length (List.filter (c t) (range N_D))) (range N_T).
Proof.
  unfold range2. induction (range N_T) as [| t ts IH]; [done |].
  rewrite bind_cons, List.filter_app, length_app, IH. simpl. f_equal.
  clear IH. generalize (range N_D) as ds.
  induction ds as [| d ds IHd]; [done |]. simpl.
  destruct (c t d); simpl; [f_equal |]; exact IHd.
Qed.

Lemma length_cell_row (N_T N_D : Z) (a : list (list Q)) (t : Z) (ds : list Z) :
  length (flat_map (cell_constraints N_T N_D a t) ds)
  = (length ds
     + length (List.filter (λ d, Qeq_bool (a_at a t d) Model.UNAVAILABLE) ds))%nat.
Proof.
  induction ds as [| d ds IH]; [done |].
  cbn [flat_map List.filter]. rewrite length_app, IH. unfold cell_constraints.
  destruct (Qeq_bool _ _); simpl; lia.
Qed.

Lemma length_tutor_rows (N_T N_D s sp : Z) (S : list Z) (a : list (list Q))
    (ts : list Z) :
  length (flat_map (tutor_constraints N_T N_D s sp S a) ts)
  = (3 * length ts + length ts * Z.to_nat N_D
     + sum_list_with
         (λ t, length (List.filter (λ d, Qeq_bool (a_at a t d) Model.UNAVAILABLE)
                                   (range N_D))) ts)%nat.
Proof.
  induction ts as [| t ts IH]; [done |].
  cbn [flat_map sum_list_with]. rewrite length_app, IH. unfold tutor_constraints.
  rewrite length_app, length_cell_row, length_range. simpl. lia.
Qed.

Lemma length_all_constraints (N_T N_D lp lv s sp : Z) (S : list Z) (a : list (list Q)) :
  length (all_constraints N_T N_D lp lv s sp S a)
  = (3 * Z.to_nat N_T + Z.to_nat N_T * Z.to_nat N_D + unavailable_cells N_T N_D a
     + 2 * Z.to_nat N_D)%nat.
Proof.
  unfold all_constraints. rewrite length_app, length_tutor_rows, length_range.
  rewrite length_flat_map_sum. unfold day_constraints. simpl length.
  rewrite sum_list_with_const, length_range. unfold unavailable_cells.
  rewrite (filter_range2 N_T N_D (λ t d, Qeq_bool (a_at a t d) Model.UNAVAILABLE)).
  lia.
Qed.

Lemma index2_matrix_of_Ok {A} (N_T N_D : Z) (f : Z → Z → A) (t d : Z) :
  0 ≤ t < N_T → 0 ≤ d < N_D → index2 (matrix_of N_T N_D f) t d = Ok (f t d).
Proof. intros Ht Hd. by apply index2_matrix_of. Qed.

Section constructed_program.
Context (optimize : GModel → Z * (Var → Q)).
Context (N_T N_D lp lv : Z) (S : list Z) (s sp : Z) (a : list (list Q))
        (m : list Z) (fp fv : list Q) (w1 w2 w3 w4 : Q).

Local Abbreviation init :=
  (Model.__init__ optimize N_T N_D lp lv S s sp a m fp fv w1 w2 w3 w4).

(** X5. A successful construction has added exactly [2*N_T*N_D] variables to
    the solver model, all binary and pairwise distinct: first [xp[t][d]] in
    row-major order, named [xp_(t,d)], then [xv[t][d]] in the same order,
    named [xv_(t,d)]. *)
Theorem decision_variables_created (self : Model.t) :
  init = (Ok tt, self) →
  let vs := gvars (Model.model self) in
  Z.of_nat (length vs) = 2 * N_T * N_D
  ∧ NoDup vs
  ∧ (∀ i v, vs !! i = Some v → var_index v = i ∧ var_vtype v = GRB_BINARY)
  ∧ ∀ t d, 0 ≤ t < N_T → 0 ≤ d < N_D →
      ∃ p v,
        index2 (Model.__xp self) t d = Ok p
        ∧ index2 (Model.__xv self) t d = Ok v
        ∧ vs !! Z.to_nat (t * N_D + d) = Some p
        ∧ vs !! Z.to_nat (N_T * N_D + t * N_D + d) = Some v
        ∧ var_name p = ("xp_(" +:+ pretty t +:+ "," +:+ pretty d +:+ ")")%string
        ∧ var_name v = ("xv_(" +:+ pretty t +:+ "," +:+ pretty d +:+ ")")%string.
Proof.
  intros Hinit vs. apply init_Ok_inv in Hinit as [((HT & HD) & _) ->].
  subst vs. unfold solved, program. cbn [Model.model gvars Model.__xp Model.__xv].
  set (xp := matrix_of N_T N_D (xp_var N_D)).
  set (xv := matrix_of N_T N_D (xv_var N_T N_D)).
  assert (length (concat xp) = Z.to_nat (N_T * N_D)) as Hlen_p.
  { unfold xp. rewrite length_concat_matrix_of. nia. }
  assert (length (concat xv) = Z.to_nat (N_T * N_D)) as Hlen_v.
  { unfold xv. rewrite length_concat_matrix_of. nia. }
  assert (∀ i v, (concat xp ++ concat xv) !! i = Some v
                 → var_index v = i ∧ var_vtype v = GRB_BINARY) as Hpos.
  { intros i v Hv. apply lookup_app_Some in Hv as [Hv | [Hge Hv]].
    - apply concat_matrix_of_cell in Hv as (t & d & _ & _ & -> & ->). done.
    - apply concat_matrix_of_cell in Hv as (t & d & Ht & Hd & Hi & ->).
      split; [| done]. unfold xv_var. cbn [var_index].
      rewrite Hlen_p in Hge, Hi. nia. }
  split; [rewrite length_app, Hlen_p, Hlen_v; nia |]. split; [| split; [exact Hpos |]].
  - apply NoDup_alt. intros i j v Hi Hj.
    apply Hpos in Hi as [<- _]. by apply Hpos in Hj as [<- _].
  - intros t d Ht Hd. exists (xp_var N_D t d), (xv_var N_T N_D t d).
    split; [by apply index2_matrix_of_Ok |]. split; [by apply index2_matrix_of_Ok |].
    split; [| split; [| done]].
    + rewrite lookup_app_l by (rewrite Hlen_p; nia).
      by apply lookup_concat_matrix_of.
    + rewrite lookup_app_r by (rewrite Hlen_p; nia). rewrite Hlen_p.
      replace (Z.to_nat (N_T * N_D + t * N_D + d) - Z.to_nat (N_T * N_D))%nat
        with (Z.to_nat (t * N_D + d)) by nia.
      by apply lookup_concat_matrix_of.
Qed.

(** X6. A successful construction has added, in total, three constraints
    per tutor, one constraint per tutor and day, one more for every
    unavailable cell of the availability matrix, and two per day. *)
Theorem constraints_counted (self : Model.t) :
  init = (Ok tt, self) →
  length (gconstrs (Model.model self))
  = (3 * Z.to_nat N_T + Z.to_nat N_T * Z.to_nat N_D + unavailable_cells N_T N_D a
     + 2 * Z.to_nat N_D)%nat.
Proof.
  intros Hinit. apply init_Ok_inv in Hinit as [_ ->].
  apply length_all_constraints.
Qed.
End constructed_program.

(** ** Beyond the specification: the values of a solved engine *)

Lemma py_int_inject_Z (q : Q) (k : Z) : (q == inject_Z k)%Q → py_int q = k.
Proof.
  unfold Qeq, py_int. simpl. rewrite Z.mul_1_r. intros ->. by apply Z.quot_mul.
Qed.

Lemma py_int_small (q : Q) : (- (1) < q)%Q → (q < 1)%Q → py_int q = 0.
Proof.
  unfold Qlt, py_int. simpl. intros Hlo Hhi.
  destruct (Z.le_gt_cases 0 (Qnum q)) as [Hq | Hq].
  - apply Z.quot_small. lia.
  - rewrite <- (Z.opp_involutive (Qnum q)), Z.quot_opp_l by lia.
    rewrite Z.quot_small by lia. done.
Qed.

Lemma py_int_floor (q : Q) :
  (0 <= q)%Q → (inject_Z (py_int q) <= q)%Q ∧ (q < inject_Z (py_int q) + 1)%Q.
Proof.
  unfold Qle, Qlt, py_int. simpl. rewrite !Z.mul_1_r. intros Hq.
  rewrite Z.quot_div_nonneg by lia.
  pose proof (Z.mul_div_le (Qnum q) (Z.pos (Qden q)) ltac:(lia)).
  pose proof (Z.mul_succ_div_gt (Qnum q) (Z.pos (Qden q)) ltac:(lia)).
  lia.
Qed.

Lemma total_indicator {A} (f : A → Z) (l : list A) :
  (∀ x, x ∈ l → f x = 0 ∨ f x = 1) →
  (total (map (λ x, inject_Z (f x)) l)
   == inject_Z (Z.of_nat (length (List.filter (λ x, f x =? 1) l))))%Q.
Proof.
  induction l as [| x l IH]; intros H; [reflexivity |].
  simpl. rewrite IH by (intros y Hy; apply H; by right).
  destruct (H x ltac:(left)) as [-> | ->]; simpl.
  - ring.
  - rewrite <- inject_Z_plus. apply inject_Z_injective. lia.
Qed.

Lemma big_sum_indicator (n : Z) (f : Z → Z) :
  (∀ i, 0 ≤ i < n → f i = 0 ∨ f i = 1) →
  (big_sum n (λ i, inject_Z (f i))
   == inject_Z (Z.of_nat (length (List.filter (λ i, f i =? 1) (range n)))))%Q.
Proof.
  intros H. apply total_indicator. intros i Hi. apply H. by apply elem_of_range.
Qed.

Lemma elem_of_concat_matrix_of {A} (N_T N_D : Z) (f : Z → Z → A) (t d : Z) :
  0 ≤ t < N_T → 0 ≤ d < N_D → f t d ∈ concat (matrix_of N_T N_D f).
Proof.
  intros Ht Hd. eapply list_elem_of_lookup_2. by apply lookup_concat_matrix_of.
Qed.

Section solved_program.
Context (optimize : GModel → Z * (Var → Q)).
Context (N_T N_D lp lv : Z) (S : list Z) (s sp : Z) (a : list (list Q))
        (m : list Z) (fp fv : list Q) (w1 w2 w3 w4 : Q).

Local Abbreviation init :=
  (Model.__init__ optimize N_T N_D lp lv S s sp a m fp fv w1 w2 w3 w4).
Local Abbreviation prog := (program N_T N_D lp lv S s sp a m fp fv w1 w2 w3 w4).
Local Abbreviation engine := (solved optimize N_T N_D lp lv S s sp a m fp fv w1 w2 w3 w4).

(** The values that the solver has returned for a sound optimum. *)
Lemma sound_values :
  Model.status engine = Model.OPTIMAL → sound_on optimize prog →
  hard_constraints N_T N_D lp lv S s sp a
    (λ t d, (optimize prog).2 (xp_var N_D t d))
    (λ t d, (optimize prog).2 (xv_var N_T N_D t d))
  ∧ binary N_T N_D (optimize prog).2.
Proof.
  intros Hopt Hsound. unfold solved in Hopt. cbn [Model.status] in Hopt.
  destruct (Z.eqb_spec (optimize prog).1 GRB_OPTIMAL) as [Hcode | _]; [| done].
  destruct (Hsound Hcode) as [Hsat Hbin]. split.
  - by apply sat_all_constraints.
  - intros t d Ht Hd. split; (apply Hbin; [| done]); cbn [program gvars];
      apply elem_of_app; [left | right]; by apply elem_of_concat_matrix_of.
Qed.

Lemma solved_value_binary (t d : Z) :
  Model.status engine = Model.OPTIMAL → sound_on optimize prog →
  0 ≤ t < N_T → 0 ≤ d < N_D →
  let xp := solved_value engine (xp_var N_D t d) in
  let xv := solved_value engine (xv_var N_T N_D t d) in
  (xp = 0 ∨ xp = 1) ∧ (xv = 0 ∨ xv = 1)
  ∧ ((optimize prog).2 (xp_var N_D t d) == inject_Z xp)%Q
  ∧ ((optimize prog).2 (xv_var N_T N_D t d) == inject_Z xv)%Q.
Proof.
  intros Hopt Hsound Ht Hd xp xv.
  destruct (sound_values Hopt Hsound) as [_ Hbin].
  destruct (Hbin t d Ht Hd) as [Hp Hv]. subst xp xv. unfold solved_value.
  cbn [solved Model.model gX].
  assert (∀ q : Q, (q == 0 ∨ q == 1)%Q
                   → (py_int q = 0 ∨ py_int q = 1) ∧ (q == inject_Z (py_int q))%Q) as Hq.
  { intros q [H | H].
    - rewrite (py_int_inject_Z q 0 H). split; [by left | done].
    - rewrite (py_int_inject_Z q 1 H). split; [by right | done]. }
  destruct (Hq _ Hp) as [? ?]. destruct (Hq _ Hv) as [? ?]. done.
Qed.

Lemma hard_constraints_ext (xp xv xp' xv' : Z → Z → Q) :
  (∀ t d, 0 ≤ t < N_T → 0 ≤ d < N_D → (xp t d == xp' t d)%Q ∧ (xv t d == xv' t d)%Q) →
  hard_constraints N_T N_D lp lv S s sp a xp xv →
  hard_constraints N_T N_D lp lv S s sp a xp' xv'.
Proof.
  intros Hext (H1 & H2 & H3 & H4 & H5 & H6).
  assert (∀ t, 0 ≤ t < N_T →
            (big_sum N_D (λ d, xp' t d + xv' t d)
             == big_sum N_D (λ d, xp t d + xv t d))%Q) as Hrow.
  { intros t Ht. apply big_sum_ext. intros d Hd.
    destruct (Hext t d Ht Hd) as [-> ->]. reflexivity. }
  assert (∀ t, 0 ≤ t < N_T →
            (big_sum N_D (λ d, xp' t d) == big_sum N_D (λ d, xp t d))%Q) as Hrow_p.
  { intros t Ht. apply big_sum_ext. intros d Hd.
    destruct (Hext t d Ht Hd) as [-> _]. reflexivity. }
  assert (∀ d, 0 ≤ d < N_D →
            (big_sum N_T (λ t, xp' t d) == big_sum N_T (λ t, xp t d))%Q
            ∧ (big_sum N_T (λ t, xv' t d) == big_sum N_T (λ t, xv t d))%Q) as Hcol.
  { intros d Hd. split; apply big_sum_ext; intros t Ht;
      destruct (Hext t d Ht Hd) as [Hp Hv]; by rewrite ?Hp, ?Hv. }
  repeat split.
  - intros t Ht. rewrite (Hrow t Ht). by apply H1.
  - intros t Ht. rewrite (Hrow t Ht). by apply H2.
  - intros t Ht. rewrite (Hrow_p t Ht). by apply H3.
  - destruct (Hext t d H H0) as [<- _]. by apply (H4 t d).
  - destruct (Hext t d H H0) as [_ <-]. by apply (H4 t d).
  - intros t d Ht Hd Ha. destruct (Hext t d Ht Hd) as [<- <-]. by apply H5.
  - destruct (Hcol d H) as [-> _]. by apply H6.
  - destruct (Hcol d H) as [_ ->]. by apply H6.
Qed.

(** The integer values of a sound optimum satisfy the hard constraints. *)
Lemma solved_values_feasible :
  Model.status engine = Model.OPTIMAL → sound_on optimize prog →
  hard_constraints N_T N_D lp lv S s sp a
    (λ t d, inject_Z (solved_value engine (xp_var N_D t d)))
    (λ t d, inject_Z (solved_value engine (xv_var N_T N_D t d))).
Proof.
  intros Hopt Hsound. destruct (sound_values Hopt Hsound) as [Hhard _].
  revert Hhard. apply hard_constraints_ext. intros t d Ht Hd.
  by destruct (solved_value_binary t d Hopt Hsound Ht Hd) as (_ & _ & ? & ?).
Qed.
End solved_program.

Lemma total_le_length {A} (f : A → Q) (l : list A) :
  (∀ x, x ∈ l → (f x <= 1)%Q) →
  (total (map f l) <= inject_Z (Z.of_nat (length l)))%Q.
Proof.
  induction l as [| x l IH]; intros H; [by compute |].
  simpl length. rewrite Nat2Z.inj_succ, <- Z.add_1_l, inject_Z_plus. simpl.
  apply Qplus_le_compat; [apply H; by left |]. apply IH. intros y Hy. apply H. by right.
Qed.

Lemma big_sum_le_count (n : Z) (f : Z → Q) :
  0 ≤ n → (∀ i, 0 ≤ i < n → (f i <= 1)%Q) → (big_sum n f <= inject_Z n)%Q.
Proof.
  intros Hn H. unfold big_sum.
  rewrite <- (Z2Nat.id n) at 2 by done. rewrite <- (length_range n).
  apply total_le_length. intros i Hi. apply H. by apply elem_of_range.
Qed.

Lemma binary_le_1 (q : Q) : (q == 0 ∨ q == 1)%Q → (q <= 1)%Q.
Proof. intros [-> | ->]; by compute. Qed.

Section solved_engine.
Context (optimize : GModel → Z * (Var → Q)).
Context (N_T N_D lp lv : Z) (S : list Z) (s sp : Z) (a : list (list Q))
        (m : list Z) (fp fv : list Q) (w1 w2 w3 w4 : Q).

Local Abbreviation init :=
  (Model.__init__ optimize N_T N_D lp lv S s sp a m fp fv w1 w2 w3 w4).

(** X7. The indexer converts the value of the solver with [int], which
    truncates toward zero: an integral value is reported as it is, every
    value strictly between -1 and 1 is reported as 0, and a non-negative
    value is rounded down. *)
Theorem indexer_truncates (self : Model.t) (mode t d : Z) :
  init = (Ok tt, self) → Model.status self = Model.OPTIMAL → is_mode mode →
  0 ≤ t < N_T → 0 ≤ d < N_D →
  ∃ v z,
    index2 (vars_of self mode) t d = Ok v
    ∧ Model.__getitem__ self (mode, Idx t, Idx d) = Ok (Some (Values (Leaf z)))
    ∧ (∀ k : Z, (gX (Model.model self) v == inject_Z k)%Q → z = k)
    ∧ ((- (1) < gX (Model.model self) v)%Q → (gX (Model.model self) v < 1)%Q → z = 0)
    ∧ ((0 <= gX (Model.model self) v)%Q →
         (inject_Z z <= gX (Model.model self) v)%Q
         ∧ (gX (Model.model self) v < inject_Z z + 1)%Q).
Proof.
  intros Hinit Hopt Hmode Ht Hd.
  destruct (constructed_engine optimize N_T N_D lp lv S s sp a m fp fv w1 w2 w3 w4
              self mode Hinit Hmode) as (HT & HD & Hvars & _).
  assert (Model.status self ≠ Model.INFEASIBLE) as Hst by (by rewrite Hopt).
  exists (handle N_T N_D mode t d), (solved_value self (handle N_T N_D mode t d)).
  split; [rewrite Hvars; by apply index2_matrix_of_Ok |]. split.
  - rewrite (getitem_cell self mode N_T N_D (handle N_T N_D mode) Hmode Hst Hvars
               t d Ht Hd).
    by rewrite (resolve_values self _ Hopt).
  - unfold solved_value. split; [| split].
    + intros k Hk. by apply py_int_inject_Z.
    + apply py_int_small.
    + apply py_int_floor.
Qed.

(** X8. Requirements that no schedule can meet make the constraints of the
    constructed program unsatisfiable: a minimum of shifts above the
    ceiling of some tutor, for every valuation; and, for every valuation
    with values 0 and 1, a daily coverage floor above the number of tutors
    or a minimum of shifts above the number of days. *)
Theorem unsatisfiable_requirements (self : Model.t) :
  init = (Ok tt, self) →
  (∀ val t S_t,
     0 ≤ t < N_T → S !! Z.to_nat t = Some S_t → S_t < s →
     ¬ Forall (sat val) (gconstrs (Model.model self)))
  ∧ (∀ val,
       binary N_T N_D val → N_T < lp ∨ N_T < lv ∨ N_D < sp ∨ N_D < s →
       ¬ Forall (sat val) (gconstrs (Model.model self))).
Proof.
  intros Hinit. apply init_Ok_inv in Hinit as [((HT & HD) & _) ->].
  cbn [solved Model.model program gconstrs]. split.
  - intros val t S_t Ht HS Hlt Hsat.
    apply sat_all_constraints in Hsat as (H1 & H2 & _).
    specialize (H1 t Ht). specialize (H2 t Ht).
    assert (S_at S t = S_t) as HSt by (unfold S_at; by apply nth_lookup_Some with (d := 0) in HS).
    rewrite HSt in H1. pose proof (Qle_trans _ _ _ H2 H1) as Hle.
    rewrite <- Zle_Qle in Hle. lia.
  - intros val Hbin Hreq Hsat.
    apply sat_all_constraints in Hsat as (_ & H2 & H3 & H4 & H5 & H6).
    assert (∀ t d, 0 ≤ t < N_T → 0 ≤ d < N_D →
              (val (xp_var N_D t d) <= 1)%Q ∧ (val (xv_var N_T N_D t d) <= 1)%Q
              ∧ (val (xp_var N_D t d) + val (xv_var N_T N_D t d) <= 1)%Q) as Hle.
    { intros t d Ht Hd. destruct (Hbin t d Ht Hd) as [Hp Hv].
      split; [by apply binary_le_1 |]. split; [by apply binary_le_1 |].
      destruct (Qeq_dec (a_at a t d) Model.UNAVAILABLE) as [Hu | Hu].
      - destruct (H4 t d Ht Hd Hu) as [-> ->]. by compute.
      - by apply H5. }
    assert (∀ n k : Z, (inject_Z k <= inject_Z n)%Q → n < k → False) as Hcontra.
    { intros n k Hq Hlt. rewrite <- Zle_Qle in Hq. lia. }
    destruct Hreq as [Hreq | [Hreq | [Hreq | Hreq]]].
    + destruct (H6 0 ltac:(lia)) as [Hcov _].
      apply (Hcontra N_T lp); [| done]. eapply Qle_trans; [exact Hcov |].
      apply big_sum_le_count; [lia |]. intros t Ht. by apply Hle.
    + destruct (H6 0 ltac:(lia)) as [_ Hcov].
      apply (Hcontra N_T lv); [| done]. eapply Qle_trans; [exact Hcov |].
      apply big_sum_le_count; [lia |]. intros t Ht. by apply Hle.
    + apply (Hcontra N_D sp); [| done]. eapply Qle_trans; [exact (H3 0 ltac:(lia)) |].
      apply big_sum_le_count; [lia |]. intros d Hd. by apply Hle.
    + apply (Hcontra N_D s); [| done]. eapply Qle_trans; [exact (H2 0 ltac:(lia)) |].
      apply big_sum_le_count; [lia |]. intros d Hd. by apply Hle.
Qed.

(** X9. When the answer of the solver on the constructed program is sound
    and optimal, the values that the indexer reports are 0 or 1 and satisfy
    the hard constraints: the ceiling and the two minima of every tutor,
    no shift on an unavailable day, at most one mode per tutor and day, and
    the two coverage floors of every day. *)
Theorem reported_values_feasible (self : Model.t) :
  init = (Ok tt, self) → Model.status self = Model.OPTIMAL →
  sound_on optimize (program N_T N_D lp lv S s sp a m fp fv w1 w2 w3 w4) →
  ∃ xp xv : Z → Z → Z,
    (∀ t d, 0 ≤ t < N_T → 0 ≤ d < N_D →
       Model.__getitem__ self (Model.IN_PERSON, Idx t, Idx d)
       = Ok (Some (Values (Leaf (xp t d))))
       ∧ Model.__getitem__ self (Model.VIRTUAL, Idx t, Idx d)
         = Ok (Some (Values (Leaf (xv t d))))
       ∧ (xp t d = 0 ∨ xp t d = 1) ∧ (xv t d = 0 ∨ xv t d = 1))
    ∧ hard_constraints N_T N_D lp lv S s sp a
        (λ t d, inject_Z (xp t d)) (λ t d, inject_Z (xv t d)).
Proof.
  intros Hinit Hopt Hsound.
  destruct (constructed_engine optimize N_T N_D lp lv S s sp a m fp fv w1 w2 w3 w4
              self Model.IN_PERSON Hinit in_person_is_mode) as (HT & HD & Hxp & _).
  destruct (constructed_engine optimize N_T N_D lp lv S s sp a m fp fv w1 w2 w3 w4
              self Model.VIRTUAL Hinit virtual_is_mode) as (_ & _ & Hxv & _).
  assert (Model.status self ≠ Model.INFEASIBLE) as Hst by (by rewrite Hopt).
  apply init_Ok_inv in Hinit as [_ Hself].
  exists (λ t d, solved_value self (xp_var N_D t d)),
         (λ t d, solved_value self (xv_var N_T N_D t d)).
  split.
  - intros t d Ht Hd.
    rewrite (getitem_cell self Model.IN_PERSON N_T N_D (handle N_T N_D Model.IN_PERSON)
               in_person_is_mode Hst Hxp t d Ht Hd).
    rewrite (getitem_cell self Model.VIRTUAL N_T N_D (handle N_T N_D Model.VIRTUAL)
               virtual_is_mode Hst Hxv t d Ht Hd).
    rewrite !(resolve_values self _ Hopt). split; [done |]. split; [done |].
    subst self.
    destruct (solved_value_binary optimize N_T N_D lp lv S s sp a m fp fv w1 w2 w3 w4
                t d Hopt Hsound Ht Hd) as (? & ? & _). done.
  - subst self. by apply solved_values_feasible.
Qed.
End solved_engine.

(** ** Beyond the specification: the constructor of the facade *)

Lemma comprehension_ext {A B} (f g : A → outcome B) (l : list A) :
  (∀ x, x ∈ l → f x = g x) → comprehension f l = comprehension g l.
Proof.
  induction l as [| x l IH]; intros H; [done |].
  rewrite !comprehension_cons, (H x) by left. rewrite IH; [done |].
  intros y Hy. apply H. by right.
Qed.


Lemma dict_get_lookup {V} (d : gmap string V) (k : string) :
  dict_get d k = match d !! k with Some v => Ok v | None => Raise KeyError end.
Proof. reflexivity. Qed.

Lemma availability_lookup (availability : gmap string (gmap string Q))
    (tutor day : string) :
  (row ← dict_get availability tutor; dict_get row day)
  = match availability !! tutor ≫= (.!! day) with
    | Some v => Ok v
    | None => Raise KeyError
    end.
Proof. unfold dict_get. by destruct (availability !! tutor). Qed.


Section facade_construction.
Context (optimize : GModel → Z * (Var → Q)).
Context (tutors days : list string)
        (min_tutors_ip min_tutors_v min_tutor_shifts min_tutor_ip_shifts : Z)
        (max_shifts_by_tutor mode_preference : gmap string Z)
        (availability : gmap string (gmap string Q))
        (target_ip_fractions target_v_fractions : gmap string Q)
        (SHIFTS_weight ALIGN_weight DAY_PREF_weight MODE_PREF_weight : Q).

Local Abbreviation init :=
  (Schedule.__init__ optimize tutors days min_tutors_ip min_tutors_v
     min_tutor_shifts min_tutor_ip_shifts max_shifts_by_tutor mode_preference
     availability target_ip_fractions target_v_fractions
     SHIFTS_weight ALIGN_weight DAY_PREF_weight MODE_PREF_weight).

Local Abbreviation every_key_found :=
  (listed_keys_found tutors days max_shifts_by_tutor mode_preference availability
     target_ip_fractions target_v_fractions).



(** X11. Only the entries of the listed tutors and days are read: two
    families of dictionaries that agree on them give the same outcome, so
    entries for other names are ignored. *)
Theorem unlisted_entries_ignored
    (max_shifts_by_tutor' mode_preference' : gmap string Z)
    (availability' : gmap string (gmap string Q))
    (target_ip_fractions' target_v_fractions' : gmap string Q) :
  (∀ tutor, tutor ∈ tutors →
     max_shifts_by_tutor' !! tutor = max_shifts_by_tutor !! tutor
     ∧ mode_preference' !! tutor = mode_preference !! tutor
     ∧ ∀ day, day ∈ days →
         availability' !! tutor ≫= (.!! day) = availability !! tutor ≫= (.!! day)) →
  (∀ day, day ∈ days →
     target_ip_fractions' !! day = target_ip_fractions !! day
     ∧ target_v_fractions' !! day = target_v_fractions !! day) →
  Schedule.__init__ optimize tutors days min_tutors_ip min_tutors_v
    min_tutor_shifts min_tutor_ip_shifts max_shifts_by_tutor' mode_preference'
    availability' target_ip_fractions' target_v_fractions'
    SHIFTS_weight ALIGN_weight DAY_PREF_weight MODE_PREF_weight
  = init.
Proof.
  intros Htutors Hdays. unfold Schedule.__init__.
  rewrite (comprehension_ext (λ tutor, dict_get max_shifts_by_tutor' tutor)
             (λ tutor, dict_get max_shifts_by_tutor tutor) tutors).
  2:{ intros tutor Htutor. rewrite !dict_get_lookup.
      by destruct (Htutors tutor Htutor) as (-> & _). }
  rewrite (comprehension_ext (λ tutor, dict_get mode_preference' tutor)
             (λ tutor, dict_get mode_preference tutor) tutors).
  2:{ intros tutor Htutor. rewrite !dict_get_lookup.
      by destruct (Htutors tutor Htutor) as (_ & -> & _). }
  rewrite (comprehension_ext
             (λ tutor, comprehension (λ day,
                row ← dict_get availability' tutor; dict_get row day) days)
             (λ tutor, comprehension (λ day,
                row ← dict_get availability tutor; dict_get row day) days) tutors).
  2:{ intros tutor Htutor. apply comprehension_ext. intros day Hday.
      rewrite !availability_lookup.
      destruct (Htutors tutor Htutor) as (_ & _ & Hrow). by rewrite (Hrow day Hday). }
  rewrite (comprehension_ext (λ day, dict_get target_ip_fractions' day)
             (λ day, dict_get target_ip_fractions day) days).
  2:{ intros day Hday. rewrite !dict_get_lookup.
      by destruct (Hdays day Hday) as (-> & _). }
  rewrite (comprehension_ext (λ day, dict_get target_v_fractions' day)
             (λ day, dict_get target_v_fractions day) days).
  2:{ intros day Hday. rewrite !dict_get_lookup.
      by destruct (Hdays day Hday) as (_ & ->). }
  reflexivity.
Qed.

(** X12. A constructed facade holds the given lists of tutors and days, and
    its index tables invert them: a name has the index [i] exactly when it
    is the [i]-th element of its list, so the tables hold the listed names
    and nothing else. *)
Theorem index_tables_invert_lists (sch : Schedule.t) :
  init = Ok sch →
  Schedule.tutors sch = tutors ∧ Schedule.days sch = days
  ∧ (∀ tutor i,
     Schedule.__tutor_index sch !! tutor = Some i
     ↔ 0 ≤ i ∧ Schedule.tutors sch !! Z.to_nat i = Some tutor)
  ∧ (∀ day i,
       Schedule.__day_index sch !! day = Some i
       ↔ 0 ≤ i ∧ Schedule.days sch !! Z.to_nat i = Some day).
Proof.
  intros Hinit. apply constructed_well_formed in Hinit as (Hwf & Htutors & Hdays).
  split; [done |]. split; [done |].
  destruct Hwf as (Hndt & Hndd & _ & _ & -> & -> & _).
  assert (∀ (l : list string) x i,
            NoDup l →
            index_table l !! x = Some i ↔ 0 ≤ i ∧ l !! Z.to_nat i = Some x) as Htable.
  { intros l x i Hnd. rewrite index_table_lookup. split.
    - destruct (decide (x ∈ l)) as [Hx | Hx]; [| done]. intros [= <-].
      split; [apply position_nonneg | by apply position_lookup].
    - intros [Hi Hx]. rewrite decide_True by (by eapply list_elem_of_lookup_2).
      rewrite (position_of_lookup l _ x Hnd Hx). f_equal. lia. }
  split; intros x i; by apply Htable.
Qed.
End facade_construction.

(** ** Beyond the specification: the queries of the facade *)

Lemma filter_positions_suffix (l : list string) (b : Z → bool) :
  NoDup l →
  ∀ l2 l1, l = l1 ++ l2 →
    length (List.filter (λ x, b (position x l)) l2)
    = length (List.filter b (map Z.of_nat (seq (length l1) (length l2)))).
Proof.
  intros Hnd. induction l2 as [| x l2 IH]; intros l1 Hl; [done |].
  assert (l !! length l1 = Some x) as Hx.
  { rewrite Hl. by rewrite list_lookup_middle. }
  simpl length. simpl seq. simpl map. simpl List.filter.
  rewrite (position_of_lookup l _ x Hnd Hx).
  specialize (IH (l1 ++ [x])). rewrite length_app, Nat.add_1_r in IH.
  specialize (IH ltac:(by rewrite <- app_assoc)).
  destruct (b (Z.of_nat (length l1))); simpl; by rewrite IH.
Qed.

(** Counting the elements of a duplicate-free list by a condition on their
    positions is counting the positions. *)
Lemma filter_positions_length (l : list string) (b : Z → bool) :
  NoDup l →
  length (List.filter (λ x, b (position x l)) l)
  = length (List.filter b (range (Z.of_nat (length l)))).
Proof.
  intros Hnd. rewrite range_of_nat. by apply (filter_positions_suffix l b Hnd l []).
Qed.

Lemma filter_length_ext {A} (f g : A → bool) (l : list A) :
  (∀ x, x ∈ l → f x = g x) → length (List.filter f l) = length (List.filter g l).
Proof.
  induction l as [| x l IH]; intros H; [done |]. simpl.
  rewrite (H x) by left. specialize (IH ltac:(intros y Hy; apply H; by right)).
  destruct (g x); simpl; by rewrite IH.
Qed.

(** The messages of the usage errors. *)
Lemma validate_mode_message (mode : Z) :
  ¬ accepted_mode mode →
  Schedule.__validate_mode mode
  = Raise (Exception
      "The provided mode is not one of Schedule.IN_PERSON, Schedule.VIRTUAL, or Schedule.EITHER").
Proof.
  intros H. unfold Schedule.__validate_mode.
  destruct (Z.eqb_spec mode Schedule.IN_PERSON); [exfalso; apply H; by left |].
  destruct (Z.eqb_spec mode Schedule.VIRTUAL); [exfalso; apply H; right; by left |].
  destruct (Z.eqb_spec mode Schedule.EITHER); [exfalso; apply H; right; by right |].
  done.
Qed.

Lemma validate_tutor_message (sch : Schedule.t) (tutor : string) :
  tutor ∉ Schedule.tutors sch →
  Schedule.__validate_tutor sch tutor
  = Raise (Exception (Schedule.dquote +:+ tutor +:+ Schedule.dquote
                      +:+ " is not a recognized tutor")).
Proof. intros H. unfold Schedule.__validate_tutor. by rewrite bool_decide_eq_false_2. Qed.

Lemma validate_day_message (sch : Schedule.t) (day : string) :
  day ∉ Schedule.days sch →
  Schedule.__validate_day sch day
  = Raise (Exception (Schedule.dquote +:+ day +:+ Schedule.dquote
                      +:+ " is not a recognized day")).
Proof. intros H. unfold Schedule.__validate_day. by rewrite bool_decide_eq_false_2. Qed.

Lemma validate_schedule_message (sch : Schedule.t) :
  Model.status (Schedule.__model sch) ≠ Model.OPTIMAL →
  Schedule.__validate_schedule sch = Raise (Exception "Schedule not found").
Proof.
  intros H. unfold Schedule.__validate_schedule, Schedule.schedule_found.
  by destruct (Z.eqb_spec (Model.status (Schedule.__model sch)) Model.OPTIMAL).
Qed.

Lemma validate_mode_Ok (mode : Z) :
  accepted_mode mode → Schedule.__validate_mode mode = Ok tt.
Proof. intros H. by destruct (validate_mode_cases mode) as [[_ ?] | [? _]]. Qed.

Lemma validate_tutor_Ok (sch : Schedule.t) (tutor : string) :
  tutor ∈ Schedule.tutors sch → Schedule.__validate_tutor sch tutor = Ok tt.
Proof. intros H. by destruct (validate_tutor_cases sch tutor) as [[_ ?] | [? _]]. Qed.

Lemma validate_day_Ok (sch : Schedule.t) (day : string) :
  day ∈ Schedule.days sch → Schedule.__validate_day sch day = Ok tt.
Proof. intros H. by destruct (validate_day_cases sch day) as [[_ ?] | [? _]]. Qed.

(** X13. The queries of the facade report the first problem in a fixed
    order, whatever the facade: an unaccepted mode before anything else,
    then an unrecognized tutor, then an unrecognized day, and a missing
    schedule only for recognized arguments; the message names the
    offending tutor or day in double quotes. *)
Theorem query_error_messages (sch : Schedule.t) (mode : Z) (tutor day : string) :
  let mode_error := Exception
    "The provided mode is not one of Schedule.IN_PERSON, Schedule.VIRTUAL, or Schedule.EITHER" in
  let tutor_error := Exception
    (Schedule.dquote +:+ tutor +:+ Schedule.dquote +:+ " is not a recognized tutor") in
  let day_error := Exception
    (Schedule.dquote +:+ day +:+ Schedule.dquote +:+ " is not a recognized day") in
  let no_schedule := Exception "Schedule not found" in
  (¬ accepted_mode mode →
     Schedule.check sch mode tutor day = Raise mode_error
     ∧ Schedule.get_tutor_schedule sch mode tutor = Raise mode_error
     ∧ Schedule.get_day_schedule sch mode day = Raise mode_error)
  ∧ (accepted_mode mode → tutor ∉ Schedule.tutors sch →
       Schedule.check sch mode tutor day = Raise tutor_error
       ∧ Schedule.get_tutor_schedule sch mode tutor = Raise tutor_error)
  ∧ (accepted_mode mode → day ∉ Schedule.days sch →
       Schedule.get_day_schedule sch mode day = Raise day_error
       ∧ (tutor ∈ Schedule.tutors sch →
            Schedule.check sch mode tutor day = Raise day_error))
  ∧ (accepted_mode mode → Model.status (Schedule.__model sch) ≠ Model.OPTIMAL →
       (tutor ∈ Schedule.tutors sch →
          Schedule.get_tutor_schedule sch mode tutor = Raise no_schedule)
       ∧ (day ∈ Schedule.days sch →
            Schedule.get_day_schedule sch mode day = Raise no_schedule)
       ∧ (tutor ∈ Schedule.tutors sch → day ∈ Schedule.days sch →
            Schedule.check sch mode tutor day = Raise no_schedule)).
Proof.
  intros mode_error tutor_error day_error no_schedule.
  unfold Schedule.check, Schedule.get_tutor_schedule, Schedule.get_day_schedule.
  split; [| split; [| split]].
  - intros Hmode. by rewrite (validate_mode_message mode Hmode).
  - intros Hmode Htutor.
    by rewrite (validate_mode_Ok mode Hmode), !obind_ret,
      (validate_tutor_message sch tutor Htutor).
  - intros Hmode Hday. rewrite (validate_mode_Ok mode Hmode), !obind_ret.
    rewrite (validate_day_message sch day Hday). split; [done |].
    intros Htutor. by rewrite (validate_tutor_Ok sch tutor Htutor).
  - intros Hmode Hstatus. rewrite (validate_mode_Ok mode Hmode), !obind_ret.
    rewrite (validate_schedule_message sch Hstatus). split; [| split].
    + intros Htutor. by rewrite (validate_tutor_Ok sch tutor Htutor).
    + intros Hday. by rewrite (validate_day_Ok sch day Hday).
    + intros Htutor Hday.
      by rewrite (validate_tutor_Ok sch tutor Htutor), (validate_day_Ok sch day Hday).
Qed.

Section constructed_queries.
Context (optimize : GModel → Z * (Var → Q)).
Context (tutors days : list string)
        (min_tutors_ip min_tutors_v min_tutor_shifts min_tutor_ip_shifts : Z)
        (max_shifts_by_tutor mode_preference : gmap string Z)
        (availability : gmap string (gmap string Q))
        (target_ip_fractions target_v_fractions : gmap string Q)
        (SHIFTS_weight ALIGN_weight DAY_PREF_weight MODE_PREF_weight : Q).

Local Abbreviation init :=
  (Schedule.__init__ optimize tutors days min_tutors_ip min_tutors_v
     min_tutor_shifts min_tutor_ip_shifts max_shifts_by_tutor mode_preference
     availability target_ip_fractions target_v_fractions
     SHIFTS_weight ALIGN_weight DAY_PREF_weight MODE_PREF_weight).

(** X14. The three queries agree on a facade with an optimal result: for
    every accepted mode, a day is in the schedule of a tutor exactly when
    the tutor is in the schedule of the day, and exactly when [check]
    returns true for the pair. *)
Theorem queries_agree (sch : Schedule.t) (mode : Z) (tutor day : string) :
  init = Ok sch → Model.status (Schedule.__model sch) = Model.OPTIMAL →
  accepted_mode mode → tutor ∈ Schedule.tutors sch → day ∈ Schedule.days sch →
  ∃ (of_tutor of_day : list string) (b : bool),
    Schedule.get_tutor_schedule sch mode tutor = Ok of_tutor
    ∧ Schedule.get_day_schedule sch mode day = Ok of_day
    ∧ Schedule.check sch mode tutor day = Ok b
    ∧ (day ∈ of_tutor ↔ b = true)
    ∧ (tutor ∈ of_day ↔ b = true).
Proof.
  intros Hinit Hopt Hmode Htutor Hday.
  apply constructed_well_formed in Hinit as (Hwf & _ & _).
  do 3 eexists.
  split; [by apply get_tutor_schedule_Ok |].
  split; [by apply get_day_schedule_Ok |].
  split; [by apply check_Ok |].
  rewrite !elem_of_filter. tauto.
Qed.
End constructed_queries.

(** ** Beyond the specification: the schedule of a sound optimum *)

Lemma projected_lookup {V} (d : gmap string V) (l : list string) (ys : list V)
    (x : string) (v : V) :
  comprehension (λ x, dict_get d x) l = Ok ys → x ∈ l → d !! x = Some v →
  ys !! Z.to_nat (position x l) = Some v.
Proof.
  intros Hys Hx Hv.
  destruct (comprehension_lookup _ _ _ _ _ Hys (position_lookup x l Hx))
    as (y & Hy & Hget).
  unfold dict_get in Hget. rewrite Hv in Hget. congruence.
Qed.

Lemma inject_Z_eq_inv (x y : Z) : (inject_Z x == inject_Z y)%Q → x = y.
Proof. apply inject_Z_injective. Qed.

Section sound_schedule.
Context (optimize : GModel → Z * (Var → Q)).
Context (tutors days : list string)
        (min_tutors_ip min_tutors_v min_tutor_shifts min_tutor_ip_shifts : Z)
        (max_shifts_by_tutor mode_preference : gmap string Z)
        (availability : gmap string (gmap string Q))
        (target_ip_fractions target_v_fractions : gmap string Q)
        (SHIFTS_weight ALIGN_weight DAY_PREF_weight MODE_PREF_weight : Q).
Context (sch : Schedule.t) (S m : list Z) (a : list (list Q)) (fp fv : list Q).

Local Abbreviation N_T := (Z.of_nat (length tutors)).
Local Abbreviation N_D := (Z.of_nat (length days)).
Local Abbreviation init :=
  (Schedule.__init__ optimize tutors days min_tutors_ip min_tutors_v
     min_tutor_shifts min_tutor_ip_shifts max_shifts_by_tutor mode_preference
     availability target_ip_fractions target_v_fractions
     SHIFTS_weight ALIGN_weight DAY_PREF_weight MODE_PREF_weight).
Local Abbreviation prog :=
  (program N_T N_D min_tutors_ip min_tutors_v S min_tutor_shifts
     min_tutor_ip_shifts a m fp fv
     SHIFTS_weight ALIGN_weight DAY_PREF_weight MODE_PREF_weight).
Local Abbreviation xp := (λ t d, solved_value (Schedule.__model sch) (xp_var N_D t d)).
Local Abbreviation xv :=
  (λ t d, solved_value (Schedule.__model sch) (xv_var N_T N_D t d)).

Hypothesis Hinit : init = Ok sch.
Hypothesis Hoptimal : Model.status (Schedule.__model sch) = Model.OPTIMAL.
Hypothesis Hproj :
  projected tutors days max_shifts_by_tutor mode_preference availability
            target_ip_fractions target_v_fractions S m a fp fv.
Hypothesis Hsound : sound_on optimize prog.

Lemma facade_engine :
  sch = Schedule.mk tutors (index_table tutors) days (index_table days)
          (solved optimize N_T N_D min_tutors_ip min_tutors_v S min_tutor_shifts
             min_tutor_ip_shifts a m fp fv
             SHIFTS_weight ALIGN_weight DAY_PREF_weight MODE_PREF_weight).
Proof using Hinit Hproj.
  pose proof Hinit as H.
  apply schedule_init_Ok_inv in H
    as (_ & _ & S' & m' & a' & fp' & fv' & Hproj' & _ & Hsch).
  destruct Hproj as (HS & Hm & Ha & Hfp & Hfv).
  destruct Hproj' as (HS' & Hm' & Ha' & Hfp' & Hfv').
  assert (S' = S) as -> by congruence. assert (m' = m) as -> by congruence.
  assert (a' = a) as -> by congruence. assert (fp' = fp) as -> by congruence.
  assert (fv' = fv) as -> by congruence. exact Hsch.
Qed.

Lemma facade_well_formed :
  well_formed sch ∧ Schedule.tutors sch = tutors ∧ Schedule.days sch = days.
Proof using Hinit. by eapply constructed_well_formed. Qed.

Lemma facade_values :
  hard_constraints N_T N_D min_tutors_ip min_tutors_v S min_tutor_shifts
    min_tutor_ip_shifts a (λ t d, inject_Z (xp t d)) (λ t d, inject_Z (xv t d))
  ∧ ∀ t d, 0 ≤ t < N_T → 0 ≤ d < N_D →
      (xp t d = 0 ∨ xp t d = 1) ∧ (xv t d = 0 ∨ xv t d = 1) ∧ xp t d + xv t d ≤ 1.
Proof using Hinit Hoptimal Hproj Hsound.
  pose proof Hoptimal as Hopt. rewrite facade_engine in Hopt |- *.
  cbn [Schedule.__model] in Hopt |- *.
  pose proof (solved_values_feasible optimize N_T N_D min_tutors_ip min_tutors_v S
                min_tutor_shifts min_tutor_ip_shifts a m fp fv
                SHIFTS_weight ALIGN_weight DAY_PREF_weight MODE_PREF_weight
                Hopt Hsound) as Hhard.
  split; [exact Hhard |]. intros t d Ht Hd.
  destruct (solved_value_binary optimize N_T N_D min_tutors_ip min_tutors_v S
              min_tutor_shifts min_tutor_ip_shifts a m fp fv
              SHIFTS_weight ALIGN_weight DAY_PREF_weight MODE_PREF_weight
              t d Hopt Hsound Ht Hd) as (Hp & Hv & _).
  cbv zeta in Hp, Hv. split; [done |]. split; [done |].
  destruct Hhard as (_ & _ & _ & H4 & H5 & _).
  destruct (Qeq_dec (a_at a t d) Model.UNAVAILABLE) as [Hu | Hu].
  - destruct (H4 t d Ht Hd Hu) as [H0p H0v].
    change 0%Q with (inject_Z 0) in H0p, H0v.
    apply inject_Z_eq_inv in H0p, H0v. lia.
  - specialize (H5 t d Ht Hd Hu). cbv beta in H5. rewrite <- inject_Z_plus in H5.
    change 1%Q with (inject_Z 1) in H5. by rewrite <- Zle_Qle in H5.
Qed.

Lemma works_values (t d : Z) :
  works sch Schedule.IN_PERSON t d = (xp t d =? 1)
  ∧ works sch Schedule.VIRTUAL t d = (xv t d =? 1)
  ∧ works sch Schedule.EITHER t d = (xp t d =? 1) || (xv t d =? 1).
Proof using Hinit.
  destruct facade_well_formed as (_ & Ht & Hd). unfold works. by rewrite Ht, Hd.
Qed.

Lemma works_either_sum (t d : Z) :
  0 ≤ t < N_T → 0 ≤ d < N_D →
  works sch Schedule.EITHER t d = (xp t d + xv t d =? 1).
Proof using Hinit Hoptimal Hproj Hsound.
  intros Ht Hd. destruct (works_values t d) as (_ & _ & ->).
  destruct facade_values as [_ Hbin].
  destruct (Hbin t d Ht Hd) as ([Hp | Hp] & [Hv | Hv] & Hle);
    rewrite Hp, Hv in *; first [done | lia].
Qed.

(** The numbers of days of the schedules of a tutor, as sums of values. *)
Lemma tutor_schedule_counts (tutor : string) :
  tutor ∈ tutors →
  let t := position tutor tutors in
  ∃ either in_person virtual,
    Schedule.get_tutor_schedule sch Schedule.EITHER tutor = Ok either
    ∧ Schedule.get_tutor_schedule sch Schedule.IN_PERSON tutor = Ok in_person
    ∧ Schedule.get_tutor_schedule sch Schedule.VIRTUAL tutor = Ok virtual
    ∧ (inject_Z (Z.of_nat (length either))
       == big_sum N_D (λ d, inject_Z (xp t d) + inject_Z (xv t d)))%Q
    ∧ (inject_Z (Z.of_nat (length in_person)) == big_sum N_D (λ d, inject_Z (xp t d)))%Q
    ∧ (inject_Z (Z.of_nat (length virtual)) == big_sum N_D (λ d, inject_Z (xv t d)))%Q.
Proof using Hinit Hoptimal Hproj Hsound.
  intros Htutor t. destruct facade_well_formed as (Hwf & HT & HD).
  pose proof Hwf as (_ & Hnd & _). rewrite HD in Hnd.
  pose proof (position_bounds tutor tutors Htutor) as Ht. fold t in Ht.
  destruct facade_values as [_ Hbin].
  assert (tutor ∈ Schedule.tutors sch) as Htutor' by (by rewrite HT).
  do 3 eexists.
  split; [apply (get_tutor_schedule_Ok sch Hwf Hoptimal); [| done];
          right; by right |].
  split; [apply (get_tutor_schedule_Ok sch Hwf Hoptimal); [| done]; by left |].
  split; [apply (get_tutor_schedule_Ok sch Hwf Hoptimal); [| done];
          right; by left |].
  rewrite HT, HD. fold t.
  rewrite !(filter_positions_length days _ Hnd). split; [| split].
  - rewrite (big_sum_ext N_D _ (λ d, inject_Z (xp t d + xv t d)))
      by (intros d _; by rewrite inject_Z_plus).
    rewrite (big_sum_indicator N_D (λ d, xp t d + xv t d)).
    2:{ intros d Hd. destruct (Hbin t d Ht Hd) as (? & ? & ?). lia. }
    rewrite (filter_length_ext _ (λ d, xp t d + xv t d =? 1)); [reflexivity |].
    intros d Hd%elem_of_range. by apply works_either_sum.
  - rewrite (big_sum_indicator N_D (λ d, xp t d)).
    2:{ intros d Hd. by destruct (Hbin t d Ht Hd) as (? & _). }
    rewrite (filter_length_ext _ (λ d, xp t d =? 1)); [reflexivity |].
    intros d _. by destruct (works_values t d) as (-> & _).
  - rewrite (big_sum_indicator N_D (λ d, xv t d)).
    2:{ intros d Hd. by destruct (Hbin t d Ht Hd) as (_ & ? & _). }
    rewrite (filter_length_ext _ (λ d, xv t d =? 1)); [reflexivity |].
    intros d _. by destruct (works_values t d) as (_ & -> & _).
Qed.

(** The numbers of tutors of the schedules of a day, as sums of values. *)
Lemma day_schedule_counts (day : string) :
  day ∈ days →
  let d := position day days in
  ∃ in_person virtual,
    Schedule.get_day_schedule sch Schedule.IN_PERSON day = Ok in_person
    ∧ Schedule.get_day_schedule sch Schedule.VIRTUAL day = Ok virtual
    ∧ (inject_Z (Z.of_nat (length in_person)) == big_sum N_T (λ t, inject_Z (xp t d)))%Q
    ∧ (inject_Z (Z.of_nat (length virtual)) == big_sum N_T (λ t, inject_Z (xv t d)))%Q.
Proof using Hinit Hoptimal Hproj Hsound.
  intros Hday d. destruct facade_well_formed as (Hwf & HT & HD).
  pose proof Hwf as (Hnd & _). rewrite HT in Hnd.
  pose proof (position_bounds day days Hday) as Hd. fold d in Hd.
  destruct facade_values as [_ Hbin].
  assert (day ∈ Schedule.days sch) as Hday' by (by rewrite HD).
  do 2 eexists.
  split; [apply (get_day_schedule_Ok sch Hwf Hoptimal); [| done]; by left |].
  split; [apply (get_day_schedule_Ok sch Hwf Hoptimal); [| done];
          right; by left |].
  rewrite HT, HD. fold d.
  rewrite !(filter_positions_length tutors (λ t, works sch _ t d) Hnd). split.
  - rewrite (big_sum_indicator N_T (λ t, xp t d)).
    2:{ intros t Ht. by destruct (Hbin t d Ht Hd) as (? & _). }
    rewrite (filter_length_ext _ (λ t, xp t d =? 1)); [reflexivity |].
    intros t _. by destruct (works_values t d) as (-> & _).
  - rewrite (big_sum_indicator N_T (λ t, xv t d)).
    2:{ intros t Ht. by destruct (Hbin t d Ht Hd) as (_ & ? & _). }
    rewrite (filter_length_ext _ (λ t, xv t d =? 1)); [reflexivity |].
    intros t _. by destruct (works_values t d) as (_ & -> & _).
Qed.

(** X15. In the schedule of a sound optimum every tutor works at least the
    minimum number of shifts and at most the tutor's own ceiling, the
    in-person schedule has at least the minimum number of in-person shifts,
    and a day is never counted twice: the schedule under the either-mode
    has as many days as the in-person and the virtual schedule together. *)
Theorem schedule_respects_shift_limits (tutor : string) (S_t : Z) :
  tutor ∈ tutors → max_shifts_by_tutor !! tutor = Some S_t →
  ∃ either in_person virtual,
    Schedule.get_tutor_schedule sch Schedule.EITHER tutor = Ok either
    ∧ Schedule.get_tutor_schedule sch Schedule.IN_PERSON tutor = Ok in_person
    ∧ Schedule.get_tutor_schedule sch Schedule.VIRTUAL tutor = Ok virtual
    ∧ min_tutor_shifts ≤ Z.of_nat (length either) ≤ S_t
    ∧ min_tutor_ip_shifts ≤ Z.of_nat (length in_person)
    ∧ length either = (length in_person + length virtual)%nat.
Proof using Hinit Hoptimal Hproj Hsound.
  intros Htutor HS.
  destruct (tutor_schedule_counts tutor Htutor)
    as (either & in_person & virtual & He & Hp & Hv & Ce & Cp & Cv).
  exists either, in_person, virtual. split; [done |]. split; [done |]. split; [done |].
  pose proof (position_bounds tutor tutors Htutor) as Ht.
  destruct facade_values as [(H1 & H2 & H3 & _) _].
  specialize (H1 _ Ht). specialize (H2 _ Ht). specialize (H3 _ Ht).
  destruct Hproj as (HprojS & _).
  pose proof (projected_lookup _ _ _ tutor S_t HprojS Htutor HS) as Hnth.
  assert (S_at S (position tutor tutors) = S_t) as HSt
    by (unfold S_at; by apply nth_lookup_Some with (d := 0) in Hnth).
  rewrite HSt in H1. rewrite <- Ce in H1, H2. rewrite <- Cp in H3.
  rewrite <- Zle_Qle in H1, H2, H3. split; [lia |]. split; [lia |].
  rewrite big_sum_plus, <- Cp, <- Cv, <- inject_Z_plus in Ce.
  apply inject_Z_eq_inv in Ce. lia.
Qed.

(** X16. In the schedule of a sound optimum every day has at least the
    required number of in-person tutors and of virtual tutors. *)
Theorem schedule_meets_coverage (day : string) :
  day ∈ days →
  ∃ in_person virtual,
    Schedule.get_day_schedule sch Schedule.IN_PERSON day = Ok in_person
    ∧ Schedule.get_day_schedule sch Schedule.VIRTUAL day = Ok virtual
    ∧ min_tutors_ip ≤ Z.of_nat (length in_person)
    ∧ min_tutors_v ≤ Z.of_nat (length virtual).
Proof using Hinit Hoptimal Hproj Hsound.
  intros Hday.
  destruct (day_schedule_counts day Hday) as (in_person & virtual & Hp & Hv & Cp & Cv).
  exists in_person, virtual. split; [done |]. split; [done |].
  pose proof (position_bounds day days Hday) as Hd.
  destruct facade_values as [(_ & _ & _ & _ & _ & H6) _].
  destruct (H6 _ Hd) as [Hlp Hlv]. rewrite <- Cp in Hlp. rewrite <- Cv in Hlv.
  rewrite <- Zle_Qle in Hlp, Hlv. done.
Qed.

(** X17. In the schedule of a sound optimum no tutor works a day in both
    modes, and a tutor whose availability for a day is [UNAVAILABLE] is
    not scheduled that day under any mode. *)
Theorem schedule_respects_availability (tutor day : string) :
  tutor ∈ tutors → day ∈ days →
  ∃ in_person virtual : bool,
    Schedule.check sch Schedule.IN_PERSON tutor day = Ok in_person
    ∧ Schedule.check sch Schedule.VIRTUAL tutor day = Ok virtual
    ∧ Schedule.check sch Schedule.EITHER tutor day = Ok (in_person || virtual)
    ∧ in_person && virtual = false
    ∧ ∀ row v,
        availability !! tutor = Some row → row !! day = Some v →
        (v == Schedule.UNAVAILABLE)%Q →
        in_person = false ∧ virtual = false.
Proof using Hinit Hoptimal Hproj Hsound.
  intros Htutor Hday. destruct facade_well_formed as (Hwf & HT & HD).
  assert (tutor ∈ Schedule.tutors sch) as Htutor' by (by rewrite HT).
  assert (day ∈ Schedule.days sch) as Hday' by (by rewrite HD).
  pose proof (position_bounds tutor tutors Htutor) as Ht.
  pose proof (position_bounds day days Hday) as Hd.
  do 2 eexists.
  split; [apply (check_Ok sch Hwf Hoptimal); [by left | done..] |].
  split; [apply (check_Ok sch Hwf Hoptimal); [right; by left | done..] |].
  rewrite (check_Ok sch Hwf Hoptimal) by (try done; right; by right).
  rewrite HT, HD.
  destruct (works_values (position tutor tutors) (position day days))
    as (-> & -> & ->).
  split; [done |].
  destruct facade_values as [(_ & _ & _ & H4 & _) Hbin].
  destruct (Hbin _ _ Ht Hd) as (Hp & Hv & Hle). split.
  - destruct Hp as [-> | Hp]; [done |]. destruct Hv as [-> | Hv]; [by rewrite andb_false_r |].
    lia.
  - intros row v Hrow Hv' Hu. destruct Hproj as (_ & _ & Ha & _).
    pose proof (projected_availability tutors days availability a tutor day row v
                  Ha Htutor Hday Hrow Hv') as Hat.
    destruct (H4 _ _ Ht Hd) as [H0p H0v]; [by rewrite Hat |].
    change 0%Q with (inject_Z 0) in H0p, H0v.
    apply inject_Z_eq_inv in H0p, H0v. by rewrite H0p, H0v.
Qed.
End sound_schedule.

(** ** Beyond the specification: the indexer on slices and while loading *)

Lemma take_drop_seq (j k n : nat) :
  take k (drop j (seq 0 n)) = seq j (Nat.min k (n - j)).
Proof.
  rewrite drop_seq, take_seq. simpl. done.
Qed.

Lemma seq_shift_Z (j i k : nat) :
  map Z.of_nat (seq (j + i) k) = map (λ x, Z.of_nat j + Z.of_nat x) (seq i k).
Proof.
  revert i. induction k as [| k IH]; intros i; [done |]. simpl.
  f_equal; [lia |]. rewrite <- (IH (S i)). by rewrite Nat.add_succ_r.
Qed.

Lemma py_slice_range {A} (g : Z → A) (n lo hi : Z) :
  0 ≤ n → 0 ≤ lo → lo ≤ hi →
  py_slice (map g (range n)) (Some lo) (Some hi)
  = map g (interval lo (Z.min hi n)).
Proof.
  intros Hn Hlo Hhi. unfold py_slice, slice_bound, interval.
  rewrite length_map, length_range, Z2Nat.id by done.
  destruct (Z.ltb_spec lo 0); [lia |]. destruct (Z.ltb_spec hi 0); [lia |].
  rewrite List.skipn_map, List.firstn_map. f_equal. unfold range.
  rewrite List.skipn_map, List.firstn_map, take_drop_seq, map_map.
  replace (Nat.min (Z.to_nat (Z.min hi n - Z.min lo n)) (Z.to_nat n - Z.to_nat (Z.min lo n)))
    with (Z.to_nat (Z.min hi n - lo)) by lia.
  destruct (Z.le_gt_cases lo n) as [Hle | Hgt].
  - rewrite Z.min_l by done.
    rewrite <- (Nat.add_0_r (Z.to_nat lo)) at 1. rewrite seq_shift_Z.
    by rewrite Z2Nat.id.
  - replace (Z.to_nat (Z.min hi n - lo)) with 0%nat by lia. done.
Qed.

Lemma interval_nonneg (lo hi x : Z) : x ∈ interval lo hi → lo ≤ x < hi.
Proof.
  unfold interval. intros (i & -> & Hi%elem_of_range)%list_elem_of_fmap. lia.
Qed.

Section slice_selectors.
Context (self : Model.t) (mode N_T N_D : Z) (f : Z → Z → Var).
Hypothesis Hmode : is_mode mode.
Hypothesis Hstatus : Model.status self ≠ Model.INFEASIBLE.
Hypothesis Hvars : vars_of self mode = matrix_of N_T N_D f.
Hypothesis HT : 0 < N_T.
Hypothesis HD : 0 < N_D.

Local Abbreviation row_of := (λ t, PyList (map Leaf (map (f t) (range N_D)))).

Lemma subscript_rows_slice (lo hi : Z) :
  0 ≤ lo → lo ≤ hi →
  subscript (Model.rows_of (matrix_of N_T N_D f)) (Slice (Some lo) (Some hi))
  = Ok (PyList (map row_of (interval lo (Z.min hi N_T)))).
Proof using HT.
  intros Hlo Hhi. unfold Model.rows_of, matrix_of, subscript.
  rewrite map_map. by rewrite (py_slice_range row_of N_T lo hi) by lia.
Qed.

Lemma subscript_row_slice (t lo hi : Z) :
  0 ≤ lo → lo ≤ hi →
  subscript (row_of t) (Slice (Some lo) (Some hi))
  = Ok (PyList (map (λ d, Leaf (f t d)) (interval lo (Z.min hi N_D)))).
Proof using HD.
  intros Hlo Hhi. unfold subscript. rewrite map_map.
  by rewrite (py_slice_range (λ d, Leaf (f t d)) N_D lo hi) by lia.
Qed.

(** The rows selected by a slice, each subscripted by the day selector. *)
Lemma getitem_rows_slice (lo hi : Z) (days : selector) (cell : Z → nested Var) :
  0 ≤ lo → lo ≤ hi →
  (∀ t, 0 ≤ t < N_T → subscript (row_of t) days = Ok (cell t)) →
  Model.__getitem__ self (mode, Slice (Some lo) (Some hi), days)
  = Ok (Some (Model.resolve self (PyList (map cell (interval lo (Z.min hi N_T)))))).
Proof using Type*.
  intros Hlo Hhi Hcell.
  rewrite (getitem_prefix self mode N_T N_D f Hmode Hstatus Hvars).
  rewrite (subscript_rows_slice lo hi Hlo Hhi), obind_ret.
  assert (∀ ts, (∀ t, t ∈ ts → 0 ≤ t < N_T) →
            comprehension (λ row : nested Var, subscript row days) (map row_of ts)
            = Ok (map cell ts)) as Hc.
  { induction ts as [| t0 ts IH]; intros Hts; [done |].
    simpl map. rewrite comprehension_cons, (Hcell t0) by (apply Hts; by left).
    rewrite obind_ret, IH; [done |]. intros t Ht. apply Hts. by right. }
  assert (∀ t, t ∈ interval lo (Z.min hi N_T) → 0 ≤ t < N_T) as Hts.
  { intros t Ht%interval_nonneg. lia. }
  specialize (Hc _ Hts).
  destruct (interval lo (Z.min hi N_T)) as [| t0 ts]; [done |].
  simpl map in *. cbv iota. by rewrite Hc.
Qed.

Lemma getitem_row_slice (t lo hi : Z) :
  0 ≤ t < N_T → 0 ≤ lo → lo ≤ hi →
  Model.__getitem__ self (mode, Idx t, Slice (Some lo) (Some hi))
  = Ok (Some (Model.resolve self
                (PyList (map (λ d, Leaf (f t d)) (interval lo (Z.min hi N_D)))))).
Proof using Type*.
  intros Ht Hlo Hhi.
  rewrite (getitem_prefix self mode N_T N_D f Hmode Hstatus Hvars).
  rewrite (subscript_rows_idx N_T N_D f t Ht), obind_ret.
  pose proof (subscript_row_slice t lo hi Hlo Hhi) as Hsub.
  destruct (range_nonempty N_D HD) as (d0 & ds & Hr).
  rewrite Hr in *. simpl map in *. cbv iota. by rewrite Hsub.
Qed.
End slice_selectors.

Section constructed_slices.
Context (optimize : GModel → Z * (Var → Q)).
Context (N_T N_D lp lv : Z) (S : list Z) (s sp : Z) (a : list (list Q))
        (m : list Z) (fp fv : list Q) (w1 w2 w3 w4 : Q).

Local Abbreviation init :=
  (Model.__init__ optimize N_T N_D lp lv S s sp a m fp fv w1 w2 w3 w4).

(** X18. On a solved engine a slice of tutors or of days selects the entries
    of the interval, with a stop beyond the end clamped to the end:
    [self[mode,lo:hi,d]] lists the values of the tutors from [lo] up to
    [min(hi,N_T)] for day [d], [self[mode,t,lo:hi]] the values of tutor [t]
    for the days from [lo] up to [min(hi,N_D)], and two slices give the
    sub-matrix. *)
Theorem indexer_slices (self : Model.t) (mode lo hi : Z) :
  init = (Ok tt, self) → Model.status self = Model.OPTIMAL → is_mode mode →
  0 ≤ lo → lo ≤ hi →
  let value := λ t d, Leaf (solved_value self (handle N_T N_D mode t d)) in
  (∀ d, 0 ≤ d < N_D →
     Model.__getitem__ self (mode, Slice (Some lo) (Some hi), Idx d)
     = Ok (Some (Values (PyList (map (λ t, value t d) (interval lo (Z.min hi N_T)))))))
  ∧ (∀ t, 0 ≤ t < N_T →
       Model.__getitem__ self (mode, Idx t, Slice (Some lo) (Some hi))
       = Ok (Some (Values (PyList (map (value t) (interval lo (Z.min hi N_D)))))))
  ∧ (∀ lo' hi', 0 ≤ lo' → lo' ≤ hi' →
       Model.__getitem__ self (mode, Slice (Some lo) (Some hi), Slice (Some lo') (Some hi'))
       = Ok (Some (Values (PyList
           (map (λ t, PyList (map (value t) (interval lo' (Z.min hi' N_D))))
                (interval lo (Z.min hi N_T))))))).
Proof.
  intros Hinit Hopt Hmode Hlo Hhi value.
  destruct (constructed_engine optimize N_T N_D lp lv S s sp a m fp fv w1 w2 w3 w4
              self mode Hinit Hmode) as (HT & HD & Hvars & _).
  assert (Model.status self ≠ Model.INFEASIBLE) as Hst by (by rewrite Hopt).
  split; [| split].
  - intros d Hd.
    rewrite (getitem_rows_slice self mode N_T N_D (handle N_T N_D mode) Hmode Hst
               Hvars HT HD lo hi (Idx d) (λ t, Leaf (handle N_T N_D mode t d)) Hlo Hhi).
    + by rewrite (resolve_values self _ Hopt), unwrap_row.
    + intros t _. by apply subscript_row_idx.
  - intros t Ht.
    rewrite (getitem_row_slice self mode N_T N_D (handle N_T N_D mode) Hmode Hst
               Hvars HT HD t lo hi Ht Hlo Hhi).
    by rewrite (resolve_values self _ Hopt), unwrap_row.
  - intros lo' hi' Hlo' Hhi'.
    rewrite (getitem_rows_slice self mode N_T N_D (handle N_T N_D mode) Hmode Hst
               Hvars HT HD lo hi (Slice (Some lo') (Some hi'))
               (λ t, PyList (map (λ d, Leaf (handle N_T N_D mode t d))
                                 (interval lo' (Z.min hi' N_D)))) Hlo Hhi).
    + by rewrite (resolve_values self _ Hopt), unwrap_matrix.
    + intros t _. by apply subscript_row_slice.
Qed.
End constructed_slices.

(** X19. While the model is loading the indexer returns the variable
    handles themselves: after the decision variables were created,
    [self[mode,t,d]] is the handle stored at [t], [d] of the matrix of the
    mode, which is a variable of the solver model. *)
Theorem indexer_while_loading (N_T N_D mode : Z) :
  0 < N_T → 0 < N_D → is_mode mode →
  ∃ self,
    Model.__set_decision_variables N_T N_D (fresh N_T N_D) = (Ok tt, self)
    ∧ Model.status self = Model.LOADING
    ∧ ∀ t d, 0 ≤ t < N_T → 0 ≤ d < N_D →
        ∃ v,
          Model.__getitem__ self (mode, Idx t, Idx d) = Ok (Some (Handles (Leaf v)))
          ∧ index2 (vars_of self mode) t d = Ok v
          ∧ gvars (Model.model self) !! var_index v = Some v.
Proof.
  intros HT HD Hmode. exists (with_variables N_T N_D).
  split; [by apply set_decision_variables_Ok |]. split; [done |].
  intros t d Ht Hd. exists (handle N_T N_D mode t d).
  assert (vars_of (with_variables N_T N_D) mode = matrix_of N_T N_D (handle N_T N_D mode))
    as Hvars by (by destruct Hmode as [-> | ->]).
  split; [| split].
  - by rewrite (getitem_cell (with_variables N_T N_D) mode N_T N_D (handle N_T N_D mode)
                  Hmode ltac:(done) Hvars t d Ht Hd).
  - rewrite Hvars. by apply index2_matrix_of_Ok.
  - cbn [with_variables Model.model gvars].
    assert (length (concat (matrix_of N_T N_D (xp_var N_D))) = Z.to_nat (N_T * N_D))
      as Hlen by (rewrite length_concat_matrix_of; nia).
    destruct Hmode as [-> | ->]; cbn [handle Z.eqb Model.IN_PERSON Model.VIRTUAL].
    + unfold handle. simpl. rewrite lookup_app_l by (rewrite Hlen; nia).
      by apply lookup_concat_matrix_of.
    + unfold handle. simpl. rewrite lookup_app_r by (rewrite Hlen; nia). rewrite Hlen.
      replace (Z.to_nat (N_T * N_D + t * N_D + d) - Z.to_nat (N_T * N_D))%nat
        with (Z.to_nat (t * N_D + d)) by nia.
      by apply lookup_concat_matrix_of.
Qed.

(** ** Beyond the specification: the printed table *)

Lemma string_app_cons (x : ascii) (a b : string) :
  (String x a +:+ b)%string = String x (a +:+ b).
Proof. reflexivity. Qed.

Lemma string_app_assoc (a b c : string) : ((a +:+ b) +:+ c = a +:+ (b +:+ c))%string.
Proof.
  induction a as [| x a IH]; [done |]. rewrite !string_app_cons. by rewrite IH.
Qed.

Lemma string_app_nil_r (a : string) : (a +:+ "")%string = a.
Proof. induction a as [| x a IH]; [done |]. rewrite string_app_cons. by rewrite IH. Qed.

Lemma replace_char_spaces (c : ascii) (r s : string) (n : nat) :
  c ≠ " "%char →
  replace_char c r (spaces n +:+ s) = (spaces n +:+ replace_char c r s)%string.
Proof.
  intros Hc. induction n as [| n IH]; [done |].
  cbn [spaces]. rewrite !string_app_cons. cbn [replace_char].
  destruct (Ascii.eqb_spec " " c) as [<- | _]; [done |]. by rewrite IH.
Qed.

Lemma replace_char_single (c : ascii) (r : string) :
  replace_char c r (String c EmptyString) = r.
Proof. cbn [replace_char]. by rewrite Ascii.eqb_refl, string_app_nil_r. Qed.

Lemma rjust_single (w : Z) (c : ascii) :
  rjust w (String c EmptyString)
  = (spaces (Z.to_nat (w - 1)) +:+ String c EmptyString)%string.
Proof. reflexivity. Qed.

(** Colouring the letter of a field leaves the field in place. *)
Lemma replace_in_field (w : Z) (c : ascii) (r : string) :
  c ≠ " "%char →
  replace_char c r ("  " +:+ rjust w (String c EmptyString))
  = ("  " +:+ spaces (Z.to_nat (w - 1)) +:+ r)%string.
Proof.
  intros Hc. rewrite rjust_single. change "  "%string with (spaces 2).
  by rewrite !replace_char_spaces, replace_char_single.
Qed.

Lemma fold_left_append {A} (f : A → string) (l : list A) (h : string) :
  fold_left (λ h x, h +:+ f x) l h = (h +:+ printed.join (map f l))%string.
Proof.
  revert h. induction l as [| x l IH]; intros h; simpl.
  - by rewrite string_app_nil_r.
  - by rewrite IH, string_app_assoc.
Qed.

Lemma py_fold_append {A} (body : string → A → outcome string) (f : A → string)
    (l : list A) (acc : string) :
  (∀ acc x, x ∈ l → body acc x = Ok (acc +:+ f x)) →
  py_fold body l acc = Ok (acc +:+ printed.join (map f l)).
Proof.
  revert acc. induction l as [| x l IH]; intros acc Hbody; simpl.
  - by rewrite string_app_nil_r.
  - rewrite (Hbody acc x) by left. rewrite obind_ret, IH.
    + by rewrite string_app_assoc.
    + intros acc' y Hy. apply Hbody. by right.
Qed.

Lemma py_len_nonneg (s : string) : 0 ≤ py_len s.
Proof. unfold py_len. lia. Qed.

Lemma fold_left_max (l : list Z) (x : Z) :
  0 ≤ x → fold_left Z.max l x = Z.max x (fold_right Z.max 0 l).
Proof.
  revert x. induction l as [| y l IH]; intros x Hx; simpl; [lia |].
  rewrite IH by lia. lia.
Qed.

Lemma py_max_width (l : list string) :
  l ≠ [] → py_max (map py_len l) = Ok (printed.width l).
Proof.
  destruct l as [| x l]; [done |]. intros _. unfold printed.width. simpl.
  by rewrite fold_left_max by apply py_len_nonneg.
Qed.

Lemma py_sum_leaves {A} (g : A → Z) (l : list A) :
  py_sum (PyList (map (λ x, Leaf (g x)) l)) = Ok (sum_Z (map g l)).
Proof.
  unfold py_sum.
  assert (∀ a, fold_left (λ acc (y : nested Z),
                  a ← acc;
                  match y with
                  | Leaf z => Ok (a + z)
                  | PyList _ => Raise TypeError
                  end) (map (λ x, Leaf (g x)) l) (Ok a)
               = Ok (a + sum_Z (map g l))) as H; [| by rewrite H].
  induction l as [| x l IH]; intros a; simpl.
  - f_equal. lia.
  - rewrite IH. f_equal. unfold sum_Z. simpl. lia.
Qed.

Lemma io_bind_print {B} (s : string) (k : unit → IO.t B) (out : list string) :
  IO.bind (IO.print s) k out = k tt (out ++ [s]).
Proof. reflexivity. Qed.

Lemma io_bind_lift {A B} (c : outcome A) (a : A) (k : A → IO.t B) (out : list string) :
  c = Ok a → IO.bind (IO.lift c) k out = k a out.
Proof. by intros ->. Qed.

Lemma io_for_each_print {A} (f : A → outcome string) (g : A → string) (l : list A)
    (out : list string) :
  (∀ x, x ∈ l → f x = Ok (g x)) →
  IO.for_each l (λ x, IO.bind (IO.lift (f x)) (λ row, IO.print row)) out
  = (Ok tt, out ++ map g l).
Proof.
  revert out. induction l as [| x l IH]; intros out Hf; simpl.
  - by rewrite app_nil_r.
  - unfold IO.bind at 1. rewrite (io_bind_lift (f x) (g x)) by (apply Hf; by left).
    unfold IO.print at 1. rewrite IH by (intros y Hy; apply Hf; by right).
    by rewrite <- app_assoc.
Qed.

Lemma sum_Z_indicator {A} (f : A → Z) (l : list A) :
  (∀ x, x ∈ l → f x = 0 ∨ f x = 1) →
  sum_Z (map f l) = Z.of_nat (length (List.filter (λ x, f x =? 1) l)).
Proof.
  induction l as [| x l IH]; intros H; [done |].
  unfold sum_Z in *. simpl. rewrite IH by (intros y Hy; apply H; by right).
  destruct (H x ltac:(left)) as [-> | ->]; simpl; lia.
Qed.

Section printed_table.
Context (sch : Schedule.t).
Hypothesis Hwf : well_formed sch.
Hypothesis Hoptimal : Model.status (Schedule.__model sch) = Model.OPTIMAL.

Local Abbreviation N_T := (Z.of_nat (length (Schedule.tutors sch))).
Local Abbreviation N_D := (Z.of_nat (length (Schedule.days sch))).
Local Abbreviation engine := (Schedule.__model sch).
Local Abbreviation e_format := (λ s : string, "  " +:+ rjust (printed.w_d sch) s)%string.

Lemma facade_vars (mode : Z) :
  is_mode mode → vars_of engine mode = matrix_of N_T N_D (handle N_T N_D mode).
Proof using Hwf.
  destruct Hwf as (_ & _ & _ & _ & _ & _ & _ & Hxp & Hxv).
  by intros [-> | ->].
Qed.

Lemma facade_not_infeasible : Model.status engine ≠ Model.INFEASIBLE.
Proof using Hoptimal. by rewrite Hoptimal. Qed.

Lemma sum_solved_row (mode t : Z) :
  is_mode mode → 0 ≤ t < N_T →
  Schedule.sum_solved sch mode (Idx t) All
  = Ok (sum_Z (map (λ d, solved_value engine (handle N_T N_D mode t d)) (range N_D))).
Proof using Hwf Hoptimal.
  intros Hmode Ht. pose proof Hwf as (_ & _ & _ & HD & _).
  unfold Schedule.sum_solved.
  rewrite (getitem_row engine mode N_T N_D (handle N_T N_D mode) Hmode
             facade_not_infeasible (facade_vars mode Hmode) t Ht HD).
  rewrite obind_ret, (resolve_values engine _ Hoptimal), unwrap_row.
  apply py_sum_leaves.
Qed.

Lemma sum_solved_column (mode d : Z) :
  is_mode mode → 0 ≤ d < N_D →
  Schedule.sum_solved sch mode All (Idx d)
  = Ok (sum_Z (map (λ t, solved_value engine (handle N_T N_D mode t d)) (range N_T))).
Proof using Hwf Hoptimal.
  intros Hmode Hd. pose proof Hwf as (_ & _ & HT & _).
  unfold Schedule.sum_solved.
  rewrite (getitem_column engine mode N_T N_D (handle N_T N_D mode) Hmode
             facade_not_infeasible (facade_vars mode Hmode) d HT Hd).
  rewrite obind_ret, (resolve_values engine _ Hoptimal), unwrap_row.
  apply py_sum_leaves.
Qed.

Lemma entry_shown (tutor day : string) :
  tutor ∈ Schedule.tutors sch → day ∈ Schedule.days sch →
  Schedule.entry sch e_format (position tutor (Schedule.tutors sch))
                 (position day (Schedule.days sch))
  = Ok (printed.shown sch tutor day).
Proof using Hwf Hoptimal.
  intros Htutor Hday.
  pose proof (position_bounds tutor _ Htutor) as Ht.
  pose proof (position_bounds day _ Hday) as Hd.
  unfold Schedule.entry, printed.shown.
  rewrite (check_Ok sch Hwf Hoptimal Schedule.IN_PERSON tutor day) by (done || by left).
  rewrite (check_Ok sch Hwf Hoptimal Schedule.VIRTUAL tutor day)
    by (done || (right; by left)).
  rewrite (assigned_in_person sch Hwf Hoptimal _ _ Ht Hd), obind_ret.
  rewrite (assigned_virtual sch Hwf Hoptimal _ _ Ht Hd), obind_ret.
  unfold works, answer. cbn [Z.eqb Schedule.IN_PERSON Schedule.VIRTUAL Model.IN_PERSON
                              Model.VIRTUAL].
  destruct (solved_value engine (xp_var N_D _ _) =? 1).
  - by rewrite replace_in_field.
  - destruct (solved_value engine (xv_var N_T N_D _ _) =? 1);
      by rewrite replace_in_field.
Qed.

Lemma row_text (tutor : string) :
  tutor ∈ Schedule.tutors sch →
  (t ← dict_get (Schedule.__tutor_index sch) tutor;
   row ← py_fold (λ row day,
            d ← dict_get (Schedule.__day_index sch) day;
            e ← Schedule.entry sch e_format t d;
            Ok (row +:+ e)) (Schedule.days sch) (rjust (printed.w_t sch) tutor);
   n_p ← Schedule.sum_solved sch Model.IN_PERSON (Idx t) All;
   n_v ← Schedule.sum_solved sch Model.VIRTUAL (Idx t) All;
   Ok (row +:+ ("  " +:+ e_format (pretty n_p) +:+ e_format (pretty n_v))))
  = Ok (printed.row sch (printed.tutor_total sch) tutor).
Proof using Hwf Hoptimal.
  intros Htutor. pose proof (position_bounds tutor _ Htutor) as Ht.
  rewrite (tutor_index_lookup sch Hwf tutor Htutor), obind_ret.
  rewrite (py_fold_append _ (printed.shown sch tutor)).
  2:{ intros acc day Hday.
      rewrite (day_index_lookup sch Hwf day Hday), obind_ret.
      by rewrite (entry_shown tutor day Htutor Hday). }
  rewrite obind_ret.
  rewrite (sum_solved_row Model.IN_PERSON _ in_person_is_mode Ht), obind_ret.
  rewrite (sum_solved_row Model.VIRTUAL _ virtual_is_mode Ht), obind_ret.
  unfold printed.row, printed.field, printed.tutor_total.
  by rewrite string_app_assoc.
Qed.

Lemma counts_text (mode : Z) (label : string) :
  is_mode mode →
  py_fold (λ counts day,
     d ← dict_get (Schedule.__day_index sch) day;
     n ← Schedule.sum_solved sch mode All (Idx d);
     Ok (counts +:+ e_format (pretty n))) (Schedule.days sch)
     (rjust (printed.w_t sch) label)
  = Ok (printed.counts sch (printed.day_total sch) mode label).
Proof using Hwf Hoptimal.
  intros Hmode.
  rewrite (py_fold_append _ (λ day, printed.field (printed.w_d sch)
                                      (pretty (printed.day_total sch mode day)))).
  - done.
  - intros acc day Hday. pose proof (position_bounds day _ Hday) as Hd.
    rewrite (day_index_lookup sch Hwf day Hday), obind_ret.
    by rewrite (sum_solved_column mode _ Hmode Hd), obind_ret.
Qed.

(** The lines that [print_schedule] prints for an optimal result, with the
    margins as sums of solved values. *)
Lemma print_schedule_optimal (out : list string) :
  Schedule.print_schedule sch out
  = (Ok tt, out ++ printed.table_with sch (printed.tutor_total sch)
                                         (printed.day_total sch)).
Proof using Hwf Hoptimal.
  pose proof Hwf as (_ & _ & HT & HD & _).
  assert (Schedule.tutors sch ≠ []) as Htutors by (intros E; rewrite E in HT; simpl in HT; lia).
  assert (Schedule.days sch ≠ []) as Hdays by (intros E; rewrite E in HD; simpl in HD; lia).
  unfold Schedule.print_schedule, Schedule.schedule_found.
  rewrite Hoptimal. cbn [Z.eqb Model.OPTIMAL negb Pos.eqb].
  rewrite !io_bind_print.
  rewrite (io_bind_lift _ _ _ _ (py_max_width _ Htutors)).
  rewrite (io_bind_lift _ _ _ _ (py_max_width _ Hdays)).
  cbv zeta. rewrite io_bind_print.
  fold (printed.w_t sch). fold (printed.w_d sch).
  unfold IO.bind at 1.
  rewrite (io_for_each_print _ (printed.row sch (printed.tutor_total sch)))
    by (intros tutor Htutor; by apply row_text).
  rewrite io_bind_print.
  rewrite (io_bind_lift _ _ _ _ (counts_text Model.IN_PERSON "#P" in_person_is_mode)).
  rewrite io_bind_print.
  rewrite (io_bind_lift _ _ _ _ (counts_text Model.VIRTUAL "#V" virtual_is_mode)).
  unfold IO.print. f_equal.
  unfold printed.table_with, printed.legend, printed.header, printed.field.
  rewrite fold_left_append, string_app_assoc.
  rewrite <- !app_assoc. reflexivity.
Qed.
End printed_table.

Lemma print_schedule_not_found (sch : Schedule.t) (out : list string) :
  Model.status (Schedule.__model sch) ≠ Model.OPTIMAL →
  Schedule.print_schedule sch out = (Ok tt, out ++ ["No schedule found"%string]).
Proof.
  intros Hs. unfold Schedule.print_schedule, Schedule.schedule_found.
  by destruct (Z.eqb_spec (Model.status (Schedule.__model sch)) Model.OPTIMAL).
Qed.

Lemma table_with_ext (sch : Schedule.t) (tc tc' dc dc' : Z → string → Z) :
  (∀ mode tutor, is_mode mode → tutor ∈ Schedule.tutors sch → tc mode tutor = tc' mode tutor) →
  (∀ mode day, is_mode mode → day ∈ Schedule.days sch → dc mode day = dc' mode day) →
  printed.table_with sch tc dc = printed.table_with sch tc' dc'.
Proof.
  intros Htc Hdc. unfold printed.table_with. f_equal. f_equal. f_equal.
  - apply map_ext_in. intros tutor Htutor%list_elem_of_In. unfold printed.row.
    rewrite (Htc Schedule.IN_PERSON tutor in_person_is_mode Htutor).
    by rewrite (Htc Schedule.VIRTUAL tutor virtual_is_mode Htutor).
  - assert (∀ mode label, is_mode mode →
              printed.counts sch dc mode label = printed.counts sch dc' mode label) as Hc.
    { intros mode label Hmode. unfold printed.counts. f_equal. f_equal.
      apply map_ext_in. intros day Hday%list_elem_of_In. by rewrite (Hdc mode day). }
    by rewrite (Hc Schedule.IN_PERSON "#P"%string in_person_is_mode),
      (Hc Schedule.VIRTUAL "#V"%string virtual_is_mode).
Qed.

Section printed_facade.
Context (optimize : GModel → Z * (Var → Q)).
Context (tutors days : list string)
        (min_tutors_ip min_tutors_v min_tutor_shifts min_tutor_ip_shifts : Z)
        (max_shifts_by_tutor mode_preference : gmap string Z)
        (availability : gmap string (gmap string Q))
        (target_ip_fractions target_v_fractions : gmap string Q)
        (SHIFTS_weight ALIGN_weight DAY_PREF_weight MODE_PREF_weight : Q).

Local Abbreviation init :=
  (Schedule.__init__ optimize tutors days min_tutors_ip min_tutors_v
     min_tutor_shifts min_tutor_ip_shifts max_shifts_by_tutor mode_preference
     availability target_ip_fractions target_v_fractions
     SHIFTS_weight ALIGN_weight DAY_PREF_weight MODE_PREF_weight).

(** X20. On a constructed facade [print_schedule] never raises. Without an
    optimal result it prints the single line [No schedule found]. With one
    it prints the three lines of the legend, the header, one row per tutor
    in the order of the tutor list, an empty line and the two lines of day
    counts; the row of a tutor is the tutor's name, right-aligned, then for
    every day the letter P, V or X that [check] gives under the in-person
    and the virtual mode, then two numbers. *)
Theorem print_schedule_lines (sch : Schedule.t) (out : list string) :
  init = Ok sch →
  ∃ lines,
    Schedule.print_schedule sch out = (Ok tt, out ++ lines)
    ∧ (Model.status (Schedule.__model sch) ≠ Model.OPTIMAL →
         lines = ["No schedule found"%string])
    ∧ (Model.status (Schedule.__model sch) = Model.OPTIMAL →
         length lines = (length (Schedule.tutors sch) + 7)%nat
         ∧ take 3 lines = printed.legend
         ∧ lines !! 3%nat = Some (printed.header sch)
         ∧ (∀ i tutor,
              Schedule.tutors sch !! i = Some tutor →
              ∃ n_p n_v : Z,
                lines !! (4 + i)%nat
                = Some (printed.row sch
                          (λ mode _, if mode =? Schedule.IN_PERSON then n_p else n_v)
                          tutor))
         ∧ lines !! (4 + length (Schedule.tutors sch))%nat = Some ""%string).
Proof.
  intros Hinit. apply constructed_well_formed in Hinit as (Hwf & _ & _).
  destruct (status_optimal_dec sch) as [Hopt | Hopt].
  - eexists. split; [by apply print_schedule_optimal |]. split; [done |]. intros _.
    set (tc := printed.tutor_total sch). set (dc := printed.day_total sch).
    unfold printed.table_with. split; [| split; [| split; [| split]]].
    + rewrite !length_app, length_map. simpl. lia.
    + reflexivity.
    + reflexivity.
    + intros i tutor Hi.
      exists (tc Schedule.IN_PERSON tutor), (tc Schedule.VIRTUAL tutor).
      change (4 + i)%nat with (length printed.legend + (length [printed.header sch] + i))%nat.
      rewrite lookup_app_r by lia. rewrite Nat.add_comm, Nat.add_sub.
      rewrite lookup_app_r by (simpl; lia). rewrite Nat.add_comm, Nat.add_sub.
      rewrite lookup_app_l by (rewrite length_map; by eapply lookup_lt_Some).
      rewrite list_lookup_fmap, Hi. reflexivity.
    + change (4 + length (Schedule.tutors sch))%nat
        with (length printed.legend
              + (length [printed.header sch] + length (Schedule.tutors sch)))%nat.
      rewrite lookup_app_r by lia. rewrite Nat.add_comm, Nat.add_sub.
      rewrite lookup_app_r by (simpl; lia). rewrite Nat.add_comm, Nat.add_sub.
      rewrite lookup_app_r by (by rewrite length_map).
      by rewrite length_map, Nat.sub_diag.
  - eexists. split; [by apply print_schedule_not_found |]. split; [done |].
    intros H. done.
Qed.

(** X21. When the solver has returned 0 or 1 for every variable, the table
    that [print_schedule] prints for an optimal result agrees with the
    queries: its letters are those of [check], the two numbers of a
    tutor's row are the lengths of the tutor's in-person and virtual
    schedules, and the numbers of the two last lines are the lengths of
    the in-person and virtual schedules of the days. *)
Theorem print_schedule_table (sch : Schedule.t) (out : list string) :
  init = Ok sch → Model.status (Schedule.__model sch) = Model.OPTIMAL →
  binary_solution (Schedule.__model sch) →
  Schedule.print_schedule sch out = (Ok tt, out ++ printed.table sch).
Proof.
  intros Hinit Hopt Hbin. pose proof Hinit as Hinv.
  apply constructed_well_formed in Hinit as (Hwf & _ & _).
  apply schedule_init_Ok_inv in Hinv
    as (_ & _ & S & m & a & fp & fv & _ & _ & Hsch).
  rewrite (print_schedule_optimal sch Hwf Hopt). f_equal. f_equal.
  pose proof Hwf as (Hndt & Hndd & _).
  set (N_T := Z.of_nat (length (Schedule.tutors sch))).
  set (N_D := Z.of_nat (length (Schedule.days sch))).
  assert (∀ mode t d, is_mode mode → 0 ≤ t < N_T → 0 ≤ d < N_D →
            solved_value (Schedule.__model sch) (handle N_T N_D mode t d) = 0
            ∨ solved_value (Schedule.__model sch) (handle N_T N_D mode t d) = 1) as Hval.
  { intros mode t d Hmode Ht Hd.
    assert (handle N_T N_D mode t d ∈ gvars (Model.model (Schedule.__model sch))) as Hin.
    { subst sch. cbn [Schedule.__model solved Model.model program gvars].
      subst N_T N_D. cbn [Schedule.tutors Schedule.days] in *.
      apply elem_of_app. destruct Hmode as [-> | ->]; [left | right];
        by apply elem_of_concat_matrix_of. }
    unfold solved_value. destruct (Hbin _ Hin) as [H | H].
    - left. by apply (py_int_inject_Z _ 0).
    - right. by apply (py_int_inject_Z _ 1). }
  assert (∀ mode t d, is_mode mode →
            works sch mode t d
            = (solved_value (Schedule.__model sch) (handle N_T N_D mode t d) =? 1))
    as Hworks.
  { intros mode t d [-> | ->]; reflexivity. }
  apply table_with_ext.
  - intros mode tutor Hmode Htutor.
    pose proof (position_bounds tutor _ Htutor) as Ht.
    unfold printed.tutor_total, printed.tutor_count.
    rewrite (get_tutor_schedule_Ok sch Hwf Hopt mode tutor)
      by (done || (destruct Hmode as [-> | ->]; [by left | right; by left])).
    cbn [answer]. rewrite (filter_positions_length _ _ Hndd).
    rewrite sum_Z_indicator by (intros d Hd%elem_of_range; by apply Hval).
    f_equal. apply filter_length_ext. intros d _. by rewrite Hworks.
  - intros mode day Hmode Hday.
    pose proof (position_bounds day _ Hday) as Hd.
    unfold printed.day_total, printed.day_count.
    rewrite (get_day_schedule_Ok sch Hwf Hopt mode day)
      by (done || (destruct Hmode as [-> | ->]; [by left | right; by left])).
    cbn [answer].
    rewrite (filter_positions_length _ (λ t, works sch mode t _) Hndt).
    rewrite sum_Z_indicator by (intros t Ht%elem_of_range; by apply Hval).
    f_equal. apply filter_length_ext. intros t _. by rewrite Hworks.
Qed.
End printed_facade.

(** ** The further properties on the small test *)

Lemma sat_bool_sat (val : Var → Q) (c : Constr) : sat_bool val c = true → sat val c.
Proof.
  unfold sat_bool, sat. destruct (csense c).
  - apply Qle_bool_imp_le.
  - apply Qle_bool_imp_le.
  - apply Qeq_bool_eq.
Qed.

Lemma forallb_sat (val : Var → Q) (cs : list Constr) :
  forallb (sat_bool val) cs = true → Forall (sat val) cs.
Proof.
  induction cs as [| c cs IH]; simpl; [intros _; apply Forall_nil_2 |].
  intros [Hc Hcs]%andb_true_iff. apply Forall_cons_2; [by apply sat_bool_sat | by apply IH].
Qed.

(** The stub of the small test answers its program soundly. *)
Lemma small_test_sound :
  sound_on small_test.optimize
    (program 3 2 0 0 small_test.S 0 0 small_test.a small_test.m small_test.fp
       small_test.fv 1 1 1 100).
Proof.
  intros _. split.
  - apply forallb_sat. vm_compute. reflexivity.
  - intros v _ _. simpl. destruct (bool_decide _); [right | left]; reflexivity.
Qed.

Lemma small_test_listed :
  "Adem"%string ∈ small_test.tutors ∧ "Chel"%string ∈ small_test.tutors
  ∧ "Sun"%string ∈ small_test.days ∧ "Mon"%string ∈ small_test.days
  ∧ ("Zed"%string ∉ small_test.tutors) ∧ ("Fri"%string ∉ small_test.days).
Proof. repeat split; apply (bool_decide_unpack _); vm_compute; exact I. Defined.

Lemma decision_variables_created_witness :
  ∃ self,
    Model.__init__ small_test.optimize 3 2 0 0 small_test.S 0 0 small_test.a
      small_test.m small_test.fp small_test.fv 1 1 1 100 = (Ok tt, self)
    ∧ let vs := gvars (Model.model self) in
      Z.of_nat (length vs) = 2 * 3 * 2
      ∧ NoDup vs
      ∧ (∀ i v, vs !! i = Some v → var_index v = i ∧ var_vtype v = GRB_BINARY)
      ∧ ∀ t d, 0 ≤ t < 3 → 0 ≤ d < 2 →
          ∃ p v,
            index2 (Model.__xp self) t d = Ok p
            ∧ index2 (Model.__xv self) t d = Ok v
            ∧ vs !! Z.to_nat (t * 2 + d) = Some p
            ∧ vs !! Z.to_nat (3 * 2 + t * 2 + d) = Some v
            ∧ var_name p = ("xp_(" +:+ pretty t +:+ "," +:+ pretty d +:+ ")")%string
            ∧ var_name v = ("xv_(" +:+ pretty t +:+ "," +:+ pretty d +:+ ")")%string.
Proof.
  exists (Schedule.__model small_test.schedule).
  split; [exact small_test_engine |].
  exact (decision_variables_created small_test.optimize 3 2 0 0 small_test.S 0 0
           small_test.a small_test.m small_test.fp small_test.fv 1 1 1 100
           (Schedule.__model small_test.schedule) small_test_engine).
Defined.

Lemma constraints_counted_witness :
  ∃ self,
    Model.__init__ small_test.optimize 3 2 0 0 small_test.S 0 0 small_test.a
      small_test.m small_test.fp small_test.fv 1 1 1 100 = (Ok tt, self)
    ∧ length (gconstrs (Model.model self))
      = (3 * Z.to_nat 3 + Z.to_nat 3 * Z.to_nat 2 + unavailable_cells 3 2 small_test.a
         + 2 * Z.to_nat 2)%nat.
Proof.
  exists (Schedule.__model small_test.schedule).
  split; [exact small_test_engine |].
  exact (constraints_counted small_test.optimize 3 2 0 0 small_test.S 0 0
           small_test.a small_test.m small_test.fp small_test.fv 1 1 1 100
           (Schedule.__model small_test.schedule) small_test_engine).
Defined.

(** The engine of the test with a value just below 1. *)
Lemma near_integral_engine :
  Model.__init__ near_integral_test.optimize 3 2 0 0 small_test.S 0 0 small_test.a
    small_test.m small_test.fp small_test.fv 1 1 1 100
  = (Ok tt, near_integral_test.engine).
Proof.
  exact (init_valid near_integral_test.optimize 3 2 0 0 small_test.S 0 0
           small_test.a small_test.m small_test.fp small_test.fv 1 1 1 100
           small_test_valid).
Defined.

Lemma near_integral_optimal :
  Model.status near_integral_test.engine = Model.OPTIMAL.
Proof. reflexivity. Defined.

Lemma indexer_truncates_witness :
  ∃ self,
    Model.__init__ near_integral_test.optimize 3 2 0 0 small_test.S 0 0
      small_test.a small_test.m small_test.fp small_test.fv 1 1 1 100
    = (Ok tt, self)
    ∧ Model.status self = Model.OPTIMAL ∧ is_mode Model.VIRTUAL
    ∧ 0 ≤ 0 < 3 ∧ 0 ≤ 1 < 2
    ∧ ∃ v z,
        index2 (vars_of self Model.VIRTUAL) 0 1 = Ok v
        ∧ Model.__getitem__ self (Model.VIRTUAL, Idx 0, Idx 1)
          = Ok (Some (Values (Leaf z)))
        ∧ gX (Model.model self) v = (1073741823 # 1073741824)%Q
        ∧ z = 0
        ∧ (∀ k : Z, (gX (Model.model self) v == inject_Z k)%Q → z = k)
        ∧ ((- (1) < gX (Model.model self) v)%Q → (gX (Model.model self) v < 1)%Q
           → z = 0)
        ∧ ((0 <= gX (Model.model self) v)%Q →
             (inject_Z z <= gX (Model.model self) v)%Q
             ∧ (gX (Model.model self) v < inject_Z z + 1)%Q).
Proof.
  exists near_integral_test.engine.
  split; [exact near_integral_engine |].
  split; [exact near_integral_optimal |].
  split; [exact virtual_is_mode |].
  split; [lia |]. split; [lia |].
  destruct (indexer_truncates near_integral_test.optimize 3 2 0 0 small_test.S 0 0
              small_test.a small_test.m small_test.fp small_test.fv 1 1 1 100
              near_integral_test.engine Model.VIRTUAL 0 1
              near_integral_engine near_integral_optimal virtual_is_mode
              ltac:(lia) ltac:(lia))
    as (v & z & Hv & Hget & Hint & Htrunc & Hfloor).
  assert (gX (Model.model near_integral_test.engine) v
          = (1073741823 # 1073741824)%Q) as Hval.
  { vm_compute in Hv. injection Hv as <-. vm_compute. reflexivity. }
  exists v, z. split; [exact Hv |]. split; [exact Hget |]. split; [exact Hval |].
  split; [apply Htrunc; rewrite Hval; reflexivity |].
  split; [exact Hint |]. split; [exact Htrunc | exact Hfloor].
Defined.

Lemma unsatisfiable_requirements_witness :
  ∃ self,
    Model.__init__ small_test.optimize 3 2 4 0 small_test.S 0 0 small_test.a
      small_test.m small_test.fp small_test.fv 1 1 1 100 = (Ok tt, self)
    ∧ (∀ val t S_t,
         0 ≤ t < 3 → small_test.S !! Z.to_nat t = Some S_t → S_t < 0 →
         ¬ Forall (sat val) (gconstrs (Model.model self)))
    ∧ (∀ val,
         binary 3 2 val → 3 < 4 ∨ 3 < 0 ∨ 2 < 0 ∨ 2 < 0 →
         ¬ Forall (sat val) (gconstrs (Model.model self))).
Proof.
  assert (valid_input 3 2 4 0 small_test.S 0 0 small_test.a small_test.m
            small_test.fp small_test.fv 1 1 1 100) as Hvalid.
  { apply checks_valid_input; vm_compute; reflexivity. }
  eexists. split; [exact (init_valid small_test.optimize _ _ _ _ _ _ _ _ _ _ _ _ _ _ _
                            Hvalid) |].
  exact (unsatisfiable_requirements small_test.optimize 3 2 4 0 small_test.S 0 0
           small_test.a small_test.m small_test.fp small_test.fv 1 1 1 100 _
           (init_valid small_test.optimize _ _ _ _ _ _ _ _ _ _ _ _ _ _ _ Hvalid)).
Defined.

Lemma reported_values_feasible_witness :
  ∃ self,
    Model.__init__ small_test.optimize 3 2 0 0 small_test.S 0 0 small_test.a
      small_test.m small_test.fp small_test.fv 1 1 1 100 = (Ok tt, self)
    ∧ Model.status self = Model.OPTIMAL
    ∧ sound_on small_test.optimize
        (program 3 2 0 0 small_test.S 0 0 small_test.a small_test.m small_test.fp
           small_test.fv 1 1 1 100)
    ∧ ∃ xp xv : Z → Z → Z,
        (∀ t d, 0 ≤ t < 3 → 0 ≤ d < 2 →
           Model.__getitem__ self (Model.IN_PERSON, Idx t, Idx d)
           = Ok (Some (Values (Leaf (xp t d))))
           ∧ Model.__getitem__ self (Model.VIRTUAL, Idx t, Idx d)
             = Ok (Some (Values (Leaf (xv t d))))
           ∧ (xp t d = 0 ∨ xp t d = 1) ∧ (xv t d = 0 ∨ xv t d = 1))
        ∧ hard_constraints 3 2 0 0 small_test.S 0 0 small_test.a
            (λ t d, inject_Z (xp t d)) (λ t d, inject_Z (xv t d)).
Proof.
  exists (Schedule.__model small_test.schedule).
  split; [exact small_test_engine |].
  split; [exact small_test_engine_optimal |].
  split; [exact small_test_sound |].
  exact (reported_values_feasible small_test.optimize 3 2 0 0 small_test.S 0 0
           small_test.a small_test.m small_test.fp small_test.fv 1 1 1 100
           (Schedule.__model small_test.schedule)
           small_test_engine small_test_engine_optimal small_test_sound).
Defined.

Lemma small_test_other_entries :
  (∀ tutor, tutor ∈ small_test.tutors →
     <["Zed"%string := 7]> small_test.max_shifts_by_tutor !! tutor
     = small_test.max_shifts_by_tutor !! tutor
     ∧ small_test.mode_preference !! tutor = small_test.mode_preference !! tutor
     ∧ ∀ day, day ∈ small_test.days →
         small_test.availability !! tutor ≫= (.!! day)
         = small_test.availability !! tutor ≫= (.!! day))
  ∧ (∀ day, day ∈ small_test.days →
       <["Fri"%string := 1%Q]> small_test.target_ip_fractions !! day
       = small_test.target_ip_fractions !! day
       ∧ small_test.target_v_fractions !! day = small_test.target_v_fractions !! day).
Proof.
  destruct small_test_listed as (_ & _ & _ & _ & Hzed & Hfri). split.
  - intros tutor Htutor. split; [| done].
    apply lookup_insert_ne. by intros <-.
  - intros day Hday. split; [| done].
    apply lookup_insert_ne. by intros <-.
Qed.

Lemma unlisted_entries_ignored_witness :
  ((∀ tutor, tutor ∈ small_test.tutors →
      <["Zed"%string := 7]> small_test.max_shifts_by_tutor !! tutor
      = small_test.max_shifts_by_tutor !! tutor
      ∧ small_test.mode_preference !! tutor = small_test.mode_preference !! tutor
      ∧ ∀ day, day ∈ small_test.days →
          small_test.availability !! tutor ≫= (.!! day)
          = small_test.availability !! tutor ≫= (.!! day))
   ∧ (∀ day, day ∈ small_test.days →
        <["Fri"%string := 1%Q]> small_test.target_ip_fractions !! day
        = small_test.target_ip_fractions !! day
        ∧ small_test.target_v_fractions !! day
          = small_test.target_v_fractions !! day))
  ∧ Schedule.__init__ small_test.optimize small_test.tutors small_test.days 0 0 0 0
      (<["Zed"%string := 7]> small_test.max_shifts_by_tutor)
      small_test.mode_preference small_test.availability
      (<["Fri"%string := 1%Q]> small_test.target_ip_fractions)
      small_test.target_v_fractions 1 1 1 100
    = Schedule.__init__ small_test.optimize small_test.tutors small_test.days 0 0 0 0
        small_test.max_shifts_by_tutor small_test.mode_preference
        small_test.availability small_test.target_ip_fractions
        small_test.target_v_fractions 1 1 1 100.
Proof.
  split; [exact small_test_other_entries |].
  exact (unlisted_entries_ignored small_test.optimize small_test.tutors
           small_test.days 0 0 0 0 small_test.max_shifts_by_tutor
           small_test.mode_preference small_test.availability
           small_test.target_ip_fractions small_test.target_v_fractions 1 1 1 100
           (<["Zed"%string := 7]> small_test.max_shifts_by_tutor)
           small_test.mode_preference small_test.availability
           (<["Fri"%string := 1%Q]> small_test.target_ip_fractions)
           small_test.target_v_fractions
           (proj1 small_test_other_entries) (proj2 small_test_other_entries)).
Defined.

Lemma index_tables_invert_lists_witness :
  ∃ sch,
    small_test.facade = Ok sch
    ∧ Schedule.tutors sch = small_test.tutors ∧ Schedule.days sch = small_test.days
    ∧ (∀ tutor i,
         Schedule.__tutor_index sch !! tutor = Some i
         ↔ 0 ≤ i ∧ Schedule.tutors sch !! Z.to_nat i = Some tutor)
    ∧ (∀ day i,
         Schedule.__day_index sch !! day = Some i
         ↔ 0 ≤ i ∧ Schedule.days sch !! Z.to_nat i = Some day).
Proof.
  exists small_test.schedule. split; [exact small_test_facade |].
  exact (index_tables_invert_lists small_test.optimize small_test.tutors
           small_test.days 0 0 0 0 small_test.max_shifts_by_tutor
           small_test.mode_preference small_test.availability
           small_test.target_ip_fractions small_test.target_v_fractions 1 1 1 100
           small_test.schedule small_test_facade).
Defined.

Lemma virtual_accepted : accepted_mode Schedule.VIRTUAL.
Proof. right. left. reflexivity. Defined.

Lemma queries_agree_witness :
  ∃ sch,
    small_test.facade = Ok sch
    ∧ Model.status (Schedule.__model sch) = Model.OPTIMAL
    ∧ accepted_mode Schedule.VIRTUAL
    ∧ "Adem"%string ∈ Schedule.tutors sch ∧ "Mon"%string ∈ Schedule.days sch
    ∧ ∃ (of_tutor of_day : list string) (b : bool),
        Schedule.get_tutor_schedule sch Schedule.VIRTUAL "Adem" = Ok of_tutor
        ∧ Schedule.get_day_schedule sch Schedule.VIRTUAL "Mon" = Ok of_day
        ∧ Schedule.check sch Schedule.VIRTUAL "Adem" "Mon" = Ok b
        ∧ ("Mon"%string ∈ of_tutor ↔ b = true)
        ∧ ("Adem"%string ∈ of_day ↔ b = true).
Proof.
  destruct small_test_listed as (Hadem & _ & _ & Hmon & _).
  exists small_test.schedule. split; [exact small_test_facade |].
  split; [exact small_test_optimal |]. split; [exact virtual_accepted |].
  split; [exact Hadem |]. split; [exact Hmon |].
  exact (queries_agree small_test.optimize small_test.tutors small_test.days
           0 0 0 0 small_test.max_shifts_by_tutor small_test.mode_preference
           small_test.availability small_test.target_ip_fractions
           small_test.target_v_fractions 1 1 1 100
           small_test.schedule Schedule.VIRTUAL "Adem" "Mon"
           small_test_facade small_test_optimal virtual_accepted Hadem Hmon).
Defined.

Lemma small_test_ceiling : small_test.max_shifts_by_tutor !! "Adem"%string = Some 2.
Proof. vm_compute. reflexivity. Defined.

Lemma schedule_respects_shift_limits_witness :
  ∃ sch,
    small_test.facade = Ok sch
    ∧ Model.status (Schedule.__model sch) = Model.OPTIMAL
    ∧ projected small_test.tutors small_test.days small_test.max_shifts_by_tutor
        small_test.mode_preference small_test.availability
        small_test.target_ip_fractions small_test.target_v_fractions
        small_test.S small_test.m small_test.a small_test.fp small_test.fv
    ∧ sound_on small_test.optimize
        (program 3 2 0 0 small_test.S 0 0 small_test.a small_test.m small_test.fp
           small_test.fv 1 1 1 100)
    ∧ "Adem"%string ∈ small_test.tutors
    ∧ small_test.max_shifts_by_tutor !! "Adem"%string = Some 2
    ∧ ∃ either in_person virtual,
        Schedule.get_tutor_schedule sch Schedule.EITHER "Adem" = Ok either
        ∧ Schedule.get_tutor_schedule sch Schedule.IN_PERSON "Adem" = Ok in_person
        ∧ Schedule.get_tutor_schedule sch Schedule.VIRTUAL "Adem" = Ok virtual
        ∧ 0 ≤ Z.of_nat (length either) ≤ 2
        ∧ 0 ≤ Z.of_nat (length in_person)
        ∧ length either = (length in_person + length virtual)%nat.
Proof.
  destruct small_test_listed as (Hadem & _).
  exists small_test.schedule. split; [exact small_test_facade |].
  split; [exact small_test_optimal |]. split; [exact small_test_projected |].
  split; [exact small_test_sound |]. split; [exact Hadem |].
  split; [exact small_test_ceiling |].
  exact (schedule_respects_shift_limits small_test.optimize small_test.tutors
           small_test.days 0 0 0 0 small_test.max_shifts_by_tutor
           small_test.mode_preference small_test.availability
           small_test.target_ip_fractions small_test.target_v_fractions 1 1 1 100
           small_test.schedule small_test.S small_test.m small_test.a
           small_test.fp small_test.fv
           small_test_facade small_test_optimal small_test_projected
           small_test_sound "Adem" 2 Hadem small_test_ceiling).
Defined.

(** The test with coverage floors: its arguments are valid, the facade is
    constructed and the stub answers its program soundly. *)
Lemma coverage_test_valid :
  valid_input 3 2 1 1 coverage_test.S 1 0 coverage_test.a coverage_test.m
              coverage_test.fp coverage_test.fv 1 1 1 1.
Proof. apply checks_valid_input; vm_compute; reflexivity. Defined.

Lemma coverage_test_NoDup : NoDup coverage_test.tutors ∧ NoDup coverage_test.days.
Proof. split; apply (bool_decide_unpack _); vm_compute; exact I. Defined.

Lemma coverage_test_projected :
  projected coverage_test.tutors coverage_test.days coverage_test.max_shifts_by_tutor
    coverage_test.mode_preference coverage_test.availability
    coverage_test.target_ip_fractions coverage_test.target_v_fractions
    coverage_test.S coverage_test.m coverage_test.a coverage_test.fp coverage_test.fv.
Proof. repeat split; vm_compute; reflexivity. Defined.

Lemma coverage_test_facade : coverage_test.facade = Ok coverage_test.schedule.
Proof.
  exact (schedule_init_Ok coverage_test.optimize coverage_test.tutors
           coverage_test.days 1 1 1 0 coverage_test.max_shifts_by_tutor
           coverage_test.mode_preference coverage_test.availability
           coverage_test.target_ip_fractions coverage_test.target_v_fractions
           1 1 1 1
           coverage_test.S coverage_test.m coverage_test.a coverage_test.fp
           coverage_test.fv
           (proj1 coverage_test_NoDup) (proj2 coverage_test_NoDup)
           coverage_test_projected coverage_test_valid).
Defined.

Lemma coverage_test_optimal :
  Model.status (Schedule.__model coverage_test.schedule) = Model.OPTIMAL.
Proof. reflexivity. Defined.

Lemma coverage_test_sound :
  sound_on coverage_test.optimize
    (program 3 2 1 1 coverage_test.S 1 0 coverage_test.a coverage_test.m
       coverage_test.fp coverage_test.fv 1 1 1 1).
Proof.
  intros _. split.
  - apply forallb_sat. vm_compute. reflexivity.
  - intros v _ _. simpl. destruct (bool_decide _); [right | left]; reflexivity.
Qed.

Lemma coverage_test_listed :
  "Ann"%string ∈ coverage_test.tutors
  ∧ "Sat"%string ∈ coverage_test.days ∧ "Sun"%string ∈ coverage_test.days.
Proof. repeat split; apply (bool_decide_unpack _); vm_compute; exact I. Defined.

Lemma schedule_meets_coverage_witness :
  ∃ sch,
    coverage_test.facade = Ok sch
    ∧ Model.status (Schedule.__model sch) = Model.OPTIMAL
    ∧ projected coverage_test.tutors coverage_test.days
        coverage_test.max_shifts_by_tutor coverage_test.mode_preference
        coverage_test.availability coverage_test.target_ip_fractions
        coverage_test.target_v_fractions
        coverage_test.S coverage_test.m coverage_test.a coverage_test.fp
        coverage_test.fv
    ∧ sound_on coverage_test.optimize
        (program 3 2 1 1 coverage_test.S 1 0 coverage_test.a coverage_test.m
           coverage_test.fp coverage_test.fv 1 1 1 1)
    ∧ "Sun"%string ∈ coverage_test.days
    ∧ Schedule.get_day_schedule sch Schedule.IN_PERSON "Sun" = Ok ["Ben"%string]
    ∧ Schedule.get_day_schedule sch Schedule.VIRTUAL "Sun" = Ok ["Cy"%string]
    ∧ ∃ in_person virtual,
        Schedule.get_day_schedule sch Schedule.IN_PERSON "Sun" = Ok in_person
        ∧ Schedule.get_day_schedule sch Schedule.VIRTUAL "Sun" = Ok virtual
        ∧ 1 ≤ Z.of_nat (length in_person)
        ∧ 1 ≤ Z.of_nat (length virtual).
Proof.
  destruct coverage_test_listed as (_ & _ & Hsun).
  exists coverage_test.schedule. split; [exact coverage_test_facade |].
  split; [exact coverage_test_optimal |]. split; [exact coverage_test_projected |].
  split; [exact coverage_test_sound |]. split; [exact Hsun |].
  split; [vm_compute; reflexivity |]. split; [vm_compute; reflexivity |].
  exact (schedule_meets_coverage coverage_test.optimize coverage_test.tutors
           coverage_test.days 1 1 1 0 coverage_test.max_shifts_by_tutor
           coverage_test.mode_preference coverage_test.availability
           coverage_test.target_ip_fractions coverage_test.target_v_fractions 1 1 1 1
           coverage_test.schedule coverage_test.S coverage_test.m coverage_test.a
           coverage_test.fp coverage_test.fv
           coverage_test_facade coverage_test_optimal coverage_test_projected
           coverage_test_sound "Sun" Hsun).
Defined.

Lemma coverage_test_unavailable :
  coverage_test.availability !! "Ann"%string = Some coverage_test.ann_week
  ∧ coverage_test.ann_week !! "Sun"%string = Some Schedule.UNAVAILABLE
  ∧ coverage_test.ann_week !! "Sat"%string = Some Schedule.PREFERRED.
Proof. repeat split; vm_compute; reflexivity. Defined.

Lemma schedule_respects_availability_witness :
  ∃ sch,
    coverage_test.facade = Ok sch
    ∧ Model.status (Schedule.__model sch) = Model.OPTIMAL
    ∧ projected coverage_test.tutors coverage_test.days
        coverage_test.max_shifts_by_tutor coverage_test.mode_preference
        coverage_test.availability coverage_test.target_ip_fractions
        coverage_test.target_v_fractions
        coverage_test.S coverage_test.m coverage_test.a coverage_test.fp
        coverage_test.fv
    ∧ sound_on coverage_test.optimize
        (program 3 2 1 1 coverage_test.S 1 0 coverage_test.a coverage_test.m
           coverage_test.fp coverage_test.fv 1 1 1 1)
    ∧ "Ann"%string ∈ coverage_test.tutors
    ∧ "Sat"%string ∈ coverage_test.days ∧ "Sun"%string ∈ coverage_test.days
    ∧ coverage_test.availability !! "Ann"%string = Some coverage_test.ann_week
    ∧ coverage_test.ann_week !! "Sun"%string = Some Schedule.UNAVAILABLE
    ∧ (∃ in_person virtual : bool,
         Schedule.check sch Schedule.IN_PERSON "Ann" "Sun" = Ok in_person
         ∧ Schedule.check sch Schedule.VIRTUAL "Ann" "Sun" = Ok virtual
         ∧ Schedule.check sch Schedule.EITHER "Ann" "Sun" = Ok (in_person || virtual)
         ∧ in_person && virtual = false
         ∧ in_person = false ∧ virtual = false)
    ∧ Schedule.check sch Schedule.IN_PERSON "Ann" "Sat" = Ok true
    ∧ Schedule.check sch Schedule.VIRTUAL "Ann" "Sat" = Ok false
    ∧ (∃ in_person virtual : bool,
         Schedule.check sch Schedule.IN_PERSON "Ann" "Sat" = Ok in_person
         ∧ Schedule.check sch Schedule.VIRTUAL "Ann" "Sat" = Ok virtual
         ∧ Schedule.check sch Schedule.EITHER "Ann" "Sat" = Ok (in_person || virtual)
         ∧ in_person && virtual = false
         ∧ ∀ row v,
             coverage_test.availability !! "Ann"%string = Some row →
             row !! "Sat"%string = Some v →
             (v == Schedule.UNAVAILABLE)%Q →
             in_person = false ∧ virtual = false).
Proof.
  destruct coverage_test_listed as (Hann & Hsat & Hsun).
  destruct coverage_test_unavailable as (Hrow & Hcell & _).
  exists coverage_test.schedule. split; [exact coverage_test_facade |].
  split; [exact coverage_test_optimal |]. split; [exact coverage_test_projected |].
  split; [exact coverage_test_sound |]. split; [exact Hann |].
  split; [exact Hsat |]. split; [exact Hsun |].
  split; [exact Hrow |]. split; [exact Hcell |].
  split; [| split; [vm_compute; reflexivity | split; [vm_compute; reflexivity |]]].
  - destruct (schedule_respects_availability coverage_test.optimize
                coverage_test.tutors coverage_test.days 1 1 1 0
                coverage_test.max_shifts_by_tutor coverage_test.mode_preference
                coverage_test.availability coverage_test.target_ip_fractions
                coverage_test.target_v_fractions 1 1 1 1
                coverage_test.schedule coverage_test.S coverage_test.m
                coverage_test.a coverage_test.fp coverage_test.fv
                coverage_test_facade coverage_test_optimal coverage_test_projected
                coverage_test_sound "Ann" "Sun" Hann Hsun)
      as (in_person & virtual & Hp & Hv & He & Hone & Hun).
    exists in_person, virtual.
    split; [exact Hp |]. split; [exact Hv |]. split; [exact He |].
    split; [exact Hone |].
    exact (Hun coverage_test.ann_week Schedule.UNAVAILABLE Hrow Hcell
             (Qeq_refl Schedule.UNAVAILABLE)).
  - exact (schedule_respects_availability coverage_test.optimize
             coverage_test.tutors coverage_test.days 1 1 1 0
             coverage_test.max_shifts_by_tutor coverage_test.mode_preference
             coverage_test.availability coverage_test.target_ip_fractions
             coverage_test.target_v_fractions 1 1 1 1
             coverage_test.schedule coverage_test.S coverage_test.m
             coverage_test.a coverage_test.fp coverage_test.fv
             coverage_test_facade coverage_test_optimal coverage_test_projected
             coverage_test_sound "Ann" "Sat" Hann Hsat).
Defined.

Lemma indexer_slices_witness :
  ∃ self,
    Model.__init__ small_test.optimize 3 2 0 0 small_test.S 0 0 small_test.a
      small_test.m small_test.fp small_test.fv 1 1 1 100 = (Ok tt, self)
    ∧ Model.status self = Model.OPTIMAL ∧ is_mode Model.VIRTUAL
    ∧ 0 ≤ 1 ∧ 1 ≤ 5
    ∧ let value := λ t d, Leaf (solved_value self (handle 3 2 Model.VIRTUAL t d)) in
      (∀ d, 0 ≤ d < 2 →
         Model.__getitem__ self (Model.VIRTUAL, Slice (Some 1) (Some 5), Idx d)
         = Ok (Some (Values (PyList (map (λ t, value t d) (interval 1 (Z.min 5 3)))))))
      ∧ (∀ t, 0 ≤ t < 3 →
           Model.__getitem__ self (Model.VIRTUAL, Idx t, Slice (Some 1) (Some 5))
           = Ok (Some (Values (PyList (map (value t) (interval 1 (Z.min 5 2)))))))
      ∧ (∀ lo' hi', 0 ≤ lo' → lo' ≤ hi' →
           Model.__getitem__ self
             (Model.VIRTUAL, Slice (Some 1) (Some 5), Slice (Some lo') (Some hi'))
           = Ok (Some (Values (PyList
               (map (λ t, PyList (map (value t) (interval lo' (Z.min hi' 2))))
                    (interval 1 (Z.min 5 3))))))).
Proof.
  exists (Schedule.__model small_test.schedule).
  split; [exact small_test_engine |].
  split; [exact small_test_engine_optimal |].
  split; [exact virtual_is_mode |].
  split; [lia |]. split; [lia |].
  apply (indexer_slices small_test.optimize 3 2 0 0 small_test.S 0 0
           small_test.a small_test.m small_test.fp small_test.fv 1 1 1 100
           (Schedule.__model small_test.schedule) Model.VIRTUAL 1 5
           small_test_engine small_test_engine_optimal virtual_is_mode); lia.
Defined.

Lemma indexer_while_loading_witness :
  0 < 3 ∧ 0 < 2 ∧ is_mode Model.IN_PERSON
  ∧ ∃ self,
      Model.__set_decision_variables 3 2 (fresh 3 2) = (Ok tt, self)
      ∧ Model.status self = Model.LOADING
      ∧ ∀ t d, 0 ≤ t < 3 → 0 ≤ d < 2 →
          ∃ v,
            Model.__getitem__ self (Model.IN_PERSON, Idx t, Idx d)
            = Ok (Some (Handles (Leaf v)))
            ∧ index2 (vars_of self Model.IN_PERSON) t d = Ok v
            ∧ gvars (Model.model self) !! var_index v = Some v.
Proof.
  split; [lia |]. split; [lia |]. split; [exact in_person_is_mode |].
  apply (indexer_while_loading 3 2 Model.IN_PERSON); [lia | lia | exact in_person_is_mode].
Defined.

(** The table that the model prints for the small test is the output
    recorded in the notebook. *)
Lemma small_test_printed :
  let P := (colorama.Fore_BLUE +:+ "P" +:+ colorama.Style_RESET_ALL)%string in
  let V := (colorama.Fore_MAGENTA +:+ "V" +:+ colorama.Style_RESET_ALL)%string in
  let X := (colorama.Fore_RED +:+ "X" +:+ colorama.Style_RESET_ALL)%string in
  Schedule.print_schedule small_test.schedule []
  = (Ok tt,
     [P +:+ " = scheduled for in-person";
      V +:+ " = scheduled for virtual";
      X +:+ " = not scheduled" +:+ newline;
      "       Sun  Mon     #P   #V";
      " Adem    " +:+ V +:+ "    " +:+ V +:+ "      0    2";
      "Bebby    " +:+ V +:+ "    " +:+ V +:+ "      0    2";
      " Chel    " +:+ X +:+ "    " +:+ P +:+ "      1    0";
      "";
      "   #P    0    1";
      "   #V    2    2"]%string).
Proof. vm_compute. reflexivity. Qed.

Lemma small_test_binary : binary_solution (Schedule.__model small_test.schedule).
Proof.
  intros v _. simpl. destruct (bool_decide _); [right | left]; reflexivity.
Qed.

Lemma print_schedule_lines_witness :
  ∃ sch,
    small_test.facade = Ok sch
    ∧ ∃ lines,
        Schedule.print_schedule sch [] = (Ok tt, [] ++ lines)
        ∧ (Model.status (Schedule.__model sch) ≠ Model.OPTIMAL →
             lines = ["No schedule found"%string])
        ∧ (Model.status (Schedule.__model sch) = Model.OPTIMAL →
             length lines = (length (Schedule.tutors sch) + 7)%nat
             ∧ take 3 lines = printed.legend
             ∧ lines !! 3%nat = Some (printed.header sch)
             ∧ (∀ i tutor,
                  Schedule.tutors sch !! i = Some tutor →
                  ∃ n_p n_v : Z,
                    lines !! (4 + i)%nat
                    = Some (printed.row sch
                              (λ mode _, if mode =? Schedule.IN_PERSON then n_p else n_v)
                              tutor))
             ∧ lines !! (4 + length (Schedule.tutors sch))%nat = Some ""%string).
Proof.
  exists small_test.schedule. split; [exact small_test_facade |].
  exact (print_schedule_lines small_test.optimize small_test.tutors small_test.days
           0 0 0 0 small_test.max_shifts_by_tutor small_test.mode_preference
           small_test.availability small_test.target_ip_fractions
           small_test.target_v_fractions 1 1 1 100
           small_test.schedule [] small_test_facade).
Defined.

Lemma print_schedule_table_witness :
  ∃ sch,
    small_test.facade = Ok sch
    ∧ Model.status (Schedule.__model sch) = Model.OPTIMAL
    ∧ binary_solution (Schedule.__model sch)
    ∧ Schedule.print_schedule sch [] = (Ok tt, [] ++ printed.table sch).
Proof.
  exists small_test.schedule. split; [exact small_test_facade |].
  split; [exact small_test_optimal |]. split; [exact small_test_binary |].
  exact (print_schedule_table small_test.optimize small_test.tutors small_test.days
           0 0 0 0 small_test.max_shifts_by_tutor small_test.mode_preference
           small_test.availability small_test.target_ip_fractions
           small_test.target_v_fractions 1 1 1 100
           small_test.schedule [] small_test_facade small_test_optimal
           small_test_binary).
Defined.
